(** * Excel chatbot backend: session, usage and chat handlers

    A shallow embedding of the request handlers of the Excel chatbot
    backend (models/User.js, routes/auth.js, routes/chat.js,
    routes/excel.js, middleware/auth.js, middleware/csrf.js,
    middleware/audit.js, middleware/validation.js,
    services/socketService.js, server.js, server-simple.js in its two
    versions and the demo server) together with the properties of its
    login lock, e-mail verification, access tokens, usage gate, domain
    gate, CSRF stage, registration, chat history, address limit and input
    sanitization.

    Conventions.
    - A JavaScript string is a Rocq [string] holding its UTF-8 bytes;
      substring search on well-formed UTF-8 coincides with substring
      search on code points.
    - A [Date] and [Date.now()] are integers, milliseconds since the epoch.
    - Every read of the clock, of the random generator and of a library
      outside the repository (bcrypt, csrf, the database text index) is an
      explicit argument of the handler that reads it.
    - Requests are handled one at a time: the document a handler reads is
      the stored one.  The clock does not advance while one request is
      handled.
    - Database and session operations succeed; the [catch] branches that
      answer 500 when one of them throws are left out, except where a
      handler's own input makes a call throw.
    - A call of a property that holds no function, and a reference to a
      name the module does not bind, throw as they do in JavaScript; the
      stage that makes such a call is modelled with the throw.
    - A handler is modelled from the point where Express hands it the
      request; the stages mounted ahead of it (rate limiters, validators,
      authentication) are named where a property depends on them. *)

From Stdlib Require Import ZArith String Ascii List Bool Lia.
From stdpp Require Import base gmap strings list pretty.

Open Scope string_scope.
Open Scope Z_scope.

(** ** JavaScript values *)

Module JS.

(** [s.includes(sub)] *)
Fixpoint includes (s sub : string) : bool :=
  String.prefix sub s ||
  match s with
  | EmptyString => false
  | String _ s' => includes s' sub
  end.

Definition lower_ascii (c : ascii) : ascii :=
  let n := nat_of_ascii c in
  if ((65 <=? n) && (n <=? 90))%nat then ascii_of_nat (n + 32) else c.

(** [s.toLowerCase()] on the characters the knowledge tables and the
    keyword lists are written in: the letters A-Z are lowered, every
    other byte is kept (digits, punctuation, kana and CJK ideographs
    have no case). *)
Fixpoint toLowerCase (s : string) : string :=
  match s with
  | EmptyString => EmptyString
  | String c s' => String (lower_ascii c) (toLowerCase s')
  end.

(** Truthiness of an optional string: [undefined], [null] and the empty
    string are falsy. *)
Definition truthy (v : option string) : bool :=
  match v with
  | Some s => negb (String.eqb s "")
  | None => false
  end.

(** [a || b] on optional strings. *)
Definition or_else (a b : option string) : option string :=
  if truthy a then a else b.

(** [xs.some(p)] *)
Definition some {A} (p : A -> bool) (xs : list A) : bool := existsb p xs.

(** [lines.join("")] for the [response += ...] accumulations. *)
Definition concat_all (parts : list string) : string :=
  fold_right String.append "" parts.

(** The line feed of a JavaScript ["\n"]. *)
Definition nl : string := String (ascii_of_nat 10) "".

(** [s.length], the number of UTF-16 code units, read off the UTF-8
    bytes: a continuation byte counts 0, the lead byte of a four-byte
    sequence counts 2 (a surrogate pair), every other byte counts 1. *)
Fixpoint length (s : string) : Z :=
  match s with
  | EmptyString => 0
  | String c s' =>
      let n := nat_of_ascii c in
      (if ((128 <=? n) && (n <? 192))%nat then 0
       else if (240 <=? n)%nat then 2 else 1) + length s'
  end.

End JS.

(** ** models/User.js *)

Module UserModel.

Inductive Role := RoleUser | RolePremium | RoleAdmin.

Definition Role_eqb (a b : Role) : bool :=
  match a, b with
  | RoleUser, RoleUser | RolePremium, RolePremium | RoleAdmin, RoleAdmin => true
  | _, _ => false
  end.

Record Usage := mkUsage {
  questionsAsked : Z;
  dailyLimit : Z;
  monthlyLimit : Z;
  lastResetDate : Z
}.

(** A user document.  [loginAttempts] has the schema default 0, so a
    document whose field was removed by [$unset] reads 0; [lockUntil]
    has no default and is absent ([None]) until it is set. *)
Record User := mkUser {
  _id : string;
  username : string;
  email : string;
  password : string;
  firstName : option string;
  lastName : option string;
  role : Role;
  isActive : bool;
  isEmailVerified : bool;
  emailVerificationToken : option string;
  emailVerificationExpires : option Z;
  loginAttempts : Z;
  lockUntil : option Z;
  lastLogin : option Z;
  lastLoginIP : option string;
  usage : Usage
}.

Definition set_login (attempts : Z) (lock : option Z) (u : User) : User :=
  mkUser (_id u) (username u) (email u) (password u) (firstName u) (lastName u)
         (role u) (isActive u) (isEmailVerified u)
         (emailVerificationToken u) (emailVerificationExpires u)
         attempts lock (lastLogin u) (lastLoginIP u) (usage u).

Definition set_lastLogin (t : Z) (ip : option string) (u : User) : User :=
  mkUser (_id u) (username u) (email u) (password u) (firstName u) (lastName u)
         (role u) (isActive u) (isEmailVerified u)
         (emailVerificationToken u) (emailVerificationExpires u)
         (loginAttempts u) (lockUntil u) (Some t) ip (usage u).

Definition set_usage (g : Usage) (u : User) : User :=
  mkUser (_id u) (username u) (email u) (password u) (firstName u) (lastName u)
         (role u) (isActive u) (isEmailVerified u)
         (emailVerificationToken u) (emailVerificationExpires u)
         (loginAttempts u) (lockUntil u) (lastLogin u) (lastLoginIP u) g.

(** The virtual [isLocked]:
    [!!(this.lockUntil && this.lockUntil > Date.now())]. *)
Definition isLocked (now : Z) (u : User) : bool :=
  match lockUntil u with
  | Some t => now <? t
  | None => false
  end.

Definition lockDuration : Z := 2 * 60 * 60 * 1000.

(** [incLoginAttempts]: an expired lock restarts the count at 1;
    otherwise the count is incremented and, when it reaches 5 on an
    unlocked account, the lock is set for two hours. *)
Definition incLoginAttempts (now : Z) (u : User) : User :=
  let expired :=
    match lockUntil u with
    | Some t => t <? now
    | None => false
    end in
  if expired then set_login 1 None u
  else if (loginAttempts u + 1 >=? 5) && negb (isLocked now u)
       then set_login (loginAttempts u + 1) (Some (now + lockDuration)) u
       else set_login (loginAttempts u + 1) (lockUntil u) u.

(** [resetLoginAttempts]: [$unset] of both fields, [$set] of the last
    login. *)
Definition resetLoginAttempts (now : Z) (currentIP : option string) (u : User) : User :=
  set_lastLogin now currentIP (set_login 0 None u).

Section Usage.
(** [d.toDateString()]: the local calendar day of a date. *)
Variable toDateString : Z -> string.

(** [incrementUsage] *)
Definition incrementUsage (today : Z) (u : User) : User :=
  let g := usage u in
  let g1 :=
    if negb (String.eqb (toDateString today) (toDateString (lastResetDate g)))
    then mkUsage 0 (dailyLimit g) (monthlyLimit g) today
    else g in
  set_usage (mkUsage (questionsAsked g1 + 1) (dailyLimit g1) (monthlyLimit g1)
                     (lastResetDate g1)) u.
End Usage.

(** [canAskQuestion] *)
Definition canAskQuestion (u : User) : bool :=
  let limit :=
    if Role_eqb (role u) RolePremium then dailyLimit (usage u) * 5
    else dailyLimit (usage u) in
  questionsAsked (usage u) <? limit.

(** The states of one account under the model's operations, from the
    schema defaults. *)
Inductive reachable : User -> Prop :=
| reach_new u :
    loginAttempts u = 0 -> lockUntil u = None -> reachable u
| reach_inc now u :
    reachable u -> reachable (incLoginAttempts now u)
| reach_reset now ip u :
    reachable u -> reachable (resetLoginAttempts now ip u).

End UserModel.

(** ** The session of the hardened server (express-session) *)

Module Http.

Record Session := mkSession {
  s_userId : option string;
  s_username : option string;
  s_role : option UserModel.Role;
  csrfSecret : option string
}.

Definition set_identity (id name : string) (r : UserModel.Role) (s : Session) : Session :=
  mkSession (Some id) (Some name) (Some r) (csrfSecret s).

Definition set_csrfSecret (secret : string) (s : Session) : Session :=
  mkSession (s_userId s) (s_username s) (s_role s) (Some secret).

(** An incoming request, as far as the handlers below read it.  The path
    is the list of its segments: [/api/auth/login] is
    [["api"; "auth"; "login"]]. *)
Record Request := mkRequest {
  method : string;
  path : list string;
  header_x_csrf_token : option string;
  body__csrf : option string;
  query__csrf : option string;
  has_session_cookie : bool
}.

End Http.

(** ** routes/auth.js *)

Module AuthRoutes.
Import UserModel Http.

(** [User.findOne(filter)]: the first document the filter accepts, with
    its position in the collection, which identifies the document for
    the later [updateOne]. *)
Fixpoint findOne (p : User -> bool) (coll : list User) : option (nat * User) :=
  match coll with
  | [] => None
  | u :: rest =>
      if p u then Some (0%nat, u)
      else match findOne p rest with
           | Some (i, v) => Some (S i, v)
           | None => None
           end
  end.

(** [doc.updateOne(...)]: the stored document becomes [u']. *)
Definition updateOne (i : nat) (u' : User) (coll : list User) : list User :=
  <[i := u']> coll.

Inductive LoginResponse :=
| LoginFailed                (* 401 Authentication failed *)
| LoginLocked                (* 423 Account locked *)
| LoginUnverified            (* 403 Email not verified *)
| LoginSuccessful (u : User) (* 200 Login successful *).

Definition login_status (r : LoginResponse) : Z :=
  match r with
  | LoginFailed => 401
  | LoginLocked => 423
  | LoginUnverified => 403
  | LoginSuccessful _ => 200
  end.

(** The filter of the login query:
    [{ $or: [{ username }, { email: username }], isActive: true }]. *)
Definition login_filter (name : string) (u : User) : bool :=
  (String.eqb (username u) name || String.eqb (email u) name) && isActive u.

Section Login.
(** [bcrypt.compare(candidate, hash)] *)
Variable bcrypt_compare : string -> string -> bool.

Definition comparePassword (candidate : string) (u : User) : bool :=
  bcrypt_compare candidate (password u).

(** The handler of POST /login, after the rate limiter and the input
    validation. *)
Definition login (now : Z) (ip : option string)
           (coll : list User) (sess : Session) (name pw : string)
  : LoginResponse * list User * Session :=
  match findOne (login_filter name) coll with
  | None => (LoginFailed, coll, sess)
  | Some (i, user) =>
      if isLocked now user then (LoginLocked, coll, sess)
      else if negb (comparePassword pw user) then
        (LoginFailed, updateOne i (incLoginAttempts now user) coll, sess)
      else if negb (isEmailVerified user) then (LoginUnverified, coll, sess)
      else
        (LoginSuccessful user,
         updateOne i (resetLoginAttempts now ip user) coll,
         set_identity (_id user) (username user) (role user) sess)
  end.

(** One login attempt: the time it arrives at and the password it
    carries. *)
Definition Attempt : Type := Z * string.

(** A sequence of attempts under one name, from one address and one
    browser session; the responses are listed in order. *)
Fixpoint logins (ip : option string) (name : string) (attempts : list Attempt)
         (coll : list User) (sess : Session)
  : list LoginResponse * list User * Session :=
  match attempts with
  | [] => ([], coll, sess)
  | (now, pw) :: rest =>
      let '(r, coll1, sess1) := login now ip coll sess name pw in
      let '(rs, coll2, sess2) := logins ip name rest coll1 sess1 in
      (r :: rs, coll2, sess2)
  end.
End Login.

Record RegisterBody := mkRegisterBody {
  b_username : string;
  b_email : string;
  b_password : string;
  b_firstName : option string;
  b_lastName : option string
}.

Inductive RegisterResponse :=
| RegisterConflict            (* 409 User already exists *)
| RegisterCreated (u : User)  (* 201, verificationRequired: true *)
| RegisterFailed              (* 500 Registration failed *).

Definition register_status (r : RegisterResponse) : Z :=
  match r with
  | RegisterConflict => 409
  | RegisterCreated _ => 201
  | RegisterFailed => 500
  end.

Section Register.
(** [bcrypt.hash(password, saltRounds)] of the pre-save hook. *)
Variable bcrypt_hash : string -> string.
(** The schema validators run by [save]; a rejected document makes
    [save] throw. *)
Variable schema_accepts : User -> bool.

(** [new User({...})] with the schema defaults, after
    [generateEmailVerificationToken]. *)
Definition new_user (now : Z) (oid token : string) (b : RegisterBody) : User :=
  mkUser oid (b_username b) (b_email b) (bcrypt_hash (b_password b))
         (b_firstName b) (b_lastName b)
         RoleUser true false
         (Some token) (Some (now + 24 * 60 * 60 * 1000))
         0 None None None
         (mkUsage 0 100 3000 now).

(** The handler of POST /register, after the rate limiter and the
    input validation.  [oid] is the identifier the driver gives the
    document and [token] the random verification token. *)
Definition register (now : Z) (oid token : string)
           (coll : list User) (sess : Session) (b : RegisterBody)
  : RegisterResponse * list User * Session :=
  match findOne (fun u => String.eqb (email u) (b_email b)
                          || String.eqb (username u) (b_username b)) coll with
  | Some _ => (RegisterConflict, coll, sess)
  | None =>
      let user := new_user now oid token b in
      if schema_accepts user
      then (RegisterCreated user, (coll ++ [user])%list, sess)
      else (RegisterFailed, coll, sess)
  end.
End Register.

End AuthRoutes.

(** ** routes/chat.js *)

Module ChatRoutes.
Import UserModel.

(** The fields of the knowledge documents the reply is built from. *)
Record ExcelFunction := mkExcelFunction {
  fn_name : string;
  fn_description : string;
  fn_syntax : string
}.

Record ExcelFeature := mkExcelFeature {
  ft_name : string;
  ft_description : string
}.

Record BestPractice := mkBestPractice {
  bp_title : string;
  bp_description : string
}.

Record ExcelFAQ := mkExcelFAQ {
  faq_question : string;
  faq_answer : string
}.

Record KnowledgeBase := mkKnowledgeBase {
  functions : list ExcelFunction;
  features : list ExcelFeature;
  practices : list BestPractice;
  faqs : list ExcelFAQ;
  totalResults : nat
}.

Inductive ChatResponse :=
(* 429 Daily limit exceeded *)
| DailyLimitExceeded (limit asked : Z)
(* 400 Non-Excel question *)
| NonExcelQuestion (error message suggestion : string)
(* 200 *)
| ChatAnswer (response : string) (knowledgeResults : nat) (remainingQuestions : Z).

Definition chat_status (r : ChatResponse) : Z :=
  match r with
  | DailyLimitExceeded _ _ => 429
  | NonExcelQuestion _ _ _ => 400
  | ChatAnswer _ _ _ => 200
  end.

Definition excelKeywords : list string :=
  [ "excel"; "spreadsheet"; "formula"; "function"; "cell"; "row"; "column";
    "pivot"; "chart"; "macro"; "vba"; "worksheet"; "workbook"; "sum";
    "vlookup"; "hlookup"; "if"; "countif"; "sumif"; "index"; "match";
    "関数"; "エクセル"; "数式"; "ピボット"; "グラフ"; "マクロ" ].

(** The body of the 400 answer of the domain gate. *)
Definition nonExcelQuestion : ChatResponse :=
  NonExcelQuestion
    "Non-Excel question"
    "This chatbot specializes in Excel questions only. Please ask questions related to Excel functions, features, or best practices."
    "Try asking about Excel functions like VLOOKUP, pivot tables, or chart creation.".

Definition render_function (f : ExcelFunction) : string :=
  JS.concat_all
    [ "• **"; fn_name f; "**: "; fn_description f; JS.nl;
      "  構文: `"; fn_syntax f; "`"; JS.nl; JS.nl ].

Definition render_feature (f : ExcelFeature) : string :=
  JS.concat_all [ "• **"; ft_name f; "**: "; ft_description f; JS.nl; JS.nl ].

Definition render_practice (p : BestPractice) : string :=
  JS.concat_all [ "• **"; bp_title p; "**: "; bp_description p; JS.nl; JS.nl ].

(** The text [generateAIResponse] accumulates in [response]. *)
Definition response_text (kb : KnowledgeBase) : string :=
  JS.concat_all
    [ "申し訳ございませんが、現在AI機能は開発中です。"; JS.nl; JS.nl;
      if (0 <? totalResults kb)%nat then
        JS.concat_all
          [ "関連する情報を見つけました："; JS.nl; JS.nl;
            if (0 <? length (functions kb))%nat then
              JS.concat_all
                ("📊 **関連するExcel関数:**" :: JS.nl
                 :: map render_function (functions kb))
            else "";
            if (0 <? length (features kb))%nat then
              JS.concat_all
                ("🔧 **関連するExcel機能:**" :: JS.nl
                 :: map render_feature (features kb))
            else "";
            if (0 <? length (practices kb))%nat then
              JS.concat_all
                ("💡 **ベストプラクティス:**" :: JS.nl
                 :: map render_practice (practices kb))
            else "" ]
      else
        JS.concat_all
          [ "申し訳ございませんが、お探しの情報が見つかりませんでした。"; JS.nl;
            "より具体的なExcel関連のキーワードを使ってもう一度お試しください。"; JS.nl; JS.nl;
            "例："; JS.nl;
            "• 「VLOOKUP関数の使い方」"; JS.nl;
            "• 「ピボットテーブルの作成方法」"; JS.nl;
            "• 「条件付き書式の設定」" ] ].

Section Handler.
(** [message.toLowerCase()] *)
Variable toLowerCase : string -> string.
Variable toDateString : Z -> string.
(** The four text-index queries [Model.find({ $text: { $search } })]. *)
Variable find_functions : string -> list ExcelFunction.
Variable find_features : string -> list ExcelFeature.
Variable find_practices : string -> list BestPractice.
Variable find_faqs : string -> list ExcelFAQ.

(** [searchExcelKnowledge(query)]: each query with its [limit]. *)
Definition searchExcelKnowledge (query : string) : KnowledgeBase :=
  let fs := take 5 (find_functions query) in
  let ft := take 3 (find_features query) in
  let ps := take 3 (find_practices query) in
  let qs := take 5 (find_faqs query) in
  mkKnowledgeBase fs ft ps qs
    (length fs + length ft + length ps + length qs)%nat.

(** [generateAIResponse(message, knowledgeBase, user)]: the reply text,
    the number of knowledge results and the user after
    [incrementUsage]. *)
Definition generateAIResponse (today : Z) (message : string)
           (kb : KnowledgeBase) (user : User) : string * nat * User :=
  (response_text kb, totalResults kb, incrementUsage toDateString today user).

(** [excelKeywords.some(keyword => message.toLowerCase().includes(keyword))] *)
Definition hasExcelKeywords (message : string) : bool :=
  JS.some (fun keyword => JS.includes (toLowerCase message) keyword) excelKeywords.

(** The responder: the part of the handler of POST /message from the
    keyword detection on. *)
Definition respond (today : Z) (user : User) (message : string)
  : ChatResponse * User :=
  if negb (hasExcelKeywords message) then (nonExcelQuestion, user)
  else
    let kb := searchExcelKnowledge message in
    let '(text, results, user') := generateAIResponse today message kb user in
    (ChatAnswer text results
       (dailyLimit (usage user') - questionsAsked (usage user')),
     user').

(** The handler of POST /message, after [authMiddleware], the chat rate
    limiter and the input validation: the usage check, then the
    responder. *)
Definition post_message (today : Z) (user : User) (message : string)
  : ChatResponse * User :=
  if negb (canAskQuestion user) then
    (DailyLimitExceeded (dailyLimit (usage user)) (questionsAsked (usage user)),
     user)
  else respond today user message.

(** A sequence of chat requests of one user: the day each arrives at
    and its message. *)
Fixpoint post_messages (reqs : list (Z * string)) (user : User)
  : list ChatResponse * User :=
  match reqs with
  | [] => ([], user)
  | (today, message) :: rest =>
      let '(r, user1) := post_message today user message in
      let '(rs, user2) := post_messages rest user1 in
      (r :: rs, user2)
  end.
End Handler.

End ChatRoutes.

(** ** utils/logger.js, as the middlewares use it *)

Module Logger.

(** The functions among the properties of the object the module exports;
    beside them it exports the objects [logger], [securityLogger] and
    [auditLogger]. *)
Definition exported_functions : list string :=
  [ "logSecurityEvent"; "logAuditEvent"; "logUserAction"; "logAPICall";
    "logDBOperation"; "logAuthEvent"; "logError"; "logPerformance";
    "logChatInteraction" ].

(** [logger.method(...)] where [logger] is [require('../utils/logger')],
    the object of the exports: the call returns when the object holds a
    function under that name and throws a [TypeError] when it does not. *)
Definition returns (method : string) : bool :=
  existsb (String.eqb method) exported_functions.

End Logger.

(** ** middleware/csrf.js *)

Module Csrf.
Import Http.

Inductive Outcome :=
| Next (sess : Session)       (* [next()] *)
| Forbidden (sess : Session)  (* 403 Invalid CSRF token *)
| Thrown (sess : Session)     (* the [TypeError] of a call that throws *).

Definition safe_method (m : string) : bool :=
  existsb (String.eqb m) ["GET"; "HEAD"; "OPTIONS"].

(** [req.headers['x-csrf-token'] || req.body._csrf || req.query._csrf] *)
Definition request_token (req : Request) : option string :=
  JS.or_else (header_x_csrf_token req)
             (JS.or_else (body__csrf req) (query__csrf req)).

Section Tokens.
(** [tokens.verify(secret, token)] of the csrf library. *)
Variable tokens_verify : string -> string -> bool.

(** The session after the secret was created when it was missing;
    [fresh] is the value [tokens.secretSync()] returns. *)
Definition with_secret (fresh : string) (sess : Session) : Session :=
  if negb (JS.truthy (csrfSecret sess)) then set_csrfSecret fresh sess else sess.

(** [!token || !tokens.verify(secret, token)] *)
Definition token_rejected (secret : option string) (token : option string) : bool :=
  negb (JS.truthy token)
  || match secret, token with
     | Some s, Some t => negb (tokens_verify s t)
     | _, _ => true
     end.

(** [csrfProtection]: the rejecting branch calls [logger.warn] before it
    answers 403. *)
Definition csrfProtection (fresh : string) (req : Request) (sess : Session) : Outcome :=
  if safe_method (method req) then Next sess
  else
    let sess1 := with_secret fresh sess in
    let secret := csrfSecret sess1 in
    let token := request_token req in
    if token_rejected secret token then
      if Logger.returns "warn" then Forbidden sess1 else Thrown sess1
    else Next sess1.
End Tokens.

End Csrf.

(** ** server.js: the hardened application *)

Module Server.
Import Http Csrf.

Inductive Route :=
| Health       (* GET /health *)
| AuthRouter   (* /api/auth *)
| ChatRouter   (* /api/chat *)
| ExcelRouter  (* /api/excel *)
| Frontend     (* static files and GET * in production *).

Record Result := mkResult {
  status : Z;
  handled_by : option Route;
  session : Session
}.

(** [app.use(mount, ...)]: the mount path is a prefix of the request
    path, segment by segment.  The segments are taken as Express has
    normalised them; the one comparison serves the CSRF mount and the
    router mounts alike. *)
Fixpoint mounted (mount path : list string) : bool :=
  match mount, path with
  | [], _ => true
  | m :: mount', p :: path' => String.eqb m p && mounted mount' path'
  | _ :: _, [] => false
  end.

Section App.
Variable tokens_verify : string -> string -> bool.
(** The stages ahead of the CSRF stage (helmet, CORS, compression, the
    rate limiter, the slow-down, the body parsers, the cookie parser,
    the session, the security headers, the audit logger and the input
    sanitization): [Some s] when one of them answers the request with
    status [s]. *)
Variable upstream : Request -> option Z.
(** What a router answers a request it is handed. *)
Variable router_status : Route -> Request -> Session -> Z.
(** [process.env.NODE_ENV === 'production'] *)
Variable production : bool.

Definition serve (r : Route) (req : Request) (sess : Session) : Result :=
  mkResult (router_status r req sess) (Some r) sess.

(** An error a stage throws goes to the error handler of server.js, which
    calls [logger.error] and then answers [err.status || 500]; when
    [logger.error] throws as well, Express's final handler answers with the
    status of that error.  A [TypeError] carries no status: the answer is
    500 either way, and no route runs. *)
Definition on_error (sess : Session) : Result := mkResult 500 None sess.

(** The stages after the CSRF stage, in the order they are registered. *)
Definition routes (req : Request) (sess : Session) : Result :=
  if (String.eqb (method req) "GET" || String.eqb (method req) "HEAD")
     && bool_decide (path req = ["health"])
  then serve Health req sess
  else if mounted ["api"; "auth"] (path req) then serve AuthRouter req sess
  else if mounted ["api"; "chat"] (path req) then serve ChatRouter req sess
  else if mounted ["api"; "excel"] (path req) then serve ExcelRouter req sess
  else if production
          && (String.eqb (method req) "GET" || String.eqb (method req) "HEAD")
  then serve Frontend req sess
  else mkResult 404 None sess.

(** The application: the upstream stages, [app.use('/api',
    csrfProtection)], then the routes. *)
Definition app (fresh : string) (req : Request) (sess : Session) : Result :=
  match upstream req with
  | Some s => mkResult s None sess
  | None =>
      let stage :=
        if mounted ["api"] (path req)
        then csrfProtection tokens_verify fresh req sess
        else Next sess in
      match stage with
      | Forbidden sess1 => mkResult 403 None sess1
      | Thrown sess1 => on_error sess1
      | Next sess1 => routes req sess1
      end
  end.
End App.

End Server.

(** ** server-simple.js: the public demo application *)

Module ServerSimple.

Record Session := mkSession {
  isLoggedIn : bool;
  userId : option string;
  s_username : option string;
  csrfToken : option string
}.

Record Profile := mkProfile {
  displayName : string;
  excelLevel : string
}.

(** The objects kept in [users]: the demo login stores
    [{id, username, email, role, firstName, lastName}], the registration
    [{id, username, password, email, createdAt, profile}]. *)
Record User := mkUser {
  id : string;
  username : string;
  password : option string;
  email : option string;
  role : option string;
  firstName : option string;
  lastName : option string;
  createdAt : option string;
  profile : option Profile
}.

Inductive HistoryEntry :=
| UserEntry (entry_id : Z) (message : string) (timestamp : string)
| BotEntry (entry_id : Z) (message : string) (formulas : list string)
           (vbaCode : option string) (timestamp : string).

(** The two in-memory stores, [users] and [chatHistory]. *)
Record Store := mkStore {
  users : gmap string User;
  chatHistory : gmap string (list HistoryEntry)
}.

(** What [ExcelAI.generateResponse] hands back, as far as the handler
    reads it. *)
Record AIResponse := mkAIResponse {
  response : string;
  ai_formulas : option (list string);
  ai_vbaCode : option string;
  functionsFound : option Z
}.

Record Body := mkBody {
  b_username : option string;
  b_password : option string;
  b_email : option string;
  b_message : option string
}.

Inductive Response :=
| ValidationError (message : string)                       (* 400 *)
| AuthenticationFailed                                     (* 401 *)
| NotAuthenticated                                         (* 401 *)
| Conflict (message : string)                              (* 409 *)
| InternalServerError                                      (* 500 *)
| CsrfTokenIssued (token : string)                         (* 200 *)
| LoginSuccessful (u : User)                               (* 200 *)
| Registered (u : User)                                    (* 201 *)
| Me (u : User)                                            (* 200 *)
| ChatReply (text : string) (formulas : list string)
            (vbaCode : option string) (knowledgeResults : Z) (* 200 *)
| History (history : list HistoryEntry)                    (* 200 *)
| HistoryCleared                                           (* 200 *).

Definition status (r : Response) : Z :=
  match r with
  | ValidationError _ => 400
  | AuthenticationFailed | NotAuthenticated => 401
  | Conflict _ => 409
  | InternalServerError => 500
  | Registered _ => 201
  | CsrfTokenIssued _ | LoginSuccessful _ | Me _
  | ChatReply _ _ _ _ | History _ | HistoryCleared => 200
  end.

(** [value || ''] read as a string once it is known to be truthy. *)
Definition str (v : option string) : string := default "" v.

(** GET /api/auth/csrf-token: [rand] is
    [Math.random().toString(36).substr(2)]. *)
Definition csrf_token (rand : string) (sess : Session) : Response * Session :=
  (CsrfTokenIssued rand,
   mkSession (isLoggedIn sess) (userId sess) (s_username sess) (Some rand)).

Definition demo_user : User :=
  mkUser "demo-user-001" "demo" None (Some "demo@example.com") (Some "user")
         (Some "Demo") (Some "User") None None.

(** POST /api/auth/login *)
Definition login (st : Store) (sess : Session) (b : Body)
  : Response * Store * Session :=
  if negb (JS.truthy (b_username b)) || negb (JS.truthy (b_password b)) then
    (ValidationError "Username and password are required", st, sess)
  else if String.eqb (str (b_username b)) "demo"
          && String.eqb (str (b_password b)) "demo123" then
    (LoginSuccessful demo_user,
     mkStore (<[id demo_user := demo_user]> (users st)) (chatHistory st),
     mkSession true (Some (id demo_user)) (s_username sess) (csrfToken sess))
  else (AuthenticationFailed, st, sess).

(** [for (const [id, user] of users) if (user.username === username)] *)
Definition username_taken (name : string) (us : gmap string User) : bool :=
  existsb (fun kv => String.eqb (username kv.2) name) (map_to_list us).

(** POST /api/auth/register: [stamp] is the decimal rendering of
    [Date.now()], [rand] is [Math.random().toString(36).substr(2, 9)] and
    [iso] is [new Date().toISOString()]. *)
Definition register (stamp rand iso : string)
           (st : Store) (sess : Session) (b : Body)
  : Response * Store * Session :=
  if negb (JS.truthy (b_username b)) || negb (JS.truthy (b_password b)) then
    (ValidationError "ユーザー名とパスワードが必要です", st, sess)
  else
    let name := str (b_username b) in
    let pw := str (b_password b) in
    if JS.length name <? 3 then
      (ValidationError "ユーザー名は3文字以上である必要があります", st, sess)
    else if JS.length pw <? 6 then
      (ValidationError "パスワードは6文字以上である必要があります", st, sess)
    else if username_taken name (users st) then
      (Conflict "このユーザー名は既に使用されています", st, sess)
    else
      let newId := "user_" +:+ stamp +:+ "_" +:+ rand in
      let mail := if JS.truthy (b_email b) then b_email b else None in
      let newUser :=
        mkUser newId name (Some pw) mail None None None (Some iso)
               (Some (mkProfile name "beginner")) in
      (Registered (mkUser newId name None mail None None None (Some iso)
                          (profile newUser)),
       mkStore (<[newId := newUser]> (users st)) (chatHistory st),
       mkSession true (Some newId) (Some name) (csrfToken sess)).

(** GET /api/auth/me *)
Definition me (st : Store) (sess : Session) : Response :=
  if isLoggedIn sess && JS.truthy (userId sess) then
    match users st !! str (userId sess) with
    | Some u => Me u
    | None => NotAuthenticated
    end
  else NotAuthenticated.

(** [req.session.userId || 'guest'] *)
Definition identity (sess : Session) : string :=
  if JS.truthy (userId sess) then str (userId sess) else "guest".

(** The four readings of the clock in the handler of the chat message:
    [Date.now()] and [new Date().toISOString()] for each entry. *)
Record Ticks := mkTicks {
  user_entry_id : Z;
  user_entry_iso : string;
  bot_entry_now : Z;
  bot_entry_iso : string
}.

(** [if (h.length > 100) h.splice(0, h.length - 100)] *)
Definition trim (h : list HistoryEntry) : list HistoryEntry :=
  if (100 <? length h)%nat then drop (length h - 100) h else h.

Section Chat.
(** [ExcelAI.generateResponse(message)] of services/excelAI, [None]
    when it throws. *)
Variable generateResponse : string -> option AIResponse.

(** POST /api/chat/message *)
Definition chat_message (tk : Ticks) (st : Store) (sess : Session) (b : Body)
  : Response * Store :=
  let uid := identity sess in
  if negb (JS.truthy (b_message b)) then
    (ValidationError "Message is required", st)
  else
    let message := str (b_message b) in
    match generateResponse message with
    | None => (InternalServerError, st)
    | Some ai =>
        let formulas := default [] (ai_formulas ai) in
        let vba := if JS.truthy (ai_vbaCode ai) then ai_vbaCode ai else None in
        let userHistory := default [] (chatHistory st !! uid) in
        let pushed :=
          (userHistory
             ++ [ UserEntry (user_entry_id tk) message (user_entry_iso tk);
                  BotEntry (bot_entry_now tk + 1) (response ai) formulas vba
                           (bot_entry_iso tk) ])%list in
        (ChatReply (response ai) formulas vba (default 0 (functionsFound ai)),
         mkStore (users st) (<[uid := trim pushed]> (chatHistory st)))
    end.
End Chat.

(** GET /api/chat/history *)
Definition get_history (st : Store) (sess : Session) : Response :=
  History (default [] (chatHistory st !! identity sess)).

(** DELETE /api/chat/history *)
Definition delete_history (st : Store) (sess : Session) : Response * Store :=
  (HistoryCleared, mkStore (users st) (delete (identity sess) (chatHistory st))).

(** *** The application *)

Inductive Endpoint :=
| EpCsrfToken | EpLogin | EpRegister | EpMe
| EpChatMessage | EpGetHistory | EpDeleteHistory.

Record Request := mkRequest {
  method : string;
  path : list string;
  header_x_csrf_token : option string;
  body : Body
}.

(** The routes of the session and chat API, as [app.get], [app.post] and
    [app.delete] register them. *)
Definition route (req : Request) : option Endpoint :=
  let m := method req in
  let p := path req in
  if String.eqb m "GET" && bool_decide (p = ["api"; "auth"; "csrf-token"]) then Some EpCsrfToken
  else if String.eqb m "POST" && bool_decide (p = ["api"; "auth"; "login"]) then Some EpLogin
  else if String.eqb m "POST" && bool_decide (p = ["api"; "auth"; "register"]) then Some EpRegister
  else if String.eqb m "GET" && bool_decide (p = ["api"; "auth"; "me"]) then Some EpMe
  else if String.eqb m "POST" && bool_decide (p = ["api"; "chat"; "message"]) then Some EpChatMessage
  else if String.eqb m "GET" && bool_decide (p = ["api"; "chat"; "history"]) then Some EpGetHistory
  else if String.eqb m "DELETE" && bool_decide (p = ["api"; "chat"; "history"]) then Some EpDeleteHistory
  else None.

(** What one request reads from the clock and the random generator. *)
Record Env := mkEnv {
  env_stamp : string;
  env_rand : string;
  env_iso : string;
  env_ticks : Ticks
}.

Record Result := mkResult {
  res_status : Z;
  handled_by : option Endpoint;
  res_response : option Response;
  res_store : Store;
  res_session : Session
}.

Section App.
Variable generateResponse : string -> option AIResponse.
(** The stages ahead of the routes (helmet, CORS, compression, the rate
    limiter, the body parsers, the cookie parser and the session):
    [Some s] when one of them answers the request with status [s]. *)
Variable upstream : Request -> option Z.
(** The status of the requests no route above takes (the health check,
    the password change, the logout, the function search, the pages and
    the final 404). *)
Variable elsewhere : Request -> Z.

Definition answered (e : Endpoint) (r : Response) (st : Store) (sess : Session)
  : Result :=
  mkResult (status r) (Some e) (Some r) st sess.

(** The application: no stage between the session and the routes reads
    [req.session.csrfToken] or the token the request carries. *)
Definition app (env : Env) (req : Request) (st : Store) (sess : Session) : Result :=
  match upstream req with
  | Some s => mkResult s None None st sess
  | None =>
      match route req with
      | Some EpCsrfToken =>
          let '(r, sess1) := csrf_token (env_rand env) sess in
          answered EpCsrfToken r st sess1
      | Some EpLogin =>
          let '(r, st1, sess1) := login st sess (body req) in
          answered EpLogin r st1 sess1
      | Some EpRegister =>
          let '(r, st1, sess1) :=
            register (env_stamp env) (env_rand env) (env_iso env) st sess (body req) in
          answered EpRegister r st1 sess1
      | Some EpMe => answered EpMe (me st sess) st sess
      | Some EpChatMessage =>
          let '(r, st1) :=
            chat_message generateResponse (env_ticks env) st sess (body req) in
          answered EpChatMessage r st1 sess
      | Some EpGetHistory => answered EpGetHistory (get_history st sess) st sess
      | Some EpDeleteHistory =>
          let '(r, st1) := delete_history st sess in
          answered EpDeleteHistory r st1 sess
      | None => mkResult (elsewhere req) None None st sess
      end
  end.
End App.

End ServerSimple.

(** ** The demo server with the in-line keyword matcher *)

Module DemoServer.

Record Example := mkExample {
  ex_formula : string;
  ex_description : string;
  ex_result : string
}.

Record ExcelFunction := mkExcelFunction {
  id : string;
  name : string;
  category : string;
  syntax : string;
  description : string;
  examples : list Example
}.

Definition SUM : ExcelFunction :=
  mkExcelFunction "1" "SUM" "MATH" "SUM(number1, [number2], ...)"
    "数値の合計を計算します"
    [ mkExample "=SUM(A1:A10)" "A1からA10の範囲の合計" "合計値";
      mkExample "=SUM(1,2,3,4,5)" "数値の直接指定" "15" ].

Definition VLOOKUP : ExcelFunction :=
  mkExcelFunction "2" "VLOOKUP" "LOOKUP_REFERENCE"
    "VLOOKUP(lookup_value, table_array, col_index_num, [range_lookup])"
    "垂直方向の検索を行い、対応する値を返します"
    [ mkExample "=VLOOKUP(A2,C:F,2,FALSE)" "A2の値をC列で検索し、D列の値を返す"
                "対応する値" ].

Definition IF : ExcelFunction :=
  mkExcelFunction "3" "IF" "LOGICAL"
    "IF(logical_test, value_if_true, [value_if_false])"
    "条件に応じて異なる値を返します"
    [ mkExample (String.append "=IF(A1>10," (String (ascii_of_nat 34)
                   (String.append "大" (String (ascii_of_nat 34)
                      (String.append "," (String (ascii_of_nat 34)
                         (String.append "小" (String (ascii_of_nat 34) ")"))))))))
                "A1が10より大きい場合は「大」、そうでなければ「小」"
                "大 または 小" ].

Definition excelFunctions : list ExcelFunction := [SUM; VLOOKUP; IF].

Inductive Response :=
| ValidationError (message : string)                 (* 400 *)
| Reply (response : string) (knowledgeResults : nat)  (* 200 *).

Definition render (func : ExcelFunction) : string :=
  JS.concat_all
    [ "📊 **"; name func; "関数**"; JS.nl;
      description func; JS.nl;
      "構文: `"; syntax func; "`"; JS.nl; JS.nl ].

Definition not_found_text : string :=
  JS.concat_all
    [ "申し訳ございませんが、お探しの情報が見つかりませんでした。"; JS.nl;
      "Excel関連のキーワードを使ってもう一度お試しください。"; JS.nl; JS.nl;
      "例："; JS.nl;
      "• 'SUM関数の使い方'"; JS.nl;
      "• 'VLOOKUPで検索したい'"; JS.nl;
      "• 'IF関数の条件分岐'"; JS.nl ].

Section Matcher.
Variable toLowerCase : string -> string.

Definition related (lowerMessage : string) (func : ExcelFunction) : bool :=
  JS.includes lowerMessage (toLowerCase (name func))
  || JS.includes (toLowerCase (description func)) lowerMessage
  || JS.includes lowerMessage "関数"
  || JS.includes lowerMessage "excel".

(** The handler of POST /api/chat/message. *)
Definition chat_message (message : option string) : Response :=
  if negb (JS.truthy message) then ValidationError "Message is required"
  else
    let lowerMessage := toLowerCase (default "" message) in
    let relatedFunctions := List.filter (related lowerMessage) excelFunctions in
    let response :=
      JS.concat_all
        [ "Excel専門チャットボットです。"; JS.nl; JS.nl;
          if (0 <? length relatedFunctions)%nat then
            JS.concat_all
              ("関連する情報を見つけました：" :: JS.nl :: JS.nl
               :: map render relatedFunctions)
          else not_found_text ] in
    Reply response (length relatedFunctions).
End Matcher.

End DemoServer.

(** ** Sample accounts, sessions and requests *)

Module Samples.

(** An account as registration leaves it, its e-mail address not yet
    verified; the stored password stands for its own hash, so that
    [String.eqb] plays [bcrypt.compare]. *)
Definition alice : UserModel.User :=
  UserModel.mkUser "u1" "alice" "alice@example.com" "Secret#123" None None
    UserModel.RoleUser true false None None 0 None None None
    (UserModel.mkUsage 0 100 3000 0).

(** The same account once the address is verified. *)
Definition alice_verified : UserModel.User :=
  UserModel.mkUser "u1" "alice" "alice@example.com" "Secret#123" None None
    UserModel.RoleUser true true None None 0 None None None
    (UserModel.mkUsage 0 100 3000 0).

(** A session of the hardened server that no login has touched. *)
Definition anonymous : Http.Session := Http.mkSession None None None None.

Definition four_wrong : list AuthRoutes.Attempt :=
  [(1000, "a"); (2000, "b"); (3000, "c"); (4000, "d")].

Definition five_wrong : list AuthRoutes.Attempt :=
  (four_wrong ++ [(5000, "e")])%list.

(** A rendering of the calendar day: the number of the UTC day. *)
Definition utc_day (t : Z) : string := pretty (t `div` 86400000).

(** A user of role [user] who has asked the 100 questions of the daily
    limit on day 0. *)
Definition carol_at_limit : UserModel.User :=
  UserModel.mkUser "u2" "carol" "carol@example.com" "hash" None None
    UserModel.RoleUser true true None None 0 None None None
    (UserModel.mkUsage 100 100 3000 0).

(** The same user one question earlier on day 0. *)
Definition carol_one_left : UserModel.User :=
UserModel.mkUser "u2" "carol" "carol@example.com" "hash" None None
  UserModel.RoleUser true true None None 0 None None None
  (UserModel.mkUsage 99 100 3000 0).

(** A text index that answers every query with the SUM function. *)
Definition sum_index (query : string) : list ChatRoutes.ExcelFunction :=
  [ChatRoutes.mkExcelFunction "SUM" "数値の合計を計算します" "SUM(number1, [number2], ...)"].

(** Two chat requests, on day 1 and on day 2. *)
Definition later_questions : list (Z * string) :=
  [(86400000, "excel sum"); (172800000, "vlookup")].

(** A request of the hardened server that changes state and carries no
    token, from a browser with a session cookie. *)
Definition post_without_token : Http.Request :=
Http.mkRequest "POST" ["api"; "chat"; "message"] None None None true.

(** The session of a logged-in user of the hardened server, with a CSRF
    secret. *)
Definition alice_session : Http.Session :=
Http.mkSession (Some "u1") (Some "alice") (Some UserModel.RoleUser) (Some "s3cr3t").

Definition dave : AuthRoutes.RegisterBody :=
AuthRoutes.mkRegisterBody "dave" "dave@example.com" "Secret#123" None None.

(** Two browsers of the demo server that never logged in; the second has
    fetched a CSRF token. *)
Definition guest_a : ServerSimple.Session :=
ServerSimple.mkSession false None None None.

Definition guest_b : ServerSimple.Session :=
ServerSimple.mkSession false None None (Some "k3x9w1").

Definition ask (message : string) : ServerSimple.Body :=
ServerSimple.mkBody None None None (Some message).

Definition credentials (name pw : string) : ServerSimple.Body :=
ServerSimple.mkBody (Some name) (Some pw) None None.

Definition no_body : ServerSimple.Body :=
ServerSimple.mkBody None None None None.

(** A stand-in for the answering service: it echoes the question. *)
Definition echo_ai (message : string) : option ServerSimple.AIResponse :=
Some (ServerSimple.mkAIResponse ("re: " +:+ message) None None None).

Definition ticks : ServerSimple.Ticks :=
ServerSimple.mkTicks 1700000000000 "2023-11-14T22:13:20.000Z"
                     1700000000000 "2023-11-14T22:13:20.000Z".

Definition env : ServerSimple.Env :=
ServerSimple.mkEnv "1700000000000" "abc123xyz" "2023-11-14T22:13:20.000Z" ticks.

Definition empty_store : ServerSimple.Store := ServerSimple.mkStore ∅ ∅.

(** The store after the demo user has logged in once. *)
Definition demo_store : ServerSimple.Store :=
ServerSimple.mkStore {[ "demo-user-001" := ServerSimple.demo_user ]} ∅.

(** A store in which an anonymous visitor has left one message. *)
Definition guest_store : ServerSimple.Store :=
ServerSimple.mkStore ∅
  {[ "guest" := [ServerSimple.UserEntry 1699999999000 "hello" "2023-11-14T22:13:19.000Z"] ]}.

Definition delete_history_request : ServerSimple.Request :=
ServerSimple.mkRequest "DELETE" ["api"; "chat"; "history"] None no_body.

(** The registration form of a new user of the demo server, the user it
    stores and the user the 201 answer shows. *)
Definition dave_form : ServerSimple.Body :=
ServerSimple.mkBody (Some "dave") (Some "Secret#123") (Some "dave@example.com") None.

Definition dave_stored : ServerSimple.User :=
ServerSimple.mkUser "user_1700000000000_abc123xyz" "dave" (Some "Secret#123")
  (Some "dave@example.com") None None None (Some "2023-11-14T22:13:20.000Z")
  (Some (ServerSimple.mkProfile "dave" "beginner")).

Definition dave_shown : ServerSimple.User :=
ServerSimple.mkUser "user_1700000000000_abc123xyz" "dave" None
  (Some "dave@example.com") None None None (Some "2023-11-14T22:13:20.000Z")
  (Some (ServerSimple.mkProfile "dave" "beginner")).

(** A stand-in for the password hash. *)
Definition sample_hash (pw : string) : string := "hash:" +:+ pw.

End Samples.

(** ** routes/auth.js: e-mail verification *)

Module EmailVerification.
Import UserModel Http AuthRoutes.

Inductive VerifyResponse :=
| VerifyInvalid   (* 400 Invalid or expired token *)
| VerifyDone      (* 200 Email verified successfully *).

Definition verify_status (r : VerifyResponse) : Z :=
  match r with
  | VerifyInvalid => 400
  | VerifyDone => 200
  end.

(** The filter of the verification query:
    [{ emailVerificationToken: token,
       emailVerificationExpires: { $gt: Date.now() } }]. *)
Definition verify_filter (token : string) (now : Z) (u : User) : bool :=
  match emailVerificationToken u, emailVerificationExpires u with
  | Some t, Some expires => String.eqb t token && (now <? expires)
  | _, _ => false
  end.

(** [user.isEmailVerified = true] with both token fields set to
    [undefined]. *)
Definition mark_verified (u : User) : User :=
  mkUser (_id u) (username u) (email u) (password u) (firstName u) (lastName u)
         (role u) (isActive u) true None None
         (loginAttempts u) (lockUntil u) (lastLogin u) (lastLoginIP u) (usage u).

(** The handler of GET /verify-email/:token; [save] leaves the password as
    it is, the pre-save hook hashing only a modified password. *)
Definition verify_email (now : Z) (coll : list User) (token : string)
  : VerifyResponse * list User :=
  match findOne (verify_filter token now) coll with
  | None => (VerifyInvalid, coll)
  | Some (i, user) => (VerifyDone, updateOne i (mark_verified user) coll)
  end.

End EmailVerification.

(** ** middleware/auth.js *)

Module AuthMiddleware.
Import UserModel Http AuthRoutes.

(** What [jwt.verify(token, secret)] does with a token: it returns the
    payload of a token the server has signed, whose [id] is read, or
    throws [TokenExpiredError], [JsonWebTokenError] or something else. *)
Inductive JwtResult :=
| JwtPayload (id : string)
| JwtTokenExpired
| JwtMalformed
| JwtOtherError.

Inductive AuthOutcome :=
| Authenticated (user : User)  (* [req.user = user; next()] *)
| NoToken                      (* 401 Access denied, no token *)
| UnknownUser                  (* 401 Access denied, no such active user *)
| AccountLocked                (* 423 Account locked *)
| TokenExpired                 (* 401 Token expired *)
| InvalidToken                 (* 401 Invalid token *)
| AuthenticationError          (* 500 Authentication error *).

Definition auth_status (o : AuthOutcome) : Z :=
  match o with
  | Authenticated _ => 200
  | NoToken | UnknownUser | TokenExpired | InvalidToken => 401
  | AccountLocked => 423
  | AuthenticationError => 500
  end.

(** [User.findById(id)], for an identifier of the collection's
    format. *)
Definition findById (id : string) (coll : list User) : option User :=
  match findOne (fun u => String.eqb (_id u) id) coll with
  | Some (_, u) => Some u
  | None => None
  end.

(** [s.substring(n)] for an ASCII prefix of [n] characters. *)
Fixpoint substring_from (n : nat) (s : string) : string :=
  match n, s with
  | O, _ => s
  | S n', String _ s' => substring_from n' s'
  | S _, EmptyString => EmptyString
  end.

Section Jwt.
Variable jwt_verify : string -> JwtResult.

(** [authMiddleware]: the document is loaded without its password, which
    nothing behind this stage reads. *)
Definition authMiddleware (now : Z) (authorization : option string)
           (coll : list User) : AuthOutcome :=
  if negb (JS.truthy authorization)
     || negb (String.prefix "Bearer " (default "" authorization))
  then NoToken
  else
    let token := substring_from 7 (default "" authorization) in
    match jwt_verify token with
    | JwtPayload id =>
        match findById id coll with
        | None => UnknownUser
        | Some user =>
            if negb (isActive user) then UnknownUser
            else if isLocked now user then AccountLocked
            else Authenticated user
        end
    | JwtTokenExpired => TokenExpired
    | JwtMalformed => InvalidToken
    | JwtOtherError => AuthenticationError
    end.

(** [optionalAuth]: [Some user] when [req.user] is assigned; every error
    is swallowed and the request goes on. *)
Definition optionalAuth (now : Z) (authorization : option string)
           (coll : list User) : option User :=
  if JS.truthy authorization
     && String.prefix "Bearer " (default "" authorization)
  then
    match jwt_verify (substring_from 7 (default "" authorization)) with
    | JwtPayload id =>
        match findById id coll with
        | Some user =>
            if isActive user && negb (isLocked now user) then Some user else None
        | None => None
        end
    | _ => None
    end
  else None.
End Jwt.

Inductive RoleOutcome :=
| RoleNext              (* [next()] *)
| AuthenticationRequired (* 401 *)
| AccessForbidden        (* 403 *).

Definition role_status (o : RoleOutcome) : Z :=
  match o with
  | RoleNext => 200
  | AuthenticationRequired => 401
  | AccessForbidden => 403
  end.

(** [requireRole(roles)] on the value of [req.user]. *)
Definition requireRole (roles : list Role) (req_user : option User) : RoleOutcome :=
  match req_user with
  | None => AuthenticationRequired
  | Some u => if existsb (Role_eqb (role u)) roles then RoleNext else AccessForbidden
  end.

Definition requireAdmin : option User -> RoleOutcome := requireRole [RoleAdmin].

Definition requirePremium : option User -> RoleOutcome :=
  requireRole [RolePremium; RoleAdmin].

(** [usageLimitCheck]: [true] when the request goes on, [false] when it is
    answered 429. *)
Definition usageLimitCheck (req_user : option User) : bool :=
  match req_user with
  | None => true
  | Some u => canAskQuestion u
  end.

End AuthMiddleware.

(** ** routes/excel.js: the guards of the knowledge routes *)

Module ExcelRoutes.
Import UserModel AuthRoutes AuthMiddleware.

Inductive Route :=
| FunctionCategories  (* GET /functions/categories *)
| FunctionSearch      (* GET /functions/search *)
| FeatureSearch       (* GET /features/search *)
| FaqSearch           (* GET /faq/search *)
| Search              (* GET /search *)
| FaqVote             (* POST /faq/:id/vote *)
| AddFunction         (* POST /functions *)
| AddFeature          (* POST /features *)
| AddFaq              (* POST /faq *)
| Stats               (* GET /stats *).

Inductive Middleware :=
| MwAuth                          (* authMiddleware *)
| MwRequireAdmin                  (* requireAdmin *)
| MwDataChangeAudit (op : string) (* dataChangeAudit(op) *).

(** The middlewares each route is registered with, ahead of its
    handler. *)
Definition chain (r : Route) : list Middleware :=
  match r with
  | FunctionCategories | FunctionSearch | FeatureSearch | FaqSearch
  | Search | FaqVote => [MwAuth]
  | AddFunction => [MwRequireAdmin; MwDataChangeAudit "ADD_EXCEL_FUNCTION"]
  | AddFeature => [MwRequireAdmin; MwDataChangeAudit "ADD_EXCEL_FEATURE"]
  | AddFaq => [MwRequireAdmin; MwDataChangeAudit "ADD_FAQ"]
  | Stats => [MwRequireAdmin]
  end.

Inductive Entry :=
| Handler (req_user : option User)  (* the handler runs, with this [req.user] *)
| Rejected (status : Z).

Section Jwt.
Variable jwt_verify : string -> JwtResult.

(** The middlewares of a route in order; [req_user] is [req.user] as the
    stages so far have left it. *)
Fixpoint run (mws : list Middleware) (now : Z) (authorization : option string)
         (coll : list User) (req_user : option User) : Entry :=
  match mws with
  | [] => Handler req_user
  | MwAuth :: rest =>
      match authMiddleware jwt_verify now authorization coll with
      | Authenticated user => run rest now authorization coll (Some user)
      | o => Rejected (auth_status o)
      end
  | MwRequireAdmin :: rest =>
      match requireAdmin req_user with
      | RoleNext => run rest now authorization coll req_user
      | o => Rejected (role_status o)
      end
  | MwDataChangeAudit _ :: rest => run rest now authorization coll req_user
  end.

(** A request as server.js hands it to the router: no stage ahead of the
    router assigns [req.user]. *)
Definition enter (r : Route) (now : Z) (authorization : option string)
           (coll : list User) : Entry :=
  run (chain r) now authorization coll None.
End Jwt.

End ExcelRoutes.

(** ** routes/auth.js: the refresh of the access token *)

Module TokenRoutes.
Import UserModel AuthRoutes AuthMiddleware.

Inductive RefreshResponse :=
| NoRefreshToken                  (* 401 No refresh token *)
| RefreshUserInvalid              (* 401 User not found or inactive *)
| RefreshTokenInvalid             (* 401 Refresh token is invalid or expired *)
| Refreshed (accessToken : string) (* 200 *).

Definition refresh_status (r : RefreshResponse) : Z :=
  match r with
  | Refreshed _ => 200
  | _ => 401
  end.

(** The names routes/auth.js binds at the level of the module, by its
    [require]s and its [const]s. *)
Definition bound : list string :=
  [ "express"; "rateLimit"; "User"; "authAudit";
    "userRegistrationValidation"; "loginValidation"; "handleValidationErrors";
    "generateCSRFToken"; "logAuthEvent"; "logSecurityEvent";
    "router"; "authLimiter"; "passwordResetLimiter" ].

Section Tokens.
(** [jwt.verify(token, process.env.JWT_REFRESH_SECRET)] of jsonwebtoken. *)
Variable jwt_verify_refresh : string -> JwtResult.
(** [user.generateAccessToken()] *)
Variable generateAccessToken : User -> string.

(** The handler of POST /refresh-token on the value of the
    [refreshToken] cookie.  The body of the [try] refers to [jwt]: where
    the module does not bind that name the reference throws, and whatever
    the [try] throws is answered by the [catch]. *)
Definition refresh_token (cookie : option string) (coll : list User)
  : RefreshResponse :=
  if negb (JS.truthy cookie) then NoRefreshToken
  else if negb (existsb (String.eqb "jwt") bound) then RefreshTokenInvalid
  else
    match jwt_verify_refresh (default "" cookie) with
    | JwtPayload id =>
        match findById id coll with
        | Some user =>
            if negb (isActive user) then RefreshUserInvalid
            else Refreshed (generateAccessToken user)
        | None => RefreshUserInvalid
        end
    | _ => RefreshTokenInvalid
    end.
End Tokens.

End TokenRoutes.

(** ** server-simple.js: the logout *)

Module ServerSimpleLogout.
Import ServerSimple.

(** POST /api/auth/logout: [req.session.destroy] succeeds and the next
    request of the browser starts from an empty session. *)
Definition logout (sess : Session) : Session := mkSession false None None None.

End ServerSimpleLogout.

(** ** server-simple.js, the revised server *)

Module ServerFixed.
Import ServerSimple.

(** [users], a [Map] read in insertion order. *)
Definition Users := list (string * User).

(** [users.set(k, v)]: an existing key keeps its place. *)
Fixpoint users_set (k : string) (v : User) (us : Users) : Users :=
  match us with
  | [] => [(k, v)]
  | (k', v') :: rest =>
      if String.eqb k' k then (k, v) :: rest
      else (k', v') :: users_set k v rest
  end.

(** [users.get(k)] *)
Fixpoint users_get (k : string) (us : Users) : option User :=
  match us with
  | [] => None
  | (k', v) :: rest => if String.eqb k' k then Some v else users_get k rest
  end.

Record Store := mkStore {
  users : Users;
  chatHistory : gmap string (list HistoryEntry)
}.

(** [demoUser]; [iso] is the time the server started at. *)
Definition demoUser (iso : string) : User :=
  mkUser "demo_user" "demo" (Some "demo123") None None None None (Some iso)
         (Some (mkProfile "Demo User" "intermediate")).

(** The stores as the server starts. *)
Definition initial (iso : string) : Store :=
  mkStore (users_set "demo_user" (demoUser iso) []) ∅.

(** [{ id, username, email, profile }] of a stored user. *)
Definition shown (u : User) : User :=
  mkUser (id u) (username u) None (email u) None None None None (profile u).

(** [u.username === username && u.password === password] on the fields
    of the body; an absent field is [undefined]. *)
Definition credentials_match (b : Body) (u : User) : bool :=
  bool_decide (Some (username u) = b_username b)
  && bool_decide (password u = b_password b).

(** The loop of the login over [users], up to its [break]. *)
Fixpoint find_user (b : Body) (us : Users) : option User :=
  match us with
  | [] => None
  | (_, u) :: rest => if credentials_match b u then Some u else find_user b rest
  end.

(** POST /api/auth/login *)
Definition login (st : Store) (sess : Session) (b : Body)
  : Response * Store * Session :=
  match find_user b (users st) with
  | Some user =>
      (LoginSuccessful (shown user), st,
       mkSession true (Some (id user)) (Some (username user)) (csrfToken sess))
  | None => (AuthenticationFailed, st, sess)
  end.

(** [for (const [id, user] of users) if (user.username === username)] *)
Definition username_taken (name : string) (us : Users) : bool :=
  existsb (fun kv => String.eqb (username kv.2) name) us.

(** POST /api/auth/register *)
Definition register (stamp rand iso : string)
           (st : Store) (sess : Session) (b : Body)
  : Response * Store * Session :=
  if negb (JS.truthy (b_username b)) || negb (JS.truthy (b_password b)) then
    (ValidationError "ユーザー名とパスワードが必要です", st, sess)
  else
    let name := str (b_username b) in
    let pw := str (b_password b) in
    if JS.length name <? 3 then
      (ValidationError "ユーザー名は3文字以上である必要があります", st, sess)
    else if JS.length pw <? 6 then
      (ValidationError "パスワードは6文字以上である必要があります", st, sess)
    else if username_taken name (users st) then
      (Conflict "このユーザー名は既に使用されています", st, sess)
    else
      let newId := "user_" +:+ stamp +:+ "_" +:+ rand in
      let mail := if JS.truthy (b_email b) then b_email b else None in
      let newUser :=
        mkUser newId name (Some pw) mail None None None (Some iso)
               (Some (mkProfile name "beginner")) in
      (Registered (mkUser newId name None mail None None None (Some iso)
                          (profile newUser)),
       mkStore (users_set newId newUser (users st)) (chatHistory st),
       mkSession true (Some newId) (Some name) (csrfToken sess)).

(** POST /api/auth/logout *)
Definition logout (sess : Session) : Session := mkSession false None None None.

(** GET /api/auth/me *)
Definition me (st : Store) (sess : Session) : Response :=
  if isLoggedIn sess && JS.truthy (userId sess) then
    match users_get (str (userId sess)) (users st) with
    | Some u => Me (shown u)
    | None => NotAuthenticated
    end
  else NotAuthenticated.

Section Chat.
Variable generateResponse : string -> option AIResponse.

(** POST /api/chat/message *)
Definition chat_message (tk : Ticks) (st : Store) (sess : Session) (b : Body)
  : Response * Store :=
  let uid := identity sess in
  if negb (JS.truthy (b_message b)) then
    (ValidationError "Message is required", st)
  else
    let message := str (b_message b) in
    match generateResponse message with
    | None => (InternalServerError, st)
    | Some ai =>
        let formulas := default [] (ai_formulas ai) in
        let vba := if JS.truthy (ai_vbaCode ai) then ai_vbaCode ai else None in
        let userHistory := default [] (chatHistory st !! uid) in
        let pushed :=
          (userHistory
             ++ [ UserEntry (user_entry_id tk) message (user_entry_iso tk);
                  BotEntry (bot_entry_now tk + 1) (response ai) formulas vba
                           (bot_entry_iso tk) ])%list in
        (ChatReply (response ai) formulas vba (default 0 (functionsFound ai)),
         mkStore (users st) (<[uid := trim pushed]> (chatHistory st)))
    end.
End Chat.

(** [history.slice(-20)] *)
Definition slice_last_20 (h : list HistoryEntry) : list HistoryEntry :=
  drop (length h - 20) h.

(** GET /api/chat/history *)
Definition get_history (st : Store) (sess : Session) : Response :=
  History (slice_last_20 (default [] (chatHistory st !! identity sess))).

(** DELETE /api/chat/history *)
Definition delete_history (st : Store) (sess : Session) : Response * Store :=
  (HistoryCleared, mkStore (users st) (delete (identity sess) (chatHistory st))).

End ServerFixed.

(** ** middleware/csrf.js: the issue of tokens *)

Module CsrfToken.
Import Http Csrf.

Section Tokens.
(** [tokens.create(secret)] of the csrf library. *)
Variable tokens_create : string -> string.

(** [generateCSRFToken]: the token of the answer and the session
    after it; [fresh] is the value [tokens.secretSync()] returns. *)
Definition generateCSRFToken (fresh : string) (sess : Session) : string * Session :=
  let sess1 := with_secret fresh sess in
  (tokens_create (default "" (csrfSecret sess1)), sess1).
End Tokens.

End CsrfToken.

(** ** middleware/auth.js: the limit per address *)

Module IpLimit.

Record IpData := mkIpData {
  count : Z;
  lastRequest : Z
}.

(** [ipRequestCounts], the [Map] the middleware closes over. *)
Definition Counts := gmap string IpData.

(** 24 hours in milliseconds. *)
Definition window : Z := 24 * 60 * 60 * 1000.

(** One request through [ipBasedLimit(maxRequestsPerIP)]: [true] when
    it goes on, [false] when it is answered 429, and the map after it. *)
Definition ipBasedLimit (maxRequestsPerIP : Z) (clientIP : string)
           (currentTime : Z) (counts : Counts) : bool * Counts :=
  let windowStart := currentTime - window in
  let cleaned : Counts :=
    filter (fun kv => negb (lastRequest kv.2 <? windowStart) = true) counts in
  let ipData := default (mkIpData 0 currentTime) (cleaned !! clientIP) in
  let count' :=
    if lastRequest ipData <? windowStart then 1 else count ipData + 1 in
  (negb (maxRequestsPerIP <? count'),
   <[clientIP := mkIpData count' currentTime]> cleaned).

(** The requests of one address, at the times given, one after the
    other. *)
Fixpoint requests (maxRequestsPerIP : Z) (clientIP : string) (times : list Z)
         (counts : Counts) : list bool * Counts :=
  match times with
  | [] => ([], counts)
  | t :: rest =>
      let '(ok, counts1) := ipBasedLimit maxRequestsPerIP clientIP t counts in
      let '(oks, counts2) := requests maxRequestsPerIP clientIP rest counts1 in
      (ok :: oks, counts2)
  end.

(** Every request comes within 24 hours of the one before it. *)
Fixpoint without_pause (previous : Z) (times : list Z) : Prop :=
  match times with
  | [] => True
  | t :: rest => t - window <= previous /\ without_pause t rest
  end.

(** The count an address stands at when a request arrives at [t]: that of
    its entry, or 0 when it has none or one older than 24 hours. *)
Definition standing (ip : string) (t : Z) (counts : Counts) : Z :=
  match counts !! ip with
  | Some d => if lastRequest d <? t - window then 0 else count d
  | None => 0
  end.

End IpLimit.

(** ** middleware/audit.js: what is written to the log *)

Module Audit.

(** A value of a parsed JSON body. *)
#[warnings="-register-all"]
Inductive JsValue :=
| JUndefined
| JNull
| JBool (b : bool)
| JNumber (n : Z)
| JString (s : string)
| JArray (items : list JsValue)
| JObject (fields : gmap string JsValue).

(** Truthiness; an absent property reads [undefined]. *)
Definition truthy (v : option JsValue) : bool :=
  match v with
  | None | Some JUndefined | Some JNull => false
  | Some (JBool b) => b
  | Some (JNumber n) => negb (n =? 0)
  | Some (JString s) => negb (String.eqb s "")
  | Some (JArray _) | Some (JObject _) => true
  end.

Definition sensitiveFields : list string :=
  ["password"; "token"; "secret"; "key"; "authorization"].

Definition redacted : JsValue := JString "[REDACTED]".

(** [if (sanitized[field]) sanitized[field] = '[REDACTED]'] *)
Definition redact (sanitized : gmap string JsValue) (field : string)
  : gmap string JsValue :=
  if truthy (sanitized !! field) then <[field := redacted]> sanitized
  else sanitized.

(** [{ ...data }] of an array: its items under their indices. *)
Definition spread (items : list JsValue) : gmap string JsValue :=
  list_to_map (imap (fun i v => (pretty i, v)) items).

(** [sanitizeForLog(data)] *)
Definition sanitizeForLog (data : JsValue) : JsValue :=
  match data with
  | JObject fields => JObject (foldl redact fields sensitiveFields)
  | JArray items => JObject (foldl redact (spread items) sensitiveFields)
  | _ => data
  end.

End Audit.

(** ** middleware/validation.js *)

Module Validation.

Record File := mkFile {
  mimetype : string;
  size : Z
}.

Inductive UploadOutcome :=
| UploadNext        (* [next()] *)
| InvalidFileType   (* 400 Invalid file type *)
| FileTooLarge      (* 400 File too large *).

Definition upload_status (o : UploadOutcome) : Z :=
  match o with
  | UploadNext => 200
  | InvalidFileType | FileTooLarge => 400
  end.

Definition allowedMimeTypes : list string :=
  [ "application/vnd.ms-excel";
    "application/vnd.openxmlformats-officedocument.spreadsheetml.sheet";
    "text/csv"; "image/jpeg"; "image/png"; "image/gif" ].

Definition maxFileSize : Z := 10 * 1024 * 1024.

(** The loop over [req.files], up to its first [return]. *)
Fixpoint check_files (files : list File) : UploadOutcome :=
  match files with
  | [] => UploadNext
  | file :: rest =>
      if negb (existsb (String.eqb (mimetype file)) allowedMimeTypes)
      then InvalidFileType
      else if maxFileSize <? size file then FileTooLarge
      else check_files rest
  end.

(** [fileUploadValidation] on [req.files], [None] when there is none. *)
Definition fileUploadValidation (files : option (list File)) : UploadOutcome :=
  match files with
  | None => UploadNext
  | Some fs => check_files fs
  end.

(** *** The validators of the chat message *)

(** The keywords of the custom validator of [body('message')]. *)
Definition excelKeywords : list string :=
  [ "excel"; "spreadsheet"; "formula"; "function"; "cell"; "row"; "column";
    "pivot"; "chart"; "macro"; "vba"; "worksheet"; "workbook"; "sum";
    "vlookup"; "hlookup"; "if"; "countif"; "sumif"; "index"; "match" ].

Section ChatMessage.
(** [value.toLowerCase()] *)
Variable toLowerCase : string -> string.

(** [excelKeywords.some(keyword => lowerMessage.includes(keyword))] *)
Definition hasExcelContent (message : string) : bool :=
  JS.some (fun keyword => JS.includes (toLowerCase message) keyword) excelKeywords.

(** The custom validator: it warns about a message without keyword and
    returns [true]; [false] here says that it throws, the case in which
    [logger.warn] does. *)
Definition custom_returns (message : string) : bool :=
  hasExcelContent message || Logger.returns "warn".

(** [chatMessageValidation] on a message: whether [validationResult(req)]
    holds an error afterwards.  [library_errors] says whether one of the
    validators of express-validator ([isLength] on the message, [isUUID]
    on the conversation, [isArray] on the attachments) reports one; a
    custom validator that throws makes its field invalid. *)
Definition chatMessageValidation (library_errors : bool) (message : string) : bool :=
  library_errors || negb (custom_returns message).
End ChatMessage.

Inductive Stage :=
| StageNext        (* [next()] *)
| StageBadRequest  (* 400 Validation Error *)
| StageThrown      (* the [TypeError] of a call that throws *).

(** [handleValidationErrors]: with errors it calls [logger.warn] before
    it answers 400. *)
Definition handleValidationErrors (errors : bool) : Stage :=
  if errors then
    if Logger.returns "warn" then StageBadRequest else StageThrown
  else StageNext.

(** *** The sanitization of a string *)

Definition of_bytes (codes : list nat) : string :=
  fold_right (fun n s => String (ascii_of_nat n) s) "" codes.

(** [s.replace(/c/g, replacement)] for a pattern of one character. *)
Fixpoint replaceAll (c : ascii) (replacement : string) (s : string) : string :=
  match s with
  | EmptyString => EmptyString
  | String a rest =>
      if Ascii.eqb a c then replacement +:+ replaceAll c replacement rest
      else String a (replaceAll c replacement rest)
  end.

(** [/[\x00-\x1F\x7F]/] on one code unit. *)
Definition control (a : ascii) : bool :=
  let n := nat_of_ascii a in ((n <=? 31)%nat || (n =? 127)%nat).

(** [s.replace(/[\x00-\x1F\x7F]/g, '')] *)
Fixpoint removeControl (s : string) : string :=
  match s with
  | EmptyString => EmptyString
  | String a rest =>
      if control a then removeControl rest else String a (removeControl rest)
  end.

(** The white space and line terminators [trim] removes, in UTF-8: the
    ASCII ones, U+00A0, U+1680, U+2000 to U+200A, U+2028, U+2029, U+202F,
    U+205F, U+3000 and U+FEFF. *)
Definition whiteSpace : list string :=
  map of_bytes
    ([ [9]; [10]; [11]; [12]; [13]; [32]; [194; 160]; [225; 154; 128] ]
     ++ map (fun n => [226; 128; n]) (seq 128 11)
     ++ [ [226; 128; 168]; [226; 128; 169]; [226; 128; 175];
          [226; 129; 159]; [227; 128; 128]; [239; 187; 191] ])%nat%list.

(** The rest of [s] behind the prefix [p]. *)
Fixpoint strip_prefix (p s : string) : option string :=
  match p, s with
  | EmptyString, _ => Some s
  | String a p', String b s' => if Ascii.eqb a b then strip_prefix p' s' else None
  | String _ _, EmptyString => None
  end.

(** The rest of [s] behind the first of [prefixes] it starts with. *)
Fixpoint strip_any (prefixes : list string) (s : string) : option string :=
  match prefixes with
  | [] => None
  | p :: rest =>
      match strip_prefix p s with
      | Some s' => Some s'
      | None => strip_any rest s
      end
  end.

Fixpoint trimStart_with (prefixes : list string) (fuel : nat) (s : string) : string :=
  match fuel with
  | O => s
  | S fuel' =>
      match strip_any prefixes s with
      | Some s' => trimStart_with prefixes fuel' s'
      | None => s
      end
  end.

Fixpoint reverse (s acc : string) : string :=
  match s with
  | EmptyString => acc
  | String a rest => reverse rest (String a acc)
  end.

(** [s.trim()]: the white space is taken off the start, and off the end
    read backwards. *)
Definition trim (s : string) : string :=
  let s1 := trimStart_with whiteSpace (String.length s) s in
  reverse
    (trimStart_with (map (fun w => reverse w "") whiteSpace)
                    (String.length s1) (reverse s1 ""))
    "".

Section Sanitize.
(** [purify.sanitize(input, sanitizeConfig)] of DOMPurify. *)
Variable purify_sanitize : string -> string.

(** [sanitizeInput(input)] for a string. *)
Definition sanitizeInput (input : string) : string :=
  let sanitized := purify_sanitize input in
  let sanitized :=
    replaceAll "/" "&#x2F;"
      (replaceAll "'" "&#x27;"
         (replaceAll (ascii_of_nat 34) "&quot;"
            (replaceAll ">" "&gt;"
               (replaceAll "<" "&lt;" sanitized)))) in
  let sanitized := removeControl sanitized in
  trim sanitized.
End Sanitize.

(** The characters [sanitizeInput] escapes or removes. *)
Definition dangerous (a : ascii) : bool :=
  existsb (Ascii.eqb a) ["<"; ">"; ascii_of_nat 34; "'"; "/"]%char || control a.

(** Every character of [s] satisfies [p]. *)
Fixpoint every (p : ascii -> bool) (s : string) : bool :=
  match s with
  | EmptyString => true
  | String a rest => p a && every p rest
  end.

Definition clean (s : string) : bool := every (fun a => negb (dangerous a)) s.

End Validation.

(** ** services/socketService.js: the handshake *)

Module SocketService.
Import UserModel AuthRoutes AuthMiddleware.

Inductive SocketAuth :=
(* [next()], with [socket.userId], [socket.username] and [socket.role] *)
| SocketConnected (userId username : string) (role : Role)
(* [next(new Error('Authentication error: No token provided'))] *)
| SocketNoToken
(* [next(new Error('Authentication error: Invalid user'))] *)
| SocketInvalidUser
(* [next(new Error('Authentication error'))] *)
| SocketAuthError.

(** [s.replace(pattern, '')] for a pattern that is a string: its first
    occurrence is taken out. *)
Fixpoint remove_first (pattern s : string) : string :=
  match Validation.strip_prefix pattern s with
  | Some rest => rest
  | None =>
      match s with
      | EmptyString => EmptyString
      | String a s' => String a (remove_first pattern s')
      end
  end.

(** [socket.handshake.auth.token ||
     socket.handshake.headers.authorization?.replace('Bearer ', '')] *)
Definition handshake_token (auth_token authorization : option string)
  : option string :=
  JS.or_else auth_token (option_map (remove_first "Bearer ") authorization).

Section Jwt.
Variable jwt_verify : string -> JwtResult.

(** The middleware [io.use] registers. *)
Definition socket_auth (now : Z) (auth_token authorization : option string)
           (coll : list User) : SocketAuth :=
  let token := handshake_token auth_token authorization in
  if negb (JS.truthy token) then SocketNoToken
  else
    match jwt_verify (default "" token) with
    | JwtPayload id =>
        match findById id coll with
        | Some user =>
            if negb (isActive user) || isLocked now user then SocketInvalidUser
            else SocketConnected (_id user) (username user) (role user)
        | None => SocketInvalidUser
        end
    | _ => SocketAuthError
    end.
End Jwt.

End SocketService.

(** ** The demonstration server: the registration *)

Module DemoRegister.
Import ServerSimple.

(** POST /api/auth/register of the demonstration server; [stamp] is the
    decimal rendering of [Date.now()] and [iso] is
    [new Date().toISOString()].  The session is not touched. *)
Definition register (stamp iso : string) (users : gmap string User) (b : Body)
  : Response * gmap string User :=
  if negb (JS.truthy (b_username b)) || negb (JS.truthy (b_email b))
     || negb (JS.truthy (b_password b))
  then (ValidationError "All fields are required", users)
  else
    let user :=
      mkUser ("user-" +:+ stamp) (str (b_username b)) None (b_email b)
             (Some "user") None None (Some iso) None in
    (Registered user, <[id user := user]> users).

End DemoRegister.

(** ** routes/chat.js: the chat message through its route *)

Module ChatMessageRoute.
Import UserModel ChatRoutes Validation.

Inductive RouteResponse :=
| Handled (r : ChatResponse)  (* the handler answers *)
| ValidationError             (* 400 Validation Error *)
| InternalServerError         (* 500, the answer to an error a stage throws *).

Definition route_status (r : RouteResponse) : Z :=
  match r with
  | Handled r => chat_status r
  | ValidationError => 400
  | InternalServerError => 500
  end.

Section Route.
Variable toLowerCase : string -> string.
Variable toDateString : Z -> string.
Variable find_functions : string -> list ExcelFunction.
Variable find_features : string -> list ExcelFeature.
Variable find_practices : string -> list BestPractice.
Variable find_faqs : string -> list ExcelFAQ.

(** POST /message as it is registered, behind [authMiddleware] and the
    chat rate limiter: [chatMessageValidation], [handleValidationErrors],
    then the handler; [criticalActionAudit] in between only wraps
    [res.send].  An error a stage throws is answered 500 (see
    [Server.on_error]). *)
Definition post_message_route (library_errors : bool) (today : Z) (user : User)
           (message : string) : RouteResponse * User :=
  match handleValidationErrors
          (chatMessageValidation toLowerCase library_errors message) with
  | StageNext =>
      let '(r, user') :=
        post_message toLowerCase toDateString find_functions find_features
                     find_practices find_faqs today user message in
      (Handled r, user')
  | StageBadRequest => (ValidationError, user)
  | StageThrown => (InternalServerError, user)
  end.
End Route.

End ChatMessageRoute.

(** ** Further sample data *)

Module Cases.
Import UserModel.

(** An account whose lock of an earlier series of failures ended at
    7205000. *)
Definition alice_after_lock : User :=
  set_login 5 (Some 7205000) Samples.alice_verified.

Definition three_wrong : list AuthRoutes.Attempt :=
  [(7400000, "b"); (7500000, "c"); (7600000, "d")].

(** [bcrypt.compare] for the hashes of [Samples.sample_hash]. *)
Definition sample_compare (pw hash : string) : bool :=
  String.eqb (Samples.sample_hash pw) hash.

(** A token check that knows the access token of one account. *)
Definition sample_jwt (token : string) : AuthMiddleware.JwtResult :=
  if String.eqb token "token-of-u1" then AuthMiddleware.JwtPayload "u1"
  else AuthMiddleware.JwtMalformed.


(** A text index of the frequently asked questions with one entry. *)
Definition faq_index (query : string) : list ChatRoutes.ExcelFAQ :=
  [ChatRoutes.mkExcelFAQ "How do I freeze a row?" "View > Freeze Panes"].

(** The session of the demo server after the registration of dave. *)
Definition dave_session : ServerSimple.Session :=
  ServerSimple.mkSession true (Some "user_1700000000000_abc123xyz") (Some "dave")
                         None.

(** A store of the revised server in which the visitors have left 30
    entries. *)
Definition long_store : ServerFixed.Store :=
  ServerFixed.mkStore (ServerFixed.users (ServerFixed.initial "2023-11-14T22:00:00.000Z"))
    {[ "guest" := replicate 30
         (ServerSimple.UserEntry 1699999999000 "hello" "2023-11-14T22:13:19.000Z") ]}.

(** A stand-in for the csrf library: the token of a secret and its
    check. *)
Definition sample_create (secret : string) : string := "t-" +:+ secret.

Definition sample_verify (secret token : string) : bool :=
  String.eqb token (sample_create secret).

(** A user the demonstration server has registered as dave. *)
Definition demo_dave : ServerSimple.User :=
  ServerSimple.mkUser "user-1700000000000" "dave" None (Some "dave@example.com")
    (Some "user") None None (Some "2023-11-14T22:13:20.000Z") None.

End Cases.

(** * Properties *)

(** ** The login lock (models/User.js, routes/auth.js) *)

Section LoginLock.
Import UserModel Http AuthRoutes.
Variable bcrypt_compare : string -> string -> bool.

Lemma findOne_insert (p : User -> bool) (coll : list User) i u u' :
  findOne p coll = Some (i, u) -> p u' = true ->
  findOne p (<[i := u']> coll) = Some (i, u').
Proof.
  revert i. induction coll as [|v rest IH]; intros i Hf Hp; simpl in *.
  - discriminate.
  - destruct (p v) eqn:Hv.
    + inversion Hf; subst. simpl. now rewrite Hp.
    + destruct (findOne p rest) as [[j w]|] eqn:Hr; [|discriminate].
      inversion Hf; subst. simpl. rewrite Hv.
      now rewrite (IH j eq_refl Hp).
Qed.

Lemma findOne_lookup (p : User -> bool) (coll : list User) i u :
  findOne p coll = Some (i, u) -> coll !! i = Some u /\ p u = true.
Proof.
  revert i. induction coll as [|v rest IH]; intros i Hf; simpl in *.
  - discriminate.
  - destruct (p v) eqn:Hv.
    + inversion Hf; subst. auto.
    + destruct (findOne p rest) as [[j w]|] eqn:Hr; [|discriminate].
      inversion Hf; subst. simpl. apply IH. reflexivity.
Qed.

Lemma set_login_id u : set_login (loginAttempts u) (lockUntil u) u = u.
Proof. now destruct u. Qed.

(** A wrong password on an unlocked account below the threshold only
    counts. *)
Lemma incLoginAttempts_count now u :
  lockUntil u = None -> loginAttempts u + 1 < 5 ->
  incLoginAttempts now u = set_login (loginAttempts u + 1) None u.
Proof.
  intros Hl Hc. unfold incLoginAttempts, isLocked. rewrite Hl. simpl.
  destruct (Z.geb_spec (loginAttempts u + 1) 5); [lia | reflexivity].
Qed.

(** The wrong password that reaches the threshold sets the lock. *)
Lemma incLoginAttempts_lock now u :
  lockUntil u = None -> 5 <= loginAttempts u + 1 ->
  incLoginAttempts now u
  = set_login (loginAttempts u + 1) (Some (now + 7200000)) u.
Proof.
  intros Hl Hc. unfold incLoginAttempts, isLocked. rewrite Hl. simpl.
  destruct (Z.geb_spec (loginAttempts u + 1) 5); [reflexivity | lia].
Qed.

(** Wrong passwords below the threshold: each is answered 401 and
    counted, and no lock is set. *)
Lemma failed_logins ip name attempts :
  forall coll sess i u,
    findOne (login_filter name) coll = Some (i, u) ->
    lockUntil u = None ->
    loginAttempts u + Z.of_nat (length attempts) < 5 ->
    Forall (fun a : Attempt => bcrypt_compare a.2 (password u) = false) attempts ->
    logins bcrypt_compare ip name attempts coll sess
    = (replicate (length attempts) LoginFailed,
       <[i := set_login (loginAttempts u + Z.of_nat (length attempts)) None u]> coll,
       sess).
Proof.
  induction attempts as [|[now pw] rest IH]; intros coll sess i u Hf Hl Hn Hw.
  - simpl. rewrite Z.add_0_r, <- Hl, set_login_id.
    destruct (findOne_lookup _ _ _ _ Hf) as [Hi _].
    now rewrite list_insert_id.
  - apply Forall_cons in Hw as [Hpw Hw]. simpl in Hpw.
    cbn [logins]. unfold login at 1. rewrite Hf.
    unfold isLocked at 1. rewrite Hl. unfold comparePassword. rewrite Hpw.
    cbn [negb].
    assert (Hc : loginAttempts u + 1 < 5) by (cbn [length] in Hn; lia).
    rewrite incLoginAttempts_count by auto.
    set (u1 := set_login (loginAttempts u + 1) None u).
    assert (Hf1 : findOne (login_filter name) (updateOne i u1 coll) = Some (i, u1)).
    { apply findOne_insert with (u := u); auto.
      now destruct (findOne_lookup _ _ _ _ Hf). }
    rewrite (IH _ sess i u1 Hf1); subst u1;
      cbn [lockUntil loginAttempts set_login password length] in *; auto; try lia.
    unfold updateOne. rewrite list_insert_insert_eq.
    replace (loginAttempts u + Z.of_nat (S (length rest)))
      with (loginAttempts u + 1 + Z.of_nat (length rest)) by lia.
    reflexivity.
Qed.

(** A sequence of attempts splits at any point. *)
Lemma logins_app ip name xs ys coll sess :
  logins bcrypt_compare ip name (xs ++ ys)%list coll sess
  = let '(rs, coll1, sess1) := logins bcrypt_compare ip name xs coll sess in
    let '(rs', coll2, sess2) := logins bcrypt_compare ip name ys coll1 sess1 in
    ((rs ++ rs')%list, coll2, sess2).
Proof.
  revert coll sess. induction xs as [|[now pw] xs IH]; intros coll sess.
  - simpl. now destruct (logins bcrypt_compare ip name ys coll sess) as [[? ?] ?].
  - simpl. destruct (login bcrypt_compare now ip coll sess name pw) as [[r c1] s1].
    rewrite IH.
    destruct (logins bcrypt_compare ip name xs c1 s1) as [[rs c2] s2].
    now destruct (logins bcrypt_compare ip name ys c2 s2) as [[rs' c3] s3].
Qed.

(** C1 (amended).  Against an active account found under the login name,
    with the failure counter at zero and no lock: five consecutive
    wrong-password attempts are each answered 401 and the fifth sets
    [lockUntil] to its time plus two hours (7200000 ms); while the time is
    before [lockUntil] every attempt, whatever its password, is answered
    423 and changes nothing; from [lockUntil] on, an attempt with the
    correct password is answered 200, with the counter back at zero and the
    lock removed, when the e-mail address is verified, and is answered 403
    with the account unchanged when it is not. *)
Theorem login_lock_cycle ip name coll sess i u (pre : list Attempt) t5 p5
    (Hfound : findOne (login_filter name) coll = Some (i, u))
    (Hzero : loginAttempts u = 0)
    (Hnolock : lockUntil u = None)
    (Hfour : length pre = 4%nat)
    (Hwrong : Forall (fun a : Attempt => bcrypt_compare a.2 (password u) = false)
                     (pre ++ [(t5, p5)])%list) :
  let locked := set_login 5 (Some (t5 + 7200000)) u in
  let coll5 := <[i := locked]> coll in
  logins bcrypt_compare ip name (pre ++ [(t5, p5)])%list coll sess
  = (replicate 5 LoginFailed, coll5, sess)
  /\ (forall now pw, now < t5 + 7200000 ->
        login bcrypt_compare now ip coll5 sess name pw = (LoginLocked, coll5, sess))
  /\ (forall now pw, t5 + 7200000 <= now ->
        bcrypt_compare pw (password u) = true ->
        login bcrypt_compare now ip coll5 sess name pw
        = if isEmailVerified u
          then (LoginSuccessful locked,
                <[i := resetLoginAttempts now ip locked]> coll5,
                set_identity (_id u) (username u) (role u) sess)
          else (LoginUnverified, coll5, sess))
  /\ (forall now, loginAttempts (resetLoginAttempts now ip locked) = 0
                  /\ lockUntil (resetLoginAttempts now ip locked) = None).
Proof.
  intros locked coll5.
  apply Forall_app in Hwrong as [Hpre Hlast].
  apply Forall_cons in Hlast as [Hlast _]. simpl in Hlast.
  destruct (findOne_lookup _ _ _ _ Hfound) as [Hi Hp].
  assert (Hf5 : findOne (login_filter name) coll5 = Some (i, locked))
    by (apply findOne_insert with (u := u); auto).
  repeat split.
  - rewrite logins_app.
    rewrite (failed_logins ip name pre coll sess i u Hfound Hnolock)
      by (try assumption; rewrite Hzero, Hfour; lia).
    rewrite Hzero, Hfour. change (0 + Z.of_nat 4) with 4.
    change (replicate 4 LoginFailed)
      with [LoginFailed; LoginFailed; LoginFailed; LoginFailed].
    set (u4 := set_login 4 None u).
    assert (Hf4 : findOne (login_filter name) (<[i := u4]> coll) = Some (i, u4))
      by (apply findOne_insert with (u := u); auto).
    cbn [logins]. unfold login. rewrite Hf4.
    unfold isLocked at 1, comparePassword. cbn [lockUntil password u4 set_login].
    rewrite Hlast. cbn [negb].
    rewrite incLoginAttempts_lock by (cbn; auto; lia).
    unfold updateOne. rewrite list_insert_insert_eq. reflexivity.
  - intros now pw Hnow. unfold login. rewrite Hf5.
    unfold isLocked. cbn [lockUntil locked set_login].
    destruct (Z.ltb_spec now (t5 + 7200000)); [reflexivity | lia].
  - intros now pw Hnow Hpw. unfold login. rewrite Hf5.
    unfold isLocked, comparePassword. cbn [lockUntil password locked set_login].
    destruct (Z.ltb_spec now (t5 + 7200000)); [lia |].
    rewrite Hpw. cbn [negb]. subst locked. cbn [isEmailVerified set_login].
    destruct (isEmailVerified u); reflexivity.
Qed.
End LoginLock.

(** The lock cycle on the verified sample account: five wrong passwords,
    the last at 5000 ms, lock it until 7205000 ms; one millisecond before
    that the correct password is answered 423, at that time it is answered
    200 and the counter is reset. *)
Lemma login_lock_cycle_witness :
  AuthRoutes.logins String.eqb None "alice" Samples.five_wrong
    [Samples.alice_verified] Samples.anonymous
  = (replicate 5 AuthRoutes.LoginFailed,
     [UserModel.set_login 5 (Some 7205000) Samples.alice_verified],
     Samples.anonymous)
  /\ AuthRoutes.login String.eqb 7204999 None
       [UserModel.set_login 5 (Some 7205000) Samples.alice_verified]
       Samples.anonymous "alice" "Secret#123"
     = (AuthRoutes.LoginLocked,
        [UserModel.set_login 5 (Some 7205000) Samples.alice_verified],
        Samples.anonymous)
  /\ AuthRoutes.login String.eqb 7205000 None
       [UserModel.set_login 5 (Some 7205000) Samples.alice_verified]
       Samples.anonymous "alice" "Secret#123"
     = (AuthRoutes.LoginSuccessful
          (UserModel.set_login 5 (Some 7205000) Samples.alice_verified),
        [UserModel.resetLoginAttempts 7205000 None
           (UserModel.set_login 5 (Some 7205000) Samples.alice_verified)],
        Http.set_identity "u1" "alice" UserModel.RoleUser Samples.anonymous).
Proof.
  assert (Hwrong : Forall (fun a : AuthRoutes.Attempt =>
                             String.eqb a.2 (UserModel.password Samples.alice_verified) = false)
                          (Samples.four_wrong ++ [(5000, "e")])%list)
    by (repeat constructor).
  destruct (login_lock_cycle String.eqb None "alice" [Samples.alice_verified]
              Samples.anonymous 0%nat Samples.alice_verified Samples.four_wrong
              5000 "e" eq_refl eq_refl eq_refl eq_refl Hwrong)
    as (Hfive & Hlocked & Hafter & _).
  split; [exact Hfive |].
  split; [apply Hlocked; lia |].
  apply (Hafter 7205000 "Secret#123"); [lia | reflexivity].
Defined.

(** C1 as the specification words it fails on an account whose e-mail
    address is not verified: after the lock has run out, the correct
    password is answered 403 and the failure counter stays at 5. *)
Lemma login_after_lock_unverified :
  AuthRoutes.logins String.eqb None "alice" Samples.five_wrong
    [Samples.alice] Samples.anonymous
  = (replicate 5 AuthRoutes.LoginFailed,
     [UserModel.set_login 5 (Some 7205000) Samples.alice],
     Samples.anonymous)
  /\ AuthRoutes.login String.eqb 7205000 None
       [UserModel.set_login 5 (Some 7205000) Samples.alice]
       Samples.anonymous "alice" "Secret#123"
     = (AuthRoutes.LoginUnverified,
        [UserModel.set_login 5 (Some 7205000) Samples.alice],
        Samples.anonymous)
  /\ AuthRoutes.login_status AuthRoutes.LoginUnverified = 403
  /\ UserModel.loginAttempts (UserModel.set_login 5 (Some 7205000) Samples.alice) = 5.
Proof. repeat split. Qed.

(** C8.  In every state of a user document, the reachable ones among
    them, and at every time, [isLocked] holds exactly when [lockUntil] is
    set and lies strictly after that time. *)
Theorem isLocked_iff (now : Z) (u : UserModel.User) :
  UserModel.isLocked now u = true
  <-> exists t, UserModel.lockUntil u = Some t /\ now < t.
Proof.
  unfold UserModel.isLocked. destruct (UserModel.lockUntil u) as [t|].
  - rewrite Z.ltb_lt. split.
    + intros H. exists t. auto.
    + intros (t' & Ht & Hlt). congruence.
  - split; [discriminate | intros (t & Ht & _); discriminate].
Qed.

(** On the states the operations reach, the lock is set exactly when the
    counter has reached the threshold. *)
Lemma reachable_lock_counter (u : UserModel.User) :
  UserModel.reachable u ->
  0 <= UserModel.loginAttempts u
  /\ (UserModel.lockUntil u = None <-> UserModel.loginAttempts u < 5).
Proof.
  induction 1 as [u H0 Hn | now u _ [IH0 IH] | now ip u _ _].
  - rewrite H0, Hn. split; [lia | split; [lia | reflexivity]].
  - unfold UserModel.incLoginAttempts, UserModel.isLocked.
    destruct (UserModel.lockUntil u) as [t|] eqn:Hl.
    + assert (5 <= UserModel.loginAttempts u).
      { destruct (Z.lt_ge_cases (UserModel.loginAttempts u) 5) as [Hlt|]; [|lia].
        apply IH in Hlt. discriminate. }
      destruct (t <? now); simpl; [split; [lia | split; [lia | reflexivity]] |].
      destruct (_ && _); simpl; (split; [lia | split; [discriminate | lia]]).
    + assert (UserModel.loginAttempts u < 5) by (now apply IH).
      simpl. rewrite andb_true_r.
      destruct (Z.geb_spec (UserModel.loginAttempts u + 1) 5); simpl;
        (split; [lia | split; [try discriminate; lia | try reflexivity; lia]]).
  - simpl. split; [lia | split; [lia | reflexivity]].
Qed.

(** On those states, a wrong password that passes the lock check either
    leaves the counter below the threshold and the account without lock,
    or brings it to the threshold or beyond and sets the lock to two hours
    from now. *)
Lemma failed_attempt_locks (now : Z) (u : UserModel.User) :
  UserModel.reachable u ->
  UserModel.isLocked now u = false ->
  (UserModel.loginAttempts (UserModel.incLoginAttempts now u) < 5
   /\ UserModel.lockUntil (UserModel.incLoginAttempts now u) = None)
  \/ (5 <= UserModel.loginAttempts (UserModel.incLoginAttempts now u)
      /\ UserModel.lockUntil (UserModel.incLoginAttempts now u)
         = Some (now + 7200000)).
Proof.
  intros Hr Hopen. destruct (reachable_lock_counter u Hr) as [H0 Hiff].
  unfold UserModel.incLoginAttempts. rewrite Hopen. cbn [negb].
  rewrite andb_true_r.
  destruct (UserModel.lockUntil u) as [t|] eqn:Hl.
  - assert (5 <= UserModel.loginAttempts u).
    { destruct (Z.lt_ge_cases (UserModel.loginAttempts u) 5) as [Hlt|]; [|lia].
      apply Hiff in Hlt. discriminate. }
    destruct (t <? now); [left; simpl; split; [lia | reflexivity] |].
    destruct (Z.geb_spec (UserModel.loginAttempts u + 1) 5); [| lia].
    right. simpl. split; [lia | reflexivity].
  - assert (UserModel.loginAttempts u < 5) by (now apply Hiff).
    destruct (Z.geb_spec (UserModel.loginAttempts u + 1) 5).
    + right. simpl. split; [lia | reflexivity].
    + left. simpl. split; [lia | reflexivity].
Qed.

(** ** The usage gate and the domain gate (routes/chat.js) *)

Section ChatGates.
Import UserModel ChatRoutes.
Variable toDateString : Z -> string.
Variable find_functions : string -> list ExcelFunction.
Variable find_features : string -> list ExcelFeature.
Variable find_practices : string -> list BestPractice.
Variable find_faqs : string -> list ExcelFAQ.

Local Abbreviation respond_with lower :=
  (respond lower toDateString find_functions find_features find_practices find_faqs).
Local Abbreviation post_message_with lower :=
  (post_message lower toDateString find_functions find_features find_practices
                find_faqs).
Local Abbreviation post_messages_with lower :=
  (post_messages lower toDateString find_functions find_features find_practices
                 find_faqs).
Local Abbreviation route_with lower :=
  (ChatMessageRoute.post_message_route lower toDateString find_functions
     find_features find_practices find_faqs).

(** [canAskQuestion] compares the counter with the limit of the role. *)
Lemma canAskQuestion_iff (u : User) :
  canAskQuestion u = true
  <-> questionsAsked (usage u)
      < (if Role_eqb (role u) RolePremium then dailyLimit (usage u) * 5
         else dailyLimit (usage u)).
Proof. unfold canAskQuestion. apply Z.ltb_lt. Qed.

(** [incrementUsage] on a new calendar day restarts the counter. *)
Lemma incrementUsage_new_day today (u : User) :
  toDateString today <> toDateString (lastResetDate (usage u)) ->
  usage (incrementUsage toDateString today u)
  = mkUsage 1 (dailyLimit (usage u)) (monthlyLimit (usage u)) today.
Proof.
  intros Hd. unfold incrementUsage.
  destruct (String.eqb_spec (toDateString today)
                            (toDateString (lastResetDate (usage u))));
    [contradiction | reflexivity].
Qed.

(** [incrementUsage] within the day of the last reset counts one more. *)
Lemma incrementUsage_same_day today (u : User) :
  toDateString today = toDateString (lastResetDate (usage u)) ->
  usage (incrementUsage toDateString today u)
  = mkUsage (questionsAsked (usage u) + 1) (dailyLimit (usage u))
            (monthlyLimit (usage u)) (lastResetDate (usage u)).
Proof.
  intros Hd. unfold incrementUsage. rewrite Hd, String.eqb_refl. reflexivity.
Qed.

(** The increment that reaches the limit of the role closes the gate. *)
Lemma incrementUsage_reaches_limit today (u : User) :
  toDateString today = toDateString (lastResetDate (usage u)) ->
  (if Role_eqb (role u) RolePremium then dailyLimit (usage u) * 5
   else dailyLimit (usage u)) <= questionsAsked (usage u) + 1 ->
  canAskQuestion (incrementUsage toDateString today u) = false.
Proof.
  intros Hd Hlim. unfold canAskQuestion.
  rewrite (incrementUsage_same_day today u Hd).
  unfold incrementUsage. cbn [role set_usage dailyLimit questionsAsked].
  apply Z.ltb_ge. exact Hlim.
Qed.

(** C3 (what the code does).  Once [canAskQuestion] is false, every
    later chat request, on whatever day it arrives and whatever it asks,
    is answered 429 and leaves the user as it is: [incrementUsage], the
    one place that resets the counter on a new day, is only called past
    the usage check, so the counter is never reset. *)
Theorem usage_gate_stays_closed toLowerCase (reqs : list (Z * string)) (user : User) :
  canAskQuestion user = false ->
  post_messages_with toLowerCase reqs user
  = (map (fun _ => DailyLimitExceeded (dailyLimit (usage user))
                                      (questionsAsked (usage user))) reqs,
     user).
Proof.
  intros Hfull. induction reqs as [|[today message] rest IH]; [reflexivity |].
  cbn [post_messages map]. unfold post_message. rewrite Hfull. cbn [negb].
  now rewrite IH.
Qed.

(** Every keyword of the validator is a keyword of the handler. *)
Lemma validator_keywords toLowerCase message :
  hasExcelKeywords toLowerCase message = false ->
  Validation.hasExcelContent toLowerCase message = false.
Proof.
  unfold hasExcelKeywords, Validation.hasExcelContent, JS.some.
  change excelKeywords
    with (Validation.excelKeywords
          ++ ["関数"; "エクセル"; "数式"; "ピボット"; "グラフ"; "マクロ"])%list.
  rewrite existsb_app. intros H. now apply orb_false_iff in H as [H _].
Qed.

(** C2 (what the code does).  The handler of the chat endpoint would
    answer a message without Excel keyword with the fixed 400 body of the
    domain gate and leave the user uncharged, but no such message reaches
    it: on the route as it is registered the validator of the message calls
    [logger.warn] for a message without keyword, and so does
    [handleValidationErrors]; the object of utils/logger holds no [warn],
    the call throws and the message is answered 500.  The route never
    answers with the fixed 400 body, whatever the message; "what is the
    weather today" is answered 500. *)
Theorem domain_gate today (user : User) :
  (forall toLowerCase library_errors message,
      hasExcelKeywords toLowerCase message = false ->
      route_with toLowerCase library_errors today user message
      = (ChatMessageRoute.InternalServerError, user)
      /\ ChatMessageRoute.route_status ChatMessageRoute.InternalServerError = 500
      /\ respond_with toLowerCase today user message = (nonExcelQuestion, user)
      /\ chat_status nonExcelQuestion = 400)
  /\ (forall toLowerCase library_errors message,
        (route_with toLowerCase library_errors today user message).1
        <> ChatMessageRoute.Handled nonExcelQuestion)
  /\ route_with JS.toLowerCase false today user "what is the weather today"
     = (ChatMessageRoute.InternalServerError, user).
Proof.
  assert (Hgate : forall toLowerCase library_errors message,
    hasExcelKeywords toLowerCase message = false ->
    route_with toLowerCase library_errors today user message
    = (ChatMessageRoute.InternalServerError, user)).
  { intros toLowerCase library_errors message Hnone.
    unfold ChatMessageRoute.post_message_route, Validation.handleValidationErrors,
      Validation.chatMessageValidation, Validation.custom_returns.
    rewrite (validator_keywords toLowerCase message Hnone).
    change (Logger.returns "warn") with false.
    cbn [orb negb]. now rewrite orb_true_r. }
  split; [| split].
  - intros toLowerCase library_errors message Hnone.
    split; [now apply Hgate |]. split; [reflexivity |].
    unfold respond. rewrite Hnone. now split.
  - intros toLowerCase library_errors message.
    destruct (hasExcelKeywords toLowerCase message) eqn:Hkw;
      [| rewrite (Hgate _ _ _ Hkw); discriminate].
    unfold ChatMessageRoute.post_message_route.
    destruct (Validation.handleValidationErrors _); try discriminate.
    unfold post_message, respond. rewrite Hkw.
    destruct (canAskQuestion user); cbn [negb fst]; discriminate.
  - now apply Hgate.
Qed.
End ChatGates.

(** The failing input of C3: the user has used the 100 questions of day 0,
    the last of them through the endpoint itself; the requests of day 1 and
    day 2 are both answered 429 and the counter stays at 100, although
    [incrementUsage] would restart it on day 1. *)
Lemma usage_gate_stays_closed_witness :
  UserModel.canAskQuestion Samples.carol_at_limit = false
  /\ (let '(rs, carol) :=
        ChatRoutes.post_messages JS.toLowerCase Samples.utc_day Samples.sum_index
          (fun _ => []) (fun _ => []) (fun _ => [])
          ((0, "excel sum") :: Samples.later_questions) Samples.carol_one_left in
      (map ChatRoutes.chat_status rs, carol))
     = ([200; 429; 429], Samples.carol_at_limit)
  /\ ChatRoutes.post_messages JS.toLowerCase Samples.utc_day Samples.sum_index
       (fun _ => []) (fun _ => []) (fun _ => [])
       Samples.later_questions Samples.carol_at_limit
     = ([ChatRoutes.DailyLimitExceeded 100 100; ChatRoutes.DailyLimitExceeded 100 100],
        Samples.carol_at_limit)
  /\ UserModel.questionsAsked
       (UserModel.usage
          (UserModel.incrementUsage Samples.utc_day 86400000 Samples.carol_at_limit))
     = 1.
Proof.
  split; [reflexivity |].
  split; [vm_compute; reflexivity |].
  split; [| reflexivity].
  exact (usage_gate_stays_closed Samples.utc_day Samples.sum_index
           (fun _ => []) (fun _ => []) (fun _ => [])
           JS.toLowerCase Samples.later_questions Samples.carol_at_limit eq_refl).
Defined.

(** The failing input of C2: "what is the weather today" and "tell me a
    joke", sent by a verified user, are answered 500 and not with the fixed
    400 body the handler holds for them. *)
Lemma domain_gate_witness :
  ChatRoutes.hasExcelKeywords JS.toLowerCase "tell me a joke" = false
  /\ ChatMessageRoute.post_message_route JS.toLowerCase Samples.utc_day
       Samples.sum_index (fun _ => []) (fun _ => []) (fun _ => [])
       false 86400000 Samples.alice_verified "tell me a joke"
     = (ChatMessageRoute.InternalServerError, Samples.alice_verified)
  /\ ChatMessageRoute.post_message_route JS.toLowerCase Samples.utc_day
       Samples.sum_index (fun _ => []) (fun _ => []) (fun _ => [])
       false 86400000 Samples.alice_verified "what is the weather today"
     = (ChatMessageRoute.InternalServerError, Samples.alice_verified)
  /\ ChatRoutes.respond JS.toLowerCase Samples.utc_day Samples.sum_index
       (fun _ => []) (fun _ => []) (fun _ => [])
       86400000 Samples.alice_verified "what is the weather today"
     = (ChatRoutes.nonExcelQuestion, Samples.alice_verified).
Proof.
  split; [reflexivity |].
  destruct (domain_gate Samples.utc_day Samples.sum_index
              (fun _ => []) (fun _ => []) (fun _ => [])
              86400000 Samples.alice_verified) as (Hgate & _ & Hweather).
  destruct (Hgate JS.toLowerCase false "tell me a joke" eq_refl) as (Hjoke & _).
  split; [exact Hjoke |]. split; [exact Hweather |].
  exact (proj1 (proj2 (proj2 (Hgate JS.toLowerCase false
                                "what is the weather today" eq_refl)))).
Defined.

(** ** The CSRF stage (middleware/csrf.js, server.js) *)

Section CsrfStage.
Import Http Csrf Server.
Variable tokens_verify : string -> string -> bool.
Variable upstream : Request -> option Z.
Variable router_status : Route -> Request -> Session -> Z.
Variable production : bool.

Lemma mounted_api rest path :
  mounted ("api" :: rest) path = true -> mounted ["api"] path = true.
Proof.
  destruct path as [|p path]; simpl; [discriminate |].
  intros H. apply andb_true_iff in H as [H _]. now rewrite H.
Qed.

Lemma unsafe_method m :
  safe_method m = false -> String.eqb m "GET" = false /\ String.eqb m "HEAD" = false.
Proof.
  unfold safe_method. simpl. intros H.
  apply orb_false_elim in H as [Hget H].
  apply orb_false_elim in H as [Hhead _]. auto.
Qed.

(** No route takes an unsafe request whose path is outside /api. *)
Lemma routes_outside_api req sess :
  safe_method (method req) = false ->
  mounted ["api"] (path req) = false ->
  routes router_status production req sess = mkResult 404 None sess.
Proof.
  intros Hunsafe Hout. unfold routes.
  destruct (unsafe_method _ Hunsafe) as [Hget Hhead]. rewrite Hget, Hhead.
  cbn [orb andb].
  destruct (mounted ["api"; "auth"] (path req)) eqn:Ha;
    [apply mounted_api in Ha; congruence |].
  destruct (mounted ["api"; "chat"] (path req)) eqn:Hc;
    [apply mounted_api in Hc; congruence |].
  destruct (mounted ["api"; "excel"] (path req)) eqn:He;
    [apply mounted_api in He; congruence |].
  now rewrite andb_false_r.
Qed.

(** C4 (what the code does).  In the hardened application a request with
    an unsafe method that carries no token the csrf library accepts for the
    secret of its session is never handed to a route, whatever its session
    and cookie, but it is not answered 403: the rejecting branch of the
    CSRF stage calls [logger.warn], which the object of utils/logger does
    not hold, and throws before it sets the status.  When no earlier stage
    answers the request, it is answered 500 if its path is under /api and
    404 otherwise; when an earlier stage answers it, the status is that
    stage's. *)
Theorem csrf_stage_guards_routes fresh req sess :
  safe_method (method req) = false ->
  token_rejected tokens_verify (csrfSecret (with_secret fresh sess)) (request_token req)
  = true ->
  let res := app tokens_verify upstream router_status production fresh req sess in
  csrfProtection tokens_verify fresh req sess = Thrown (with_secret fresh sess)
  /\ handled_by res = None
  /\ (upstream req = None -> mounted ["api"] (path req) = true -> status res = 500)
  /\ (upstream req = None -> mounted ["api"] (path req) = false -> status res = 404)
  /\ (forall s, upstream req = Some s -> status res = s).
Proof.
  intros Hunsafe Hrej res.
  assert (Hstage : csrfProtection tokens_verify fresh req sess
                   = Thrown (with_secret fresh sess)).
  { unfold csrfProtection. now rewrite Hunsafe, Hrej. }
  split; [exact Hstage |]. subst res. unfold app.
  destruct (upstream req) as [s|] eqn:Hup.
  - repeat split; try discriminate. intros s' Hs. now inversion Hs.
  - destruct (mounted ["api"] (path req)) eqn:Hapi.
    + rewrite Hstage. repeat split; try discriminate.
    + rewrite routes_outside_api by assumption.
      repeat split; try discriminate.
Qed.
End CsrfStage.

(** The CSRF stage on a POST under /api without token, from a logged-in
    browser: the chat router is not reached, and the answer is 500. *)
Lemma csrf_stage_guards_routes_witness :
  Csrf.safe_method (Http.method Samples.post_without_token) = false
  /\ Csrf.token_rejected String.eqb
       (Http.csrfSecret (Csrf.with_secret "fresh" Samples.alice_session))
       (Csrf.request_token Samples.post_without_token) = true
  /\ Server.handled_by
       (Server.app String.eqb (fun _ => None) (fun _ _ _ => 200) false "fresh"
                   Samples.post_without_token Samples.alice_session) = None
  /\ Server.status
       (Server.app String.eqb (fun _ => None) (fun _ _ _ => 200) false "fresh"
                   Samples.post_without_token Samples.alice_session) = 500.
Proof.
  split; [reflexivity |].
  split; [reflexivity |].
  destruct (csrf_stage_guards_routes String.eqb (fun _ => None) (fun _ _ _ => 200)
              false "fresh" Samples.post_without_token Samples.alice_session
              eq_refl eq_refl) as (_ & Hnone & H500 & _).
  split; [exact Hnone | exact (H500 eq_refl eq_refl)].
Defined.

(** C4 on the demo server, which issues a token and checks none: a DELETE
    without token, from a browser that was issued one, reaches its handler,
    is answered 200 and erases the history. *)
Lemma simple_server_skips_csrf :
  Csrf.safe_method (ServerSimple.method Samples.delete_history_request) = false
  /\ ServerSimple.header_x_csrf_token Samples.delete_history_request = None
  /\ ServerSimple.csrfToken Samples.guest_b = Some "k3x9w1"
  /\ ServerSimple.handled_by
       (ServerSimple.app Samples.echo_ai (fun _ => None) (fun _ => 404) Samples.env
          Samples.delete_history_request Samples.guest_store Samples.guest_b)
     = Some ServerSimple.EpDeleteHistory
  /\ ServerSimple.res_status
       (ServerSimple.app Samples.echo_ai (fun _ => None) (fun _ => 404) Samples.env
          Samples.delete_history_request Samples.guest_store Samples.guest_b)
     = 200
  /\ ServerSimple.chatHistory
       (ServerSimple.res_store
          (ServerSimple.app Samples.echo_ai (fun _ => None) (fun _ => 404) Samples.env
             Samples.delete_history_request Samples.guest_store Samples.guest_b))
     !! "guest" = None.
Proof. repeat split. Qed.

(** ** Registration (server-simple.js, routes/auth.js) *)

Section Registration.
Import ServerSimple.

(** The loop over [users] finds a name exactly when some stored user
    carries it. *)
Lemma username_taken_iff name (us : gmap string User) :
  username_taken name us = true
  <-> exists k u, us !! k = Some u /\ username u = name.
Proof.
  unfold username_taken. rewrite existsb_exists. split.
  - intros [[k u] [Hin Heq]]. exists k, u.
    apply list_elem_of_In, elem_of_map_to_list in Hin.
    apply String.eqb_eq in Heq. auto.
  - intros (k & u & Hk & Hu). exists (k, u). split.
    + now apply list_elem_of_In, elem_of_map_to_list.
    + now apply String.eqb_eq.
Qed.

(** A document the filter accepts makes [findOne] return one. *)
Lemma findOne_some (p : UserModel.User -> bool) (coll : list UserModel.User) u :
  u ∈ coll -> p u = true -> exists i v, AuthRoutes.findOne p coll = Some (i, v).
Proof.
  induction coll as [|w rest IH]; intros Hin Hp.
  - now apply elem_of_nil in Hin.
  - simpl. destruct (p w) eqn:Hw; [eauto |].
    apply elem_of_cons in Hin as [-> | Hin]; [congruence |].
    destruct (IH Hin Hp) as (i & v & ->). eauto.
Qed.

(** A body the validators of a hardened route object to is not answered
    400: [handleValidationErrors] throws on its way there. *)
Lemma validation_errors_throw :
  Validation.handleValidationErrors true = Validation.StageThrown.
Proof. reflexivity. Qed.

(** C5 (amended).  A registration attempt under a name some stored user
    carries changes neither the store nor the session.  On the demo server
    it is answered 409 when it passes the checks the handler makes first
    (name and password present, name of at least 3 and password of at least
    6 characters) and 400 when it does not; the handler of the hardened
    server answers every such attempt it is given 409. *)
Theorem register_taken :
  (forall stamp rand iso st sess b,
      (exists k u, users st !! k = Some u /\ username u = str (b_username b)) ->
      let res := register stamp rand iso st sess b in
      res.1.2 = st /\ res.2 = sess
      /\ (JS.truthy (b_username b) && JS.truthy (b_password b)
          && (3 <=? JS.length (str (b_username b)))
          && (6 <=? JS.length (str (b_password b))) = true ->
          res.1.1 = Conflict "このユーザー名は既に使用されています"
          /\ status res.1.1 = 409)
      /\ (JS.truthy (b_username b) && JS.truthy (b_password b)
          && (3 <=? JS.length (str (b_username b)))
          && (6 <=? JS.length (str (b_password b))) = false ->
          (exists message, res.1.1 = ValidationError message)
          /\ status res.1.1 = 400))
  /\ (forall bcrypt_hash schema_accepts now oid token coll sess b,
        (exists u, u ∈ coll /\ UserModel.username u = AuthRoutes.b_username b) ->
        AuthRoutes.register bcrypt_hash schema_accepts now oid token coll sess b
        = (AuthRoutes.RegisterConflict, coll, sess)
        /\ AuthRoutes.register_status AuthRoutes.RegisterConflict = 409).
Proof.
  split.
  - intros stamp rand iso st sess b Htaken res. subst res.
    apply username_taken_iff in Htaken. unfold register.
    destruct (JS.truthy (b_username b)); cbn [negb orb andb];
      [| repeat split; eauto; discriminate].
    destruct (JS.truthy (b_password b)); cbn [negb orb andb];
      [| repeat split; eauto; discriminate].
    rewrite !Z.leb_antisym.
    destruct (JS.length (str (b_username b)) <? 3); cbn [negb andb];
      [repeat split; eauto; discriminate |].
    destruct (JS.length (str (b_password b)) <? 6); cbn [negb andb];
      [repeat split; eauto; discriminate |].
    rewrite Htaken. repeat split; eauto; discriminate.
  - intros bcrypt_hash schema_accepts now oid token coll sess b (u & Hin & Hu).
    split; [| reflexivity].
    unfold AuthRoutes.register.
    destruct (findOne_some
                (fun u => String.eqb (UserModel.email u) (AuthRoutes.b_email b)
                          || String.eqb (UserModel.username u) (AuthRoutes.b_username b))
                coll u Hin) as (i & v & ->); [| reflexivity].
    rewrite Hu, String.eqb_refl. apply orb_true_r.
Qed.

(** C7 (amended).  On the demo server a registration answered 201 has
    stored the new user and bound the session to it: the session is logged
    in under the new identifier and GET /api/auth/me answers with the new
    user.  On the hardened server a registration answered 201 has appended
    the new user, its e-mail address unverified, and has left the session as
    it was. *)
Theorem register_session :
  (forall stamp rand iso st sess b v st' sess',
      register stamp rand iso st sess b = (Registered v, st', sess') ->
      exists newUser,
        users st' !! id v = Some newUser
        /\ id newUser = id v
        /\ username newUser = str (b_username b)
        /\ password newUser = Some (str (b_password b))
        /\ isLoggedIn sess' = true
        /\ userId sess' = Some (id v)
        /\ s_username sess' = Some (username newUser)
        /\ me st' sess' = Me newUser)
  /\ (forall bcrypt_hash schema_accepts now oid token coll sess b u coll' sess',
        AuthRoutes.register bcrypt_hash schema_accepts now oid token coll sess b
        = (AuthRoutes.RegisterCreated u, coll', sess') ->
        sess' = sess
        /\ coll' = (coll ++ [u])%list
        /\ UserModel.username u = AuthRoutes.b_username b
        /\ UserModel.isEmailVerified u = false).
Proof.
  split.
  - intros stamp rand iso st sess b v st' sess'. unfold register.
    destruct (negb (JS.truthy (b_username b)) || negb (JS.truthy (b_password b)));
      [discriminate |].
    destruct (JS.length (str (b_username b)) <? 3); [discriminate |].
    destruct (JS.length (str (b_password b)) <? 6); [discriminate |].
    destruct (username_taken (str (b_username b)) (users st)); [discriminate |].
    intros H. inversion H; subst; clear H. eexists. cbn [users id].
    split; [apply lookup_insert_eq |].
    repeat split. unfold me. cbn [isLoggedIn userId users str default andb JS.truthy].
    cbn. now rewrite lookup_insert_eq.
  - intros bcrypt_hash schema_accepts now oid token coll sess b u coll' sess'.
    unfold AuthRoutes.register.
    destruct (AuthRoutes.findOne _ coll) as [[i w]|]; [discriminate |].
    destruct (schema_accepts _); [| discriminate].
    intros H. inversion H; subst. repeat split.
Qed.
End Registration.

(** A second registration of "demo" with a valid password: 409, nothing
    changed. *)
Lemma register_taken_witness :
  (exists k u, ServerSimple.users Samples.demo_store !! k = Some u
               /\ ServerSimple.username u = "demo")
  /\ ServerSimple.register "1700000000000" "abc123xyz" "2023-11-14T22:13:20.000Z"
       Samples.demo_store Samples.guest_a (Samples.credentials "demo" "demo123")
     = (ServerSimple.Conflict "このユーザー名は既に使用されています",
        Samples.demo_store, Samples.guest_a)
  /\ AuthRoutes.register (fun p => "hash:" +:+ p) (fun _ => true) 0 "oid2" "tok2"
       [Samples.alice] Samples.anonymous
       (AuthRoutes.mkRegisterBody "alice" "other@example.com" "Secret#123" None None)
     = (AuthRoutes.RegisterConflict, [Samples.alice], Samples.anonymous).
Proof.
  assert (Htaken : exists k u, ServerSimple.users Samples.demo_store !! k = Some u
                               /\ ServerSimple.username u = "demo")
    by (exists "demo-user-001", ServerSimple.demo_user; split; reflexivity).
  split; [exact Htaken |].
  destruct register_taken as [Hdemo Hhard].
  split.
  - destruct (Hdemo "1700000000000" "abc123xyz" "2023-11-14T22:13:20.000Z"
                Samples.demo_store Samples.guest_a
                (Samples.credentials "demo" "demo123") Htaken)
      as (Hst & Hsess & Hconflict & _).
    destruct (Hconflict eq_refl) as [Hconflict' _].
    destruct (ServerSimple.register _ _ _ _ _ _) as [[r st'] sess'].
    cbn [fst snd] in *. now subst.
  - apply Hhard. exists Samples.alice. split; [apply elem_of_cons; auto | reflexivity].
Defined.

(** C5 as the specification words it fails on a taken name that comes
    with a password of fewer than 6 characters: the answer is 400, not
    409. *)
Lemma register_taken_short_password :
  ServerSimple.username_taken "demo" (ServerSimple.users Samples.demo_store) = true
  /\ ServerSimple.register "1700000000000" "abc123xyz" "2023-11-14T22:13:20.000Z"
       Samples.demo_store Samples.guest_a (Samples.credentials "demo" "abc")
     = (ServerSimple.ValidationError "パスワードは6文字以上である必要があります",
        Samples.demo_store, Samples.guest_a)
  /\ ServerSimple.status
       (ServerSimple.ValidationError "パスワードは6文字以上である必要があります") = 400.
Proof. repeat split. Qed.

(** A registration on the demo server: the session is bound to the new
    user and GET /api/auth/me shows it; the same form on the hardened
    server leaves the anonymous session anonymous. *)
Lemma register_session_witness :
  ServerSimple.register "1700000000000" "abc123xyz" "2023-11-14T22:13:20.000Z"
    Samples.empty_store Samples.guest_a Samples.dave_form
  = (ServerSimple.Registered Samples.dave_shown,
     ServerSimple.mkStore {[ "user_1700000000000_abc123xyz" := Samples.dave_stored ]} ∅,
     ServerSimple.mkSession true (Some "user_1700000000000_abc123xyz") (Some "dave") None)
  /\ ServerSimple.me
       (ServerSimple.mkStore {[ "user_1700000000000_abc123xyz" := Samples.dave_stored ]} ∅)
       (ServerSimple.mkSession true (Some "user_1700000000000_abc123xyz") (Some "dave") None)
     = ServerSimple.Me Samples.dave_stored
  /\ (AuthRoutes.register Samples.sample_hash (fun _ => true) 0 "oid1" "tok1"
        [] Samples.anonymous Samples.dave).2
     = Samples.anonymous.
Proof.
  destruct register_session as [Hdemo Hhard].
  assert (E : ServerSimple.register "1700000000000" "abc123xyz"
                "2023-11-14T22:13:20.000Z"
                Samples.empty_store Samples.guest_a Samples.dave_form
              = (ServerSimple.Registered Samples.dave_shown,
                 ServerSimple.mkStore
                   {[ "user_1700000000000_abc123xyz" := Samples.dave_stored ]} ∅,
                 ServerSimple.mkSession true (Some "user_1700000000000_abc123xyz")
                                        (Some "dave") None))
    by reflexivity.
  split; [exact E |].
  split.
  - destruct (Hdemo _ _ _ _ _ _ _ _ _ E) as (newUser & Hstored & _ & _ & _ & _ & _ & _ & Hme).
    rewrite Hme. f_equal.
    change (Some Samples.dave_stored = Some newUser) in Hstored.
    now inversion Hstored.
  - assert (E' : AuthRoutes.register Samples.sample_hash (fun _ => true) 0 "oid1" "tok1"
                   [] Samples.anonymous Samples.dave
                 = (AuthRoutes.RegisterCreated
                      (AuthRoutes.new_user Samples.sample_hash 0 "oid1" "tok1" Samples.dave),
                    [AuthRoutes.new_user Samples.sample_hash 0 "oid1" "tok1" Samples.dave],
                    Samples.anonymous))
      by reflexivity.
    destruct (Hhard _ _ _ _ _ _ _ _ _ _ _ E') as (Hsess & _).
    rewrite E'. reflexivity.
Defined.

(** C7 as the specification words it fails on the hardened server: the
    registration is answered 201, the new user must still verify the e-mail
    address, and the session identifies nobody. *)
Lemma hardened_register_leaves_session :
  AuthRoutes.register Samples.sample_hash (fun _ => true) 0 "oid1" "tok1"
    [] Samples.anonymous Samples.dave
  = (AuthRoutes.RegisterCreated
       (AuthRoutes.new_user Samples.sample_hash 0 "oid1" "tok1" Samples.dave),
     [AuthRoutes.new_user Samples.sample_hash 0 "oid1" "tok1" Samples.dave],
     Samples.anonymous)
  /\ AuthRoutes.register_status
       (AuthRoutes.RegisterCreated
          (AuthRoutes.new_user Samples.sample_hash 0 "oid1" "tok1" Samples.dave)) = 201
  /\ Http.s_userId Samples.anonymous = None
  /\ UserModel.isEmailVerified
       (AuthRoutes.new_user Samples.sample_hash 0 "oid1" "tok1" Samples.dave) = false.
Proof. repeat split. Qed.

(** ** The chat history (server-simple.js) *)

Section ChatHistory.
Import ServerSimple.
Variable generateResponse : string -> option AIResponse.

(** C9.  DELETE /api/chat/history is answered 200 and the GET that follows
    it under the same identity returns the empty list; a second DELETE is
    answered 200 as well and leaves the store as the first one left it. *)
Theorem delete_history_idempotent (st : Store) (sess : Session) :
  (delete_history st sess).1 = HistoryCleared
  /\ status (delete_history st sess).1 = 200
  /\ get_history (delete_history st sess).2 sess = History []
  /\ delete_history (delete_history st sess).2 sess
     = (HistoryCleared, (delete_history st sess).2)
  /\ get_history (delete_history (delete_history st sess).2 sess).2 sess = History [].
Proof.
  unfold delete_history, get_history. cbn [fst snd chatHistory users status].
  rewrite delete_delete_eq, lookup_delete_eq. repeat split.
Qed.

(** The same through the application: a DELETE /api/chat/history that the
    stages ahead let through is answered 200, and the GET /api/chat/history
    that follows it in the same session is answered 200 with the empty
    list. *)
Lemma delete_then_get_history upstream elsewhere env1 env2 hdr1 hdr2 b1 b2
    (st : Store) (sess : Session) :
  let del := mkRequest "DELETE" ["api"; "chat"; "history"] hdr1 b1 in
  let get := mkRequest "GET" ["api"; "chat"; "history"] hdr2 b2 in
  upstream del = None -> upstream get = None ->
  let r1 := app generateResponse upstream elsewhere env1 del st sess in
  let r2 := app generateResponse upstream elsewhere env2 get
                (res_store r1) (res_session r1) in
  res_status r1 = 200
  /\ handled_by r1 = Some EpDeleteHistory
  /\ res_status r2 = 200
  /\ res_response r2 = Some (History []).
Proof.
  intros del get Hdel Hget r1 r2.
  assert (Rd : route del = Some EpDeleteHistory) by reflexivity.
  assert (Rg : route get = Some EpGetHistory) by reflexivity.
  subst r1 r2. unfold app. rewrite Hdel, Rd.
  unfold delete_history, answered. cbn [res_store res_session status].
  rewrite Hget, Rg. unfold get_history, answered.
  cbn [chatHistory res_status res_response handled_by status].
  rewrite lookup_delete_eq. repeat split.
Qed.

(** A session without user identifier acts under the key "guest". *)
Lemma identity_guest (sess : Session) :
  JS.truthy (userId sess) = false -> identity sess = "guest".
Proof. unfold identity. now intros ->. Qed.

(** C10.  Two sessions without user identifier act under the one key
    "guest": they read the same history, a message of either is appended
    to it, either's DELETE removes it, and what one of them has appended the
    other one reads and erases. *)
Theorem anonymous_clients_share_history (tk : Ticks) (st : Store)
    (s1 s2 : Session) (b : Body) :
  JS.truthy (userId s1) = false ->
  JS.truthy (userId s2) = false ->
  identity s1 = "guest" /\ identity s2 = "guest"
  /\ get_history st s1 = get_history st s2
  /\ chat_message generateResponse tk st s1 b = chat_message generateResponse tk st s2 b
  /\ delete_history st s1 = delete_history st s2
  /\ (forall ai,
        JS.truthy (b_message b) = true ->
        generateResponse (str (b_message b)) = Some ai ->
        get_history (chat_message generateResponse tk st s1 b).2 s2
        = History
            (trim (default [] (chatHistory st !! "guest")
                   ++ [ UserEntry (user_entry_id tk) (str (b_message b))
                                  (user_entry_iso tk);
                        BotEntry (bot_entry_now tk + 1) (response ai)
                                 (default [] (ai_formulas ai))
                                 (if JS.truthy (ai_vbaCode ai) then ai_vbaCode ai
                                  else None)
                                 (bot_entry_iso tk) ])%list))
  /\ get_history
       (delete_history (chat_message generateResponse tk st s1 b).2 s2).2 s1
     = History [].
Proof.
  intros H1 H2.
  pose proof (identity_guest s1 H1) as G1. pose proof (identity_guest s2 H2) as G2.
  unfold get_history, delete_history, chat_message. rewrite G1, G2.
  repeat split.
  - intros ai Hm Hai. rewrite Hm, Hai. cbn [negb snd chatHistory].
    now rewrite lookup_insert_eq.
  - cbn [snd chatHistory]. now rewrite lookup_delete_eq.
Qed.
End ChatHistory.

(** Two anonymous browsers: what the first asks, the second reads after
    the message the store already held, and what the second deletes is gone
    for the first. *)
Lemma anonymous_clients_share_history_witness :
  JS.truthy (ServerSimple.userId Samples.guest_a) = false
  /\ JS.truthy (ServerSimple.userId Samples.guest_b) = false
  /\ ServerSimple.get_history
       (ServerSimple.chat_message Samples.echo_ai Samples.ticks Samples.guest_store
          Samples.guest_a (Samples.ask "SUM")).2
       Samples.guest_b
     = ServerSimple.History
         [ ServerSimple.UserEntry 1699999999000 "hello" "2023-11-14T22:13:19.000Z";
           ServerSimple.UserEntry 1700000000000 "SUM" "2023-11-14T22:13:20.000Z";
           ServerSimple.BotEntry 1700000000001 "re: SUM" [] None
                                 "2023-11-14T22:13:20.000Z" ]
  /\ ServerSimple.get_history
       (ServerSimple.delete_history
          (ServerSimple.chat_message Samples.echo_ai Samples.ticks Samples.guest_store
             Samples.guest_a (Samples.ask "SUM")).2
          Samples.guest_b).2
       Samples.guest_a
     = ServerSimple.History [].
Proof.
  destruct (anonymous_clients_share_history Samples.echo_ai Samples.ticks
              Samples.guest_store Samples.guest_a Samples.guest_b (Samples.ask "SUM")
              eq_refl eq_refl)
    as (_ & _ & _ & _ & _ & Hread & Herase).
  split; [reflexivity |].
  split; [reflexivity |].
  split; [| exact Herase].
  rewrite (Hread _ eq_refl eq_refl). reflexivity.
Defined.

(** ** The keyword matcher of the demo server *)

(** C6.  The reply to "SUM関数の使い方" and the reply to "how to use SUM"
    both contain the syntax of the SUM entry, "SUM(number1, [number2],
    ...)"; the first message names "関数" and so brings all three entries,
    the second brings the SUM entry alone. *)
Theorem sum_syntax_in_reply :
  DemoServer.syntax DemoServer.SUM = "SUM(number1, [number2], ...)"
  /\ (exists text,
         DemoServer.chat_message JS.toLowerCase (Some "SUM関数の使い方")
         = DemoServer.Reply text 3
         /\ JS.includes text "SUM(number1, [number2], ...)" = true)
  /\ (exists text,
         DemoServer.chat_message JS.toLowerCase (Some "how to use SUM")
         = DemoServer.Reply text 1
         /\ JS.includes text "SUM(number1, [number2], ...)" = true).
Proof.
  split; [reflexivity |].
  split; eexists; (split; [vm_compute; reflexivity | vm_compute; reflexivity]).
Qed.

(** * Further properties of the handlers *)

(** ** Login, lock and e-mail verification (routes/auth.js) *)

Section LoginFlows.
Import UserModel Http AuthRoutes EmailVerification.
Variable bcrypt_compare : string -> string -> bool.

(** A filter that accepts no document of [coll] finds the appended one or
    nothing. *)
Lemma findOne_app_new (p : User -> bool) (coll : list User) (u : User) :
  findOne p coll = None ->
  findOne p (coll ++ [u])%list = if p u then Some (length coll, u) else None.
Proof.
  induction coll as [|v rest IH]; simpl; intros Hn.
  - now destruct (p u).
  - destruct (p v); [discriminate |].
    destruct (findOne p rest) as [[j w]|]; [discriminate |].
    rewrite (IH eq_refl). now destruct (p u).
Qed.

Lemma findOne_none (p : User -> bool) (coll : list User) :
  findOne p coll = None <-> forall u, u ∈ coll -> p u = false.
Proof.
  induction coll as [|v rest IH]; simpl.
  - split; [intros _ u Hu; now apply elem_of_nil in Hu | reflexivity].
  - destruct (p v) eqn:Hv.
    + split; [discriminate |]. intros H. specialize (H v (list_elem_of_here _ _)).
      congruence.
    + destruct (findOne p rest) as [[j w]|].
      * split; [discriminate |]. intros H.
        assert (Hr : forall u, u ∈ rest -> p u = false)
          by (intros u Hu; apply H; now apply list_elem_of_further).
        apply IH in Hr. discriminate.
      * split; [| reflexivity]. intros _ u Hu.
        apply elem_of_cons in Hu as [-> | Hu]; [assumption |].
        now apply (proj1 IH eq_refl).
Qed.

(** Wrong passwords that bring the counter from [c] to 5: each is answered
    401 and the last one sets the lock. *)
Lemma wrong_passwords_lock ip name (pre : list Attempt) t5 p5 coll sess i u :
  findOne (login_filter name) coll = Some (i, u) ->
  lockUntil u = None ->
  loginAttempts u + Z.of_nat (length pre) = 4 ->
  Forall (fun a : Attempt => bcrypt_compare a.2 (password u) = false)
         (pre ++ [(t5, p5)])%list ->
  logins bcrypt_compare ip name (pre ++ [(t5, p5)])%list coll sess
  = (replicate (S (length pre)) LoginFailed,
     <[i := set_login 5 (Some (t5 + 7200000)) u]> coll, sess).
Proof.
  intros Hf Hl Hc Hw.
  apply Forall_app in Hw as [Hpre Hlast].
  apply Forall_cons in Hlast as [Hlast _]. simpl in Hlast.
  destruct (findOne_lookup _ _ _ _ Hf) as [Hi Hp].
  rewrite logins_app.
  rewrite (failed_logins bcrypt_compare ip name pre coll sess i u Hf Hl)
    by (try assumption; lia).
  rewrite Hc. set (u4 := set_login 4 None u).
  assert (Hf4 : findOne (login_filter name) (<[i := u4]> coll) = Some (i, u4))
    by (apply findOne_insert with (u := u); auto).
  cbn [logins]. unfold login. rewrite Hf4.
  unfold isLocked at 1, comparePassword. cbn [lockUntil password u4 set_login].
  rewrite Hlast. cbn [negb].
  rewrite incLoginAttempts_lock by (cbn; auto; lia).
  unfold updateOne. rewrite list_insert_insert_eq.
  replace (S (length pre)) with (length pre + 1)%nat by lia.
  rewrite replicate_add. reflexivity.
Qed.

(** X1.  A login attempt changes at most the account it finds, and of
    that account only the failure counter, the lock and the record of the
    last login: the collection keeps its length, every other document is
    untouched, and name, e-mail address, password, role, activity,
    verification and usage of the account stay as they are. *)
Theorem login_frame now ip coll sess name pw :
  let coll' := (login bcrypt_compare now ip coll sess name pw).1.2 in
  length coll' = length coll
  /\ forall j v, coll !! j = Some v ->
       exists v', coll' !! j = Some v'
         /\ _id v' = _id v /\ username v' = username v /\ email v' = email v
         /\ password v' = password v /\ role v' = role v
         /\ isActive v' = isActive v /\ isEmailVerified v' = isEmailVerified v
         /\ usage v' = usage v
         /\ (forall i u, findOne (login_filter name) coll = Some (i, u) ->
               j <> i -> v' = v)
         /\ (findOne (login_filter name) coll = None -> v' = v).
Proof.
  intros coll'. subst coll'. unfold login.
  destruct (findOne (login_filter name) coll) as [[i u]|] eqn:Hf.
  - destruct (findOne_lookup _ _ _ _ Hf) as [Hi _].
    assert (Hcases :
      (if isLocked now u then (LoginLocked, coll, sess)
       else if negb (comparePassword bcrypt_compare pw u)
            then (LoginFailed, updateOne i (incLoginAttempts now u) coll, sess)
            else if negb (isEmailVerified u) then (LoginUnverified, coll, sess)
                 else (LoginSuccessful u,
                       updateOne i (resetLoginAttempts now ip u) coll,
                       set_identity (_id u) (username u) (role u) sess)).1.2
      = coll
      \/ exists u', (if isLocked now u then (LoginLocked, coll, sess)
       else if negb (comparePassword bcrypt_compare pw u)
            then (LoginFailed, updateOne i (incLoginAttempts now u) coll, sess)
            else if negb (isEmailVerified u) then (LoginUnverified, coll, sess)
                 else (LoginSuccessful u,
                       updateOne i (resetLoginAttempts now ip u) coll,
                       set_identity (_id u) (username u) (role u) sess)).1.2
         = <[i := u']> coll
         /\ _id u' = _id u /\ username u' = username u /\ email u' = email u
         /\ password u' = password u /\ role u' = role u
         /\ isActive u' = isActive u /\ isEmailVerified u' = isEmailVerified u
         /\ usage u' = usage u).
    { destruct (isLocked now u); [now left |].
      destruct (negb (comparePassword bcrypt_compare pw u)).
      - right. exists (incLoginAttempts now u). split; [reflexivity |].
        unfold incLoginAttempts.
        destruct (match lockUntil u with Some t => t <? now | None => false end);
          [repeat split |].
        destruct (_ && _); repeat split.
      - destruct (negb (isEmailVerified u)); [now left |].
        right. exists (resetLoginAttempts now ip u). repeat split. }
    destruct Hcases as [-> | (u' & -> & Hid & Hn & He & Hpw & Hr & Ha & Hv & Hu)].
    + split; [reflexivity |]. intros j v Hj. exists v. repeat split; auto.
    + split; [apply length_insert |]. intros j v Hj.
      destruct (decide (j = i)) as [-> | Hne].
      * exists u'. rewrite Hi in Hj. inversion Hj; subst v.
        rewrite list_lookup_insert_eq by (now apply lookup_lt_Some in Hi).
        repeat split; auto.
        -- intros i' u0 H0. inversion H0; subst. congruence.
        -- discriminate.
      * exists v. rewrite list_lookup_insert_ne by auto. repeat split; auto.
  - split; [reflexivity |]. intros j v Hj. exists v. repeat split; auto.
Qed.
(** X2.  Failures do not add up across a successful login: of the
    attempts the handler is given, up to four wrong passwords followed by
    the correct one, on a verified account that started without lock, are
    answered 401 each and then 200; the
    session then identifies the account and the account is back at counter
    zero without lock, so that five further wrong passwords are needed to
    lock it. *)
Theorem success_clears_failures ip name coll sess i u (wrong : list Attempt) t pw :
  findOne (login_filter name) coll = Some (i, u) ->
  lockUntil u = None ->
  0 <= loginAttempts u ->
  loginAttempts u + Z.of_nat (length wrong) < 5 ->
  isEmailVerified u = true ->
  Forall (fun a : Attempt => bcrypt_compare a.2 (password u) = false) wrong ->
  bcrypt_compare pw (password u) = true ->
  exists seen,
    logins bcrypt_compare ip name (wrong ++ [(t, pw)])%list coll sess
    = ((replicate (length wrong) LoginFailed ++ [LoginSuccessful seen])%list,
       <[i := set_lastLogin t ip (set_login 0 None u)]> coll,
       set_identity (_id u) (username u) (role u) sess)
    /\ loginAttempts seen = loginAttempts u + Z.of_nat (length wrong).
Proof.
  intros Hf Hl H0 Hn Hv Hw Hpw.
  destruct (findOne_lookup _ _ _ _ Hf) as [Hi Hp].
  exists (set_login (loginAttempts u + Z.of_nat (length wrong)) None u).
  split; [| reflexivity].
  rewrite logins_app.
  rewrite (failed_logins bcrypt_compare ip name wrong coll sess i u Hf Hl Hn Hw).
  set (uk := set_login (loginAttempts u + Z.of_nat (length wrong)) None u).
  assert (Hfk : findOne (login_filter name) (<[i := uk]> coll) = Some (i, uk))
    by (apply findOne_insert with (u := u); auto).
  cbn [logins]. unfold login. rewrite Hfk.
  unfold isLocked, comparePassword. cbn [lockUntil password uk set_login].
  rewrite Hpw. cbn [negb]. subst uk. cbn [isEmailVerified set_login].
  rewrite Hv. cbn [negb].
  unfold updateOne, resetLoginAttempts. rewrite list_insert_insert_eq.
  reflexivity.
Qed.

(** X3.  Once a lock has run out, the next wrong password restarts the
    count at 1 instead of adding to the old count, and the account is
    locked again by the fifth wrong password in a row, for two hours from
    that attempt. *)
Theorem relock_after_expiry ip name coll sess i u c T t1 p1
    (more : list Attempt) t5 p5 :
  findOne (login_filter name) coll = Some (i, u) ->
  loginAttempts u = c -> lockUntil u = Some T ->
  T < t1 ->
  length more = 3%nat ->
  Forall (fun a : Attempt => bcrypt_compare a.2 (password u) = false)
         ((t1, p1) :: more ++ [(t5, p5)])%list ->
  login bcrypt_compare t1 ip coll sess name p1
  = (LoginFailed, <[i := set_login 1 None u]> coll, sess)
  /\ logins bcrypt_compare ip name ((t1, p1) :: more ++ [(t5, p5)])%list coll sess
     = (replicate 5 LoginFailed,
        <[i := set_login 5 (Some (t5 + 7200000)) u]> coll, sess).
Proof.
  intros Hf Hc Hl HT Hlen Hw.
  apply Forall_cons in Hw as [Hp1 Hrest]. simpl in Hp1.
  destruct (findOne_lookup _ _ _ _ Hf) as [Hi Hp].
  assert (Hfirst : login bcrypt_compare t1 ip coll sess name p1
                   = (LoginFailed, <[i := set_login 1 None u]> coll, sess)).
  { unfold login. rewrite Hf. unfold isLocked, comparePassword. rewrite Hl.
    destruct (Z.ltb_spec t1 T); [lia |]. rewrite Hp1. cbn [negb].
    unfold incLoginAttempts. rewrite Hl.
    destruct (Z.ltb_spec T t1); [reflexivity | lia]. }
  split; [exact Hfirst |].
  cbn [logins]. rewrite Hfirst.
  set (u1 := set_login 1 None u).
  assert (Hf1 : findOne (login_filter name) (<[i := u1]> coll) = Some (i, u1))
    by (apply findOne_insert with (u := u); auto).
  rewrite (wrong_passwords_lock ip name more t5 p5 (<[i := u1]> coll) sess i u1 Hf1)
    by (subst u1; cbn [lockUntil loginAttempts password set_login];
        try reflexivity; try assumption; rewrite Hlen; reflexivity).
  rewrite Hlen, list_insert_insert_eq. reflexivity.
Qed.

(** The boundary of X3.  At the very millisecond the lock ends the account
    is no longer locked but the lock does not count as run out either: a
    wrong password then adds to the old count and locks the account again
    at once. *)
Lemma wrong_password_at_lock_end ip name coll sess i u T pw :
  findOne (login_filter name) coll = Some (i, u) ->
  lockUntil u = Some T -> 4 <= loginAttempts u ->
  bcrypt_compare pw (password u) = false ->
  login bcrypt_compare T ip coll sess name pw
  = (LoginFailed,
     <[i := set_login (loginAttempts u + 1) (Some (T + 7200000)) u]> coll, sess).
Proof.
  intros Hf Hl Hc Hpw. unfold login. rewrite Hf.
  unfold isLocked, comparePassword. rewrite Hl, Z.ltb_irrefl, Hpw. cbn [negb].
  unfold incLoginAttempts, isLocked. rewrite Hl, Z.ltb_irrefl. cbn [negb].
  destruct (Z.geb_spec (loginAttempts u + 1) 5); [reflexivity | lia].
Qed.

Section RegistrationFlow.
Variable bcrypt_hash : string -> string.
Variable schema_accepts : User -> bool.

(** X4.  Registration, verification, login.  After a registration
    answered 201, and as long as the token is not one another account
    holds and the name found no active account before: a login with the
    registered password is answered 403 until the address is verified;
    GET /verify-email with the token, before the 24 hours are over, is
    answered 200; from then on the login is answered 200 and the session
    identifies the new account. *)
Theorem register_verify_login now oid token coll sess (b : RegisterBody)
    u coll1 sess1 tv t ip :
  bcrypt_compare (b_password b) (bcrypt_hash (b_password b)) = true ->
  register bcrypt_hash schema_accepts now oid token coll sess b
  = (RegisterCreated u, coll1, sess1) ->
  (forall v, v ∈ coll -> emailVerificationToken v <> Some token) ->
  findOne (login_filter (b_username b)) coll = None ->
  tv < now + 24 * 60 * 60 * 1000 ->
  login bcrypt_compare t ip coll1 sess1 (b_username b) (b_password b)
  = (LoginUnverified, coll1, sess1)
  /\ verify_email tv coll1 token
     = (VerifyDone, <[length coll := mark_verified u]> coll1)
  /\ (login bcrypt_compare t ip (verify_email tv coll1 token).2 sess1
            (b_username b) (b_password b)).1
     = (LoginSuccessful (mark_verified u),
        <[length coll := resetLoginAttempts t ip (mark_verified u)]> coll1)
  /\ (login bcrypt_compare t ip (verify_email tv coll1 token).2 sess1
            (b_username b) (b_password b)).2
     = set_identity oid (b_username b) RoleUser sess.
Proof.
  intros Hrt Hreg Hfresh Hnone Htv.
  unfold register in Hreg.
  destruct (findOne _ coll) as [[? ?]|]; [discriminate |].
  destruct (schema_accepts _); [| discriminate].
  inversion Hreg; subst u coll1 sess1; clear Hreg.
  set (u := new_user bcrypt_hash now oid token b).
  assert (Hfu : findOne (login_filter (b_username b)) (coll ++ [u])%list
                = Some (length coll, u)).
  { rewrite findOne_app_new by assumption.
    unfold login_filter. subst u. cbn [username isActive new_user].
    now rewrite String.eqb_refl. }
  assert (Hfv : findOne (verify_filter token tv) (coll ++ [u])%list
                = Some (length coll, u)).
  { rewrite findOne_app_new.
    - unfold verify_filter. subst u.
      cbn [emailVerificationToken emailVerificationExpires new_user].
      rewrite String.eqb_refl.
      destruct (Z.ltb_spec tv (now + 24 * 60 * 60 * 1000)); [reflexivity | lia].
    - apply findOne_none. intros v Hv. unfold verify_filter.
      specialize (Hfresh v Hv).
      destruct (emailVerificationToken v) as [tk|]; [| reflexivity].
      destruct (emailVerificationExpires v); [| reflexivity].
      destruct (String.eqb_spec tk token); [congruence | reflexivity]. }
  assert (Hverify : verify_email tv (coll ++ [u])%list token
                    = (VerifyDone, <[length coll := mark_verified u]> (coll ++ [u])%list)).
  { unfold verify_email. now rewrite Hfv. }
  split.
  { unfold login. rewrite Hfu. unfold isLocked, comparePassword. subst u.
    cbn [lockUntil password isEmailVerified new_user]. rewrite Hrt. reflexivity. }
  split; [exact Hverify |].
  rewrite Hverify. cbn [snd].
  assert (Hfm : findOne (login_filter (b_username b))
                        (<[length coll := mark_verified u]> (coll ++ [u])%list)
                = Some (length coll, mark_verified u)).
  { apply findOne_insert with (u := u); [exact Hfu |].
    unfold login_filter. subst u. cbn [username isActive mark_verified new_user].
    now rewrite String.eqb_refl. }
  unfold login. rewrite Hfm. unfold isLocked, comparePassword. subst u.
  cbn [lockUntil password isEmailVerified mark_verified new_user].
  rewrite Hrt. cbn [negb fst snd]. unfold updateOne.
  rewrite list_insert_insert_eq. split; reflexivity.
Qed.

(** X5.  The verification token is good for 24 hours and for one use: at
    or after the 24 hours from registration it is answered 400, and so is
    a second use after a successful one; neither changes anything. *)
Theorem verification_token_lifetime now oid token coll sess (b : RegisterBody)
    u coll1 sess1 tv tlate :
  register bcrypt_hash schema_accepts now oid token coll sess b
  = (RegisterCreated u, coll1, sess1) ->
  (forall v, v ∈ coll -> emailVerificationToken v <> Some token) ->
  tv < now + 24 * 60 * 60 * 1000 ->
  now + 24 * 60 * 60 * 1000 <= tlate ->
  verify_email tlate coll1 token = (VerifyInvalid, coll1)
  /\ verify_email tv (verify_email tv coll1 token).2 token
     = (VerifyInvalid, (verify_email tv coll1 token).2).
Proof.
  intros Hreg Hfresh Htv Hlate.
  unfold register in Hreg.
  destruct (findOne _ coll) as [[? ?]|]; [discriminate |].
  destruct (schema_accepts _); [| discriminate].
  inversion Hreg; subst u coll1 sess1; clear Hreg.
  set (u := new_user bcrypt_hash now oid token b).
  assert (Hold : forall t', findOne (verify_filter token t') coll = None).
  { intros t'. apply findOne_none. intros v Hv. unfold verify_filter.
    specialize (Hfresh v Hv).
    destruct (emailVerificationToken v) as [tk|]; [| reflexivity].
    destruct (emailVerificationExpires v); [| reflexivity].
    destruct (String.eqb_spec tk token); [congruence | reflexivity]. }
  split.
  - unfold verify_email. rewrite findOne_app_new by apply Hold.
    unfold verify_filter. subst u.
    cbn [emailVerificationToken emailVerificationExpires new_user].
    rewrite String.eqb_refl.
    destruct (Z.ltb_spec tlate (now + 24 * 60 * 60 * 1000)); [lia | reflexivity].
  - assert (Hfv : findOne (verify_filter token tv) (coll ++ [u])%list
                  = Some (length coll, u)).
    { rewrite findOne_app_new by apply Hold.
      unfold verify_filter. subst u.
      cbn [emailVerificationToken emailVerificationExpires new_user].
      rewrite String.eqb_refl.
      destruct (Z.ltb_spec tv (now + 24 * 60 * 60 * 1000)); [reflexivity | lia]. }
    unfold verify_email at 2 3. rewrite Hfv. cbn [snd]. unfold updateOne.
    replace (<[length coll := mark_verified u]> (coll ++ [u])%list)
      with (coll ++ [mark_verified u])%list.
    + unfold verify_email. rewrite findOne_app_new by apply Hold.
      reflexivity.
    + rewrite insert_app_r_alt by lia. now rewrite Nat.sub_diag.
Qed.
End RegistrationFlow.
End LoginFlows.

(** X2 on the account of alice: four wrong passwords and then the right
    one. *)
Lemma success_clears_failures_witness :
  exists seen,
    AuthRoutes.logins String.eqb None "alice"
      (Samples.four_wrong ++ [(5000, "Secret#123")])%list
      [Samples.alice_verified] Samples.anonymous
    = ((replicate 4 AuthRoutes.LoginFailed ++ [AuthRoutes.LoginSuccessful seen])%list,
       [UserModel.set_lastLogin 5000 None
          (UserModel.set_login 0 None Samples.alice_verified)],
       Http.set_identity "u1" "alice" UserModel.RoleUser Samples.anonymous)
    /\ UserModel.loginAttempts seen = 4.
Proof.
  apply (success_clears_failures String.eqb None "alice" [Samples.alice_verified]
           Samples.anonymous 0%nat Samples.alice_verified Samples.four_wrong
           5000 "Secret#123");
    [reflexivity | reflexivity | cbn; lia | cbn; lia | reflexivity
    | repeat constructor | reflexivity].
Defined.

(** X3 on the account of alice, whose earlier lock ended at 7205000. *)
Lemma relock_after_expiry_witness :
  AuthRoutes.login String.eqb 7300000 None [Cases.alice_after_lock]
    Samples.anonymous "alice" "a"
  = (AuthRoutes.LoginFailed,
     [UserModel.set_login 1 None Cases.alice_after_lock], Samples.anonymous)
  /\ AuthRoutes.logins String.eqb None "alice"
       ((7300000, "a") :: Cases.three_wrong ++ [(7700000, "e")])%list
       [Cases.alice_after_lock] Samples.anonymous
     = (replicate 5 AuthRoutes.LoginFailed,
        [UserModel.set_login 5 (Some 14900000) Cases.alice_after_lock],
        Samples.anonymous).
Proof.
  apply (relock_after_expiry String.eqb None "alice" [Cases.alice_after_lock]
           Samples.anonymous 0%nat Cases.alice_after_lock 5 7205000 7300000 "a"
           Cases.three_wrong 7700000 "e");
    [reflexivity | reflexivity | reflexivity | lia | reflexivity
    | repeat constructor].
Defined.

(** X4 on the registration of dave beside the account of alice. *)
Lemma register_verify_login_witness :
  AuthRoutes.login Cases.sample_compare 2000 None
    [Samples.alice_verified;
     AuthRoutes.new_user Samples.sample_hash 1000 "u9" "tok9" Samples.dave]
    Samples.anonymous "dave" "Secret#123"
  = (AuthRoutes.LoginUnverified,
     [Samples.alice_verified;
      AuthRoutes.new_user Samples.sample_hash 1000 "u9" "tok9" Samples.dave],
     Samples.anonymous)
  /\ EmailVerification.verify_email 3000
       [Samples.alice_verified;
        AuthRoutes.new_user Samples.sample_hash 1000 "u9" "tok9" Samples.dave]
       "tok9"
     = (EmailVerification.VerifyDone,
        [Samples.alice_verified;
         EmailVerification.mark_verified
           (AuthRoutes.new_user Samples.sample_hash 1000 "u9" "tok9" Samples.dave)])
  /\ (AuthRoutes.login Cases.sample_compare 2000 None
        (EmailVerification.verify_email 3000
           [Samples.alice_verified;
            AuthRoutes.new_user Samples.sample_hash 1000 "u9" "tok9" Samples.dave]
           "tok9").2
        Samples.anonymous "dave" "Secret#123").2
     = Http.set_identity "u9" "dave" UserModel.RoleUser Samples.anonymous.
Proof.
  destruct (register_verify_login Cases.sample_compare Samples.sample_hash
              (fun _ => true) 1000 "u9" "tok9" [Samples.alice_verified]
              Samples.anonymous Samples.dave
              (AuthRoutes.new_user Samples.sample_hash 1000 "u9" "tok9" Samples.dave)
              [Samples.alice_verified;
               AuthRoutes.new_user Samples.sample_hash 1000 "u9" "tok9" Samples.dave]
              Samples.anonymous 3000 2000 None)
    as (H1 & H2 & _ & H4).
  - reflexivity.
  - reflexivity.
  - intros v Hv. apply list_elem_of_singleton in Hv. subst v. discriminate.
  - reflexivity.
  - lia.
  - split; [exact H1 |]. split; [exact H2 | exact H4].
Defined.

(** X5 on the same registration: the token a day later, and the token
    used twice. *)
Lemma verification_token_lifetime_witness :
  EmailVerification.verify_email 86401000
    [Samples.alice_verified;
     AuthRoutes.new_user Samples.sample_hash 1000 "u9" "tok9" Samples.dave]
    "tok9"
  = (EmailVerification.VerifyInvalid,
     [Samples.alice_verified;
      AuthRoutes.new_user Samples.sample_hash 1000 "u9" "tok9" Samples.dave])
  /\ (EmailVerification.verify_email 3000
        (EmailVerification.verify_email 3000
           [Samples.alice_verified;
            AuthRoutes.new_user Samples.sample_hash 1000 "u9" "tok9" Samples.dave]
           "tok9").2
        "tok9").1
     = EmailVerification.VerifyInvalid.
Proof.
  destruct (verification_token_lifetime Samples.sample_hash
              (fun _ => true) 1000 "u9" "tok9" [Samples.alice_verified]
              Samples.anonymous Samples.dave
              (AuthRoutes.new_user Samples.sample_hash 1000 "u9" "tok9" Samples.dave)
              [Samples.alice_verified;
               AuthRoutes.new_user Samples.sample_hash 1000 "u9" "tok9" Samples.dave]
              Samples.anonymous 3000 86401000)
    as (H1 & H2).
  - reflexivity.
  - intros v Hv. apply list_elem_of_singleton in Hv. subst v. discriminate.
  - lia.
  - lia.
  - split; [exact H1 |]. now rewrite H2.
Defined.

(** ** Authentication middleware (middleware/auth.js, routes/excel.js) *)

Section AccessControl.
Import UserModel Http AuthRoutes AuthMiddleware ExcelRoutes.
Variable jwt_verify : string -> JwtResult.
Variable bcrypt_compare : string -> string -> bool.

Lemma findById_insert id (coll : list User) i u u' :
  findOne (fun v => String.eqb (_id v) id) coll = Some (i, u) ->
  _id u' = _id u ->
  findById id (<[i := u']> coll) = Some u'.
Proof.
  intros Hf Hid. unfold findById.
  rewrite (findOne_insert _ coll i u u' Hf); [reflexivity |].
  rewrite Hid. now destruct (findOne_lookup _ _ _ _ Hf).
Qed.

(** X6.  The login lock also shuts out the holders of a valid access
    token: once five wrong passwords have locked an account, every
    request that presents a token of that account to [authMiddleware]
    before the lock ends is answered 423, and so never reaches the routes
    behind it; from the end of the lock on the token is accepted again. *)
Theorem locked_account_shut_out ip name coll sess i u (pre : list Attempt)
    t5 p5 token now :
  findOne (login_filter name) coll = Some (i, u) ->
  findOne (fun v => String.eqb (_id v) (_id u)) coll = Some (i, u) ->
  lockUntil u = None ->
  loginAttempts u + Z.of_nat (length pre) = 4 ->
  Forall (fun a : Attempt => bcrypt_compare a.2 (password u) = false)
         (pre ++ [(t5, p5)])%list ->
  jwt_verify token = JwtPayload (_id u) ->
  let coll5 := (logins bcrypt_compare ip name (pre ++ [(t5, p5)])%list coll sess).1.2 in
  (now < t5 + 7200000 ->
     authMiddleware jwt_verify now (Some ("Bearer " +:+ token)) coll5 = AccountLocked
     /\ enter jwt_verify FunctionSearch now (Some ("Bearer " +:+ token)) coll5
        = Rejected 423)
  /\ (t5 + 7200000 <= now ->
        authMiddleware jwt_verify now (Some ("Bearer " +:+ token)) coll5
        = Authenticated (set_login 5 (Some (t5 + 7200000)) u)).
Proof.
  intros Hf Hid Hl Hc Hw Hjwt coll5. subst coll5.
  rewrite (wrong_passwords_lock bcrypt_compare ip name pre t5 p5 coll sess i u)
    by assumption.
  cbn [fst snd].
  destruct (findOne_lookup _ _ _ _ Hf) as [_ Hp].
  assert (Hact : isActive u = true).
  { unfold login_filter in Hp. now apply andb_true_iff in Hp as [_ Hp]. }
  assert (Hauth : forall t,
    authMiddleware jwt_verify t (Some ("Bearer " +:+ token))
      (<[i := set_login 5 (Some (t5 + 7200000)) u]> coll)
    = if t <? t5 + 7200000 then AccountLocked
      else Authenticated (set_login 5 (Some (t5 + 7200000)) u)).
  { intros t. unfold authMiddleware.
    change (substring_from 7 (default "" (Some ("Bearer " +:+ token)))) with token.
    change (JS.truthy (Some ("Bearer " +:+ token))) with true.
    replace (String.prefix "Bearer " (default "" (Some ("Bearer " +:+ token))))
      with true by (now destruct token).
    cbn [negb orb].
    rewrite Hjwt, (findById_insert _ coll i u) by auto.
    cbn [isActive set_login]. rewrite Hact. reflexivity. }
  split.
  - intros Hnow. assert (Hlt : (now <? t5 + 7200000) = true) by now apply Z.ltb_lt.
    split.
    + now rewrite Hauth, Hlt.
    + unfold enter. cbn [chain run]. now rewrite Hauth, Hlt.
  - intros Hnow. rewrite Hauth.
    destruct (Z.ltb_spec now (t5 + 7200000)); [lia | reflexivity].
Qed.

(** X7.  [optionalAuth] assigns [req.user] in exactly the cases in which
    [authMiddleware] lets the request through, and the same user; in
    every other case it lets the request through without a user. *)
Theorem optionalAuth_agrees now authorization coll :
  optionalAuth jwt_verify now authorization coll
  = match authMiddleware jwt_verify now authorization coll with
    | Authenticated user => Some user
    | _ => None
    end.
Proof.
  unfold optionalAuth, authMiddleware.
  destruct (JS.truthy authorization); cbn [negb andb orb]; [| reflexivity].
  destruct (String.prefix "Bearer " (default "" authorization));
    cbn [negb]; [| reflexivity].
  destruct (jwt_verify _); try reflexivity.
  destruct (findById id coll) as [user|]; [| reflexivity].
  destruct (isActive user); cbn [negb andb]; [| reflexivity].
  now destruct (isLocked now user).
Qed.

(** X8.  The routes that add to the knowledge base, and the statistics,
    answer 401 to every request, whatever token it carries and whoever is
    stored: they are registered with [requireAdmin] alone, and no stage
    ahead of it assigns [req.user]. *)
Theorem admin_routes_answer_401 now authorization coll :
  enter jwt_verify AddFunction now authorization coll = Rejected 401
  /\ enter jwt_verify AddFeature now authorization coll = Rejected 401
  /\ enter jwt_verify AddFaq now authorization coll = Rejected 401
  /\ enter jwt_verify Stats now authorization coll = Rejected 401.
Proof.
  repeat split.
Qed.

(** X9.  POST /refresh-token never issues a token: routes/auth.js does not
    bind [jwt], the reference to it throws inside the [try] and the [catch]
    answers 401, so every request is answered 401, whatever cookie it
    carries, whoever is stored and whatever jsonwebtoken would say of the
    cookie. *)
Theorem refresh_token_always_401 jwt_verify_refresh generateAccessToken
    cookie (coll : list User) :
  TokenRoutes.refresh_status
    (TokenRoutes.refresh_token jwt_verify_refresh generateAccessToken cookie coll)
  = 401
  /\ (forall accessToken,
        TokenRoutes.refresh_token jwt_verify_refresh generateAccessToken cookie coll
        <> TokenRoutes.Refreshed accessToken)
  /\ (JS.truthy cookie = true ->
      TokenRoutes.refresh_token jwt_verify_refresh generateAccessToken cookie coll
      = TokenRoutes.RefreshTokenInvalid).
Proof.
  unfold TokenRoutes.refresh_token.
  change (existsb (String.eqb "jwt") TokenRoutes.bound) with false.
  destruct (JS.truthy cookie); cbn [negb]; repeat split; discriminate.
Qed.
End AccessControl.

(** X6 on the account of alice: the fifth wrong password at 5000 locks it
    until 7205000. *)
Lemma locked_account_shut_out_witness :
  AuthMiddleware.authMiddleware Cases.sample_jwt 7204999
    (Some "Bearer token-of-u1")
    [UserModel.set_login 5 (Some 7205000) Samples.alice_verified]
  = AuthMiddleware.AccountLocked
  /\ ExcelRoutes.enter Cases.sample_jwt ExcelRoutes.FunctionSearch 7204999
       (Some "Bearer token-of-u1")
       [UserModel.set_login 5 (Some 7205000) Samples.alice_verified]
     = ExcelRoutes.Rejected 423
  /\ AuthMiddleware.authMiddleware Cases.sample_jwt 7205000
       (Some "Bearer token-of-u1")
       [UserModel.set_login 5 (Some 7205000) Samples.alice_verified]
     = AuthMiddleware.Authenticated
         (UserModel.set_login 5 (Some 7205000) Samples.alice_verified).
Proof.
  assert (Hwrong : Forall (fun a : AuthRoutes.Attempt =>
                             String.eqb a.2 (UserModel.password Samples.alice_verified) = false)
                          (Samples.four_wrong ++ [(5000, "e")])%list)
    by (repeat constructor).
  destruct (locked_account_shut_out Cases.sample_jwt String.eqb None "alice"
              [Samples.alice_verified] Samples.anonymous 0%nat
              Samples.alice_verified Samples.four_wrong 5000 "e" "token-of-u1"
              7204999 eq_refl eq_refl eq_refl eq_refl Hwrong eq_refl)
    as [Hin _].
  destruct (locked_account_shut_out Cases.sample_jwt String.eqb None "alice"
              [Samples.alice_verified] Samples.anonymous 0%nat
              Samples.alice_verified Samples.four_wrong 5000 "e" "token-of-u1"
              7205000 eq_refl eq_refl eq_refl eq_refl Hwrong eq_refl)
    as [_ Hout].
  destruct (Hin ltac:(lia)) as [H1 H2].
  split; [exact H1 |]. split; [exact H2 |]. apply Hout. lia.
Defined.

(** ** Substring search *)

Section Includes.

Lemma prefix_empty (s : string) : String.prefix "" s = true.
Proof. now destruct s. Qed.

Lemma prefix_app (sub t : string) : String.prefix sub (sub +:+ t) = true.
Proof.
  induction sub as [|c sub IH]; [apply prefix_empty |].
  change (String c sub +:+ t) with (String c (sub +:+ t)).
  change ((if ascii_dec c c then String.prefix sub (sub +:+ t) else false) = true).
  destruct (ascii_dec c c); [exact IH | contradiction].
Qed.

Lemma prefix_app_l (sub s t : string) :
  String.prefix sub s = true -> String.prefix sub (s +:+ t) = true.
Proof.
  revert s. induction sub as [|c sub IH]; intros s; [intros _; apply prefix_empty |].
  destruct s as [|d s]; [discriminate |].
  change (String d s +:+ t) with (String d (s +:+ t)).
  change ((if ascii_dec c d then String.prefix sub s else false) = true ->
          (if ascii_dec c d then String.prefix sub (s +:+ t) else false) = true).
  destruct (ascii_dec c d); [apply IH | discriminate].
Qed.

Lemma includes_cons (c : ascii) (s sub : string) :
  JS.includes (String c s) sub
  = String.prefix sub (String c s) || JS.includes s sub.
Proof. reflexivity. Qed.

Lemma includes_app_l (s t sub : string) :
  JS.includes s sub = true -> JS.includes (s +:+ t) sub = true.
Proof.
  induction s as [|c s IH].
  - cbn [JS.includes]. rewrite orb_false_r. intros H.
    destruct sub; [| discriminate]. destruct t; reflexivity.
  - change (String c s +:+ t) with (String c (s +:+ t)).
    rewrite !includes_cons. intros H. apply orb_true_iff in H as [H | H].
    + apply (prefix_app_l sub (String c s) t) in H.
      change (String c s +:+ t) with (String c (s +:+ t)) in H.
      now rewrite H.
    + rewrite (IH H). apply orb_true_r.
Qed.

Lemma includes_app_r (s t sub : string) :
  JS.includes t sub = true -> JS.includes (s +:+ t) sub = true.
Proof.
  intros H. induction s as [|c s IH]; [exact H |].
  change (String c s +:+ t) with (String c (s +:+ t)).
  rewrite includes_cons, IH. apply orb_true_r.
Qed.

Lemma prefix_refl (s : string) : String.prefix s s = true.
Proof.
  induction s as [|c s IH]; [reflexivity |].
  change ((if ascii_dec c c then String.prefix s s else false) = true).
  destruct (ascii_dec c c); [exact IH | contradiction].
Qed.

Lemma includes_refl (s : string) : JS.includes s s = true.
Proof.
  destruct s as [|c s]; [reflexivity |].
  now rewrite includes_cons, prefix_refl.
Qed.

(** A part of a concatenation is included in it. *)
Lemma includes_concat_all (parts : list string) (p sub : string) :
  p ∈ parts -> JS.includes p sub = true ->
  JS.includes (JS.concat_all parts) sub = true.
Proof.
  intros Hin Hp. induction parts as [|q parts IH];
    [now apply elem_of_nil in Hin |].
  cbn [JS.concat_all fold_right].
  apply elem_of_cons in Hin as [-> | Hin].
  - now apply includes_app_l.
  - apply includes_app_r. now apply IH.
Qed.

End Includes.

(** ** The chat quota and the reply text (routes/chat.js) *)

Section ChatUsage.
Import UserModel ChatRoutes.
Variable toDateString : Z -> string.
Variable find_functions : string -> list ExcelFunction.
Variable find_features : string -> list ExcelFeature.
Variable find_practices : string -> list BestPractice.
Variable find_faqs : string -> list ExcelFAQ.

Local Abbreviation post_message_with lower :=
  (post_message lower toDateString find_functions find_features find_practices
                find_faqs).
Local Abbreviation post_messages_with lower :=
  (post_messages lower toDateString find_functions find_features find_practices
                 find_faqs).
Local Abbreviation limit_of u :=
  (if Role_eqb (role u) RolePremium then dailyLimit (usage u) * 5
   else dailyLimit (usage u)).

(** An answered question within the day of the last reset. *)
Lemma post_message_answered lower today (user : User) message :
  questionsAsked (usage user) < limit_of user ->
  toDateString today = toDateString (lastResetDate (usage user)) ->
  hasExcelKeywords lower message = true ->
  exists text n,
    post_message_with lower today user message
    = (ChatAnswer text n
         (dailyLimit (usage user) - (questionsAsked (usage user) + 1)),
       set_usage (mkUsage (questionsAsked (usage user) + 1)
                          (dailyLimit (usage user)) (monthlyLimit (usage user))
                          (lastResetDate (usage user))) user)
    /\ text = response_text
                (searchExcelKnowledge find_functions find_features
                   find_practices find_faqs message)
    /\ n = totalResults
             (searchExcelKnowledge find_functions find_features
                find_practices find_faqs message).
Proof.
  intros Hopen Hday Hkw. eexists _, _. split; [| split; reflexivity].
  unfold post_message.
  replace (canAskQuestion user) with true
    by (symmetry; now apply canAskQuestion_iff).
  cbn [negb]. unfold respond. rewrite Hkw. cbn [negb].
  unfold generateAIResponse, incrementUsage.
  rewrite Hday, String.eqb_refl. cbn [negb]. reflexivity.
Qed.

(** X10.  The daily quota is exact within a day: of a series of Excel
    questions the handler is given on the day of the last reset, the first
    [limit - asked] are answered 200 and every later one 429, where the
    limit is the daily limit, five times that for a premium user; the
    counter ends at the number of answered questions. *)
Theorem chat_quota lower (reqs : list (Z * string)) (user : User) :
  Forall (fun r : Z * string =>
            toDateString r.1 = toDateString (lastResetDate (usage user))
            /\ hasExcelKeywords lower r.2 = true) reqs ->
  map chat_status (post_messages_with lower reqs user).1
  = (replicate (Nat.min (Z.to_nat (limit_of user - questionsAsked (usage user)))
                        (length reqs)) 200
     ++ replicate (length reqs
                   - Z.to_nat (limit_of user - questionsAsked (usage user))) 429)%list
  /\ questionsAsked (usage (post_messages_with lower reqs user).2)
     = questionsAsked (usage user)
       + Z.of_nat (Nat.min (Z.to_nat (limit_of user - questionsAsked (usage user)))
                           (length reqs)).
Proof.
  revert user. induction reqs as [|[today message] rest IH]; intros user Hall.
  - cbn. rewrite Nat.min_0_r. cbn. split; [reflexivity | lia].
  - apply Forall_cons in Hall as [[Hday Hkw] Hall]. cbn [fst snd] in Hday, Hkw.
    cbn [post_messages length].
    destruct (Z_le_gt_dec (limit_of user) (questionsAsked (usage user)))
      as [Hfull | Hopen].
    + assert (Hpm : post_message_with lower today user message
                    = (DailyLimitExceeded (dailyLimit (usage user))
                                          (questionsAsked (usage user)), user)).
      { unfold post_message.
        replace (canAskQuestion user) with false; [reflexivity |].
        symmetry. unfold canAskQuestion. apply Z.ltb_ge. lia. }
      rewrite Hpm.
      destruct (IH user Hall) as [IH1 IH2].
      destruct (post_messages _ _ _ _ _ _ rest user) as [rs user2].
      cbn [fst snd map chat_status] in *.
      replace (Z.to_nat (limit_of user - questionsAsked (usage user)))
        with 0%nat in * by lia.
      cbn [Nat.min] in *. rewrite Nat.sub_0_r in IH1.
      cbn [Nat.sub replicate app] in *.
      split; [now rewrite IH1 | lia].
    + destruct (post_message_answered lower today user message)
        as (text & n & Hpm & _); [lia | assumption | assumption |].
      rewrite Hpm.
      set (user1 := set_usage _ user) in *.
      assert (Hrole : role user1 = role user) by reflexivity.
      assert (Hlim : dailyLimit (usage user1) = dailyLimit (usage user)) by reflexivity.
      assert (Hask : questionsAsked (usage user1) = questionsAsked (usage user) + 1)
        by reflexivity.
      assert (Hrd : lastResetDate (usage user1) = lastResetDate (usage user))
        by reflexivity.
      destruct (IH user1) as [IH1 IH2].
      { rewrite Hrd. exact Hall. }
      destruct (post_messages _ _ _ _ _ _ rest user1) as [rs user2].
      cbn [fst snd map chat_status] in *.
      rewrite Hrole, Hlim, Hask in IH1, IH2.
      replace (Z.to_nat (limit_of user - questionsAsked (usage user)))
        with (S (Z.to_nat (limit_of user - (questionsAsked (usage user) + 1))))
        by lia.
      cbn [Nat.min Nat.sub replicate app].
      split; [now rewrite IH1 | lia].
Qed.


(** X12.  Hits among the frequently asked questions are counted and never
    shown: when a question finds nothing but such entries, the reply
    announces that information was found, reports their number, and lists
    nothing. *)
Theorem faq_hits_counted_not_shown lower today (user : User) message :
  canAskQuestion user = true ->
  hasExcelKeywords lower message = true ->
  find_functions message = [] ->
  find_features message = [] ->
  find_practices message = [] ->
  find_faqs message <> [] ->
  exists n remaining,
    (post_message_with lower today user message).1
    = ChatAnswer
        (JS.concat_all
           [ "申し訳ございませんが、現在AI機能は開発中です。"; JS.nl; JS.nl;
             "関連する情報を見つけました："; JS.nl; JS.nl ])
        n remaining
    /\ n = Nat.min 5 (length (find_faqs message))
    /\ (0 < n)%nat.
Proof.
  intros Hgate Hkw Hfn Hft Hbp Hfaq.
  unfold post_message. rewrite Hgate. cbn [negb].
  unfold respond. rewrite Hkw. cbn [negb].
  unfold generateAIResponse, searchExcelKnowledge. rewrite Hfn, Hft, Hbp.
  cbn [take length Nat.add fst totalResults].
  eexists _, _. split; [| split; [apply length_take |]].
  - unfold response_text. cbn [totalResults functions features practices length].
    destruct (find_faqs message) as [|q qs]; [contradiction |].
    reflexivity.
  - rewrite length_take.
    destruct (find_faqs message); [contradiction | cbn; lia].
Qed.

(** X13.  Every function the search returns appears in the reply with its
    name and its syntax. *)
Theorem reply_lists_functions lower today (user : User) message
    (f : ExcelFunction) :
  canAskQuestion user = true ->
  hasExcelKeywords lower message = true ->
  f ∈ take 5 (find_functions message) ->
  exists text n remaining,
    (post_message_with lower today user message).1 = ChatAnswer text n remaining
    /\ JS.includes text (fn_name f) = true
    /\ JS.includes text (fn_syntax f) = true.
Proof.
  intros Hgate Hkw Hin.
  unfold post_message. rewrite Hgate. cbn [negb].
  unfold respond. rewrite Hkw. cbn [negb].
  unfold generateAIResponse. cbn [fst].
  eexists _, _, _. split; [reflexivity |].
  set (kb := searchExcelKnowledge _ _ _ _ message).
  assert (Hfs : functions kb = take 5 (find_functions message)) by reflexivity.
  assert (Hlen : (0 <? length (functions kb))%nat = true).
  { rewrite Hfs. destruct (take 5 (find_functions message));
      [now apply elem_of_nil in Hin | reflexivity]. }
  assert (Htot : (0 <? totalResults kb)%nat = true).
  { apply Nat.ltb_lt. apply Nat.ltb_lt in Hlen.
    subst kb. unfold searchExcelKnowledge in *. cbn [totalResults functions] in *.
    lia. }
  assert (Hpart : forall sub,
    JS.includes (render_function f) sub = true ->
    JS.includes (response_text kb) sub = true).
  { intros sub Hsub. unfold response_text. rewrite Htot, Hlen.
    eapply includes_concat_all; [do 3 apply list_elem_of_further;
                                 apply list_elem_of_here |].
    eapply includes_concat_all; [do 3 apply list_elem_of_further;
                                 apply list_elem_of_here |].
    eapply includes_concat_all; [| exact Hsub].
    do 2 apply list_elem_of_further. rewrite Hfs.
    now apply list_elem_of_fmap_2. }
  split; apply Hpart; unfold render_function.
  - eapply includes_concat_all; [| apply includes_refl].
    apply list_elem_of_further, list_elem_of_here.
  - eapply includes_concat_all; [| apply includes_refl].
    do 6 apply list_elem_of_further. apply list_elem_of_here.
Qed.

(** X14.  The usage check of the middleware and the one inside the chat
    handler are the same gate: [usageLimitCheck] stops a user exactly when
    the handler would answer 429, and it lets a request without user
    through. *)
Theorem usage_check_agrees lower today (user : User) message :
  AuthMiddleware.usageLimitCheck (Some user)
  = negb (chat_status (post_message_with lower today user message).1 =? 429)
  /\ AuthMiddleware.usageLimitCheck None = true.
Proof.
  split; [| reflexivity].
  unfold AuthMiddleware.usageLimitCheck, post_message, respond.
  destruct (canAskQuestion user); cbn [negb fst chat_status]; [| reflexivity].
  destruct (hasExcelKeywords lower message); reflexivity.
Qed.
End ChatUsage.

(** X10 on a user with one question left on day 0: the first of two
    questions is answered, the second is not. *)
Lemma chat_quota_witness :
  map ChatRoutes.chat_status
    (ChatRoutes.post_messages JS.toLowerCase Samples.utc_day Samples.sum_index
       (fun _ => []) (fun _ => []) (fun _ => [])
       [(1000, "excel sum"); (2000, "vlookup")] Samples.carol_one_left).1
  = [200; 429]
  /\ UserModel.questionsAsked
       (UserModel.usage
          (ChatRoutes.post_messages JS.toLowerCase Samples.utc_day
             Samples.sum_index (fun _ => []) (fun _ => []) (fun _ => [])
             [(1000, "excel sum"); (2000, "vlookup")] Samples.carol_one_left).2)
     = 100.
Proof.
  apply (chat_quota Samples.utc_day Samples.sum_index (fun _ => [])
           (fun _ => []) (fun _ => []) JS.toLowerCase
           [(1000, "excel sum"); (2000, "vlookup")] Samples.carol_one_left).
  repeat constructor.
Defined.


(** X12 on an index that knows one frequently asked question and nothing
    else. *)
Lemma faq_hits_counted_not_shown_witness :
  exists n remaining,
    (ChatRoutes.post_message JS.toLowerCase Samples.utc_day
       (fun _ => []) (fun _ => []) (fun _ => []) Cases.faq_index
       1000 Samples.carol_one_left "excel sum").1
    = ChatRoutes.ChatAnswer
        (JS.concat_all
           [ "申し訳ございませんが、現在AI機能は開発中です。"; JS.nl; JS.nl;
             "関連する情報を見つけました："; JS.nl; JS.nl ])
        n remaining
    /\ n = Nat.min 5 (length (Cases.faq_index "excel sum"))
    /\ (0 < n)%nat.
Proof.
  apply (faq_hits_counted_not_shown Samples.utc_day
           (fun _ => []) (fun _ => []) (fun _ => []) Cases.faq_index
           JS.toLowerCase 1000 Samples.carol_one_left "excel sum");
    [reflexivity | reflexivity | reflexivity | reflexivity | reflexivity
    | discriminate].
Defined.

(** X13 on the index that answers with the SUM function. *)
Lemma reply_lists_functions_witness :
  exists text n remaining,
    (ChatRoutes.post_message JS.toLowerCase Samples.utc_day Samples.sum_index
       (fun _ => []) (fun _ => []) (fun _ => [])
       1000 Samples.carol_one_left "excel sum").1
    = ChatRoutes.ChatAnswer text n remaining
    /\ JS.includes text "SUM" = true
    /\ JS.includes text "SUM(number1, [number2], ...)" = true.
Proof.
  apply (reply_lists_functions Samples.utc_day Samples.sum_index
           (fun _ => []) (fun _ => []) (fun _ => []) JS.toLowerCase
           1000 Samples.carol_one_left "excel sum"
           (ChatRoutes.mkExcelFunction "SUM" "数値の合計を計算します"
              "SUM(number1, [number2], ...)"));
    [reflexivity | reflexivity | apply list_elem_of_here].
Defined.

(** ** The demo server: history window, logout (server-simple.js) *)

Section SimpleServer.
Import ServerSimple ServerSimpleLogout.
Variable generateResponse : string -> option AIResponse.

(** A truthy field of the body is a string. *)
Lemma truthy_str (v : option string) :
  JS.truthy v = true -> v = Some (str v).
Proof. destruct v; [reflexivity | discriminate]. Qed.

(** [trim] keeps the last 100 entries. *)
Lemma trim_length (h : list HistoryEntry) :
  length (trim h) = Nat.min 100 (length h).
Proof.
  unfold trim. destruct (Nat.ltb_spec 100 (length h)).
  - rewrite length_drop. lia.
  - lia.
Qed.

Lemma trim_suffix (h : list HistoryEntry) : trim h `suffix_of` h.
Proof.
  unfold trim. destruct (100 <? length h)%nat; [apply suffix_drop | reflexivity].
Qed.

(** Entries pushed last survive the trimming. *)
Lemma trim_keeps_last (old new : list HistoryEntry) :
  (length new <= 100)%nat -> new `suffix_of` trim (old ++ new).
Proof.
  intros Hn. unfold trim. rewrite length_app.
  destruct (100 <? length old + length new)%nat eqn:Hlt;
    [| now apply suffix_app_r].
  apply Nat.ltb_lt in Hlt.
  rewrite drop_app_le by lia. now apply suffix_app_r.
Qed.

(** X15.  The history of an identity never holds more than 100 entries:
    an answered chat message leaves the last 100 of the old history
    followed by the question and the reply, and they are what the GET
    that follows returns. *)
Theorem chat_history_window tk (st : Store) (sess : Session) (b : Body) ai :
  JS.truthy (b_message b) = true ->
  generateResponse (str (b_message b)) = Some ai ->
  let old := default [] (chatHistory st !! identity sess) in
  let new :=
    [ UserEntry (user_entry_id tk) (str (b_message b)) (user_entry_iso tk);
      BotEntry (bot_entry_now tk + 1) (response ai)
               (default [] (ai_formulas ai))
               (if JS.truthy (ai_vbaCode ai) then ai_vbaCode ai else None)
               (bot_entry_iso tk) ] in
  exists h,
    get_history (chat_message generateResponse tk st sess b).2 sess = History h
    /\ length h = Nat.min 100 (length old + 2)
    /\ h `suffix_of` (old ++ new)%list
    /\ new `suffix_of` h.
Proof.
  intros Hm Hai old new.
  exists (trim (old ++ new)%list).
  split; [| split; [| split]].
  - unfold chat_message. rewrite Hm, Hai. cbn [negb snd].
    unfold get_history. cbn [chatHistory]. now rewrite lookup_insert_eq.
  - rewrite trim_length, length_app. reflexivity.
  - apply trim_suffix.
  - apply trim_keeps_last. cbn. lia.
Qed.

(** X16.  The chat handlers touch the history of the caller's identity
    and nothing else: the histories under every other key and the user
    store are as before, for a message and for a DELETE alike. *)
Theorem chat_touches_own_history tk (st : Store) (sess : Session) (b : Body)
    (k : string) :
  k <> identity sess ->
  chatHistory (chat_message generateResponse tk st sess b).2 !! k
  = chatHistory st !! k
  /\ chatHistory (delete_history st sess).2 !! k = chatHistory st !! k
  /\ users (chat_message generateResponse tk st sess b).2 = users st
  /\ users (delete_history st sess).2 = users st.
Proof.
  intros Hk. unfold chat_message, delete_history.
  destruct (negb (JS.truthy (b_message b))); [| destruct (generateResponse _)];
    cbn [snd chatHistory users];
    rewrite ?lookup_insert_ne, ?lookup_delete_ne by congruence; auto.
Qed.

(** X17.  Who registers on the demo server cannot come back: once the
    session is gone, a login with the registered name and password is
    answered 401, the login knowing the one pair demo / demo123. *)
Theorem registered_cannot_log_in stamp rand iso (st : Store) (sess : Session)
    (b : Body) u st1 sess1 :
  register stamp rand iso st sess b = (Registered u, st1, sess1) ->
  b_username b <> Some "demo" \/ b_password b <> Some "demo123" ->
  me st1 sess1 <> NotAuthenticated
  /\ me st1 (logout sess1) = NotAuthenticated
  /\ login st1 (logout sess1) b = (AuthenticationFailed, st1, logout sess1).
Proof.
  intros Hreg Hdemo. unfold register in Hreg.
  destruct (negb (JS.truthy (b_username b)) || negb (JS.truthy (b_password b)))
    eqn:Hpresent; [discriminate |].
  destruct (JS.length _ <? 3); [discriminate |].
  destruct (JS.length _ <? 6); [discriminate |].
  destruct (username_taken _ _); [discriminate |].
  inversion Hreg; subst u st1 sess1; clear Hreg.
  split; [| split].
  - unfold me. cbn [isLoggedIn userId users JS.truthy andb].
    change (str (Some ("user_" +:+ stamp +:+ "_" +:+ rand)))
      with ("user_" +:+ stamp +:+ "_" +:+ rand).
    rewrite lookup_insert_eq.
    replace (negb (String.eqb ("user_" +:+ stamp +:+ "_" +:+ rand) "")) with true
      by reflexivity.
    discriminate.
  - reflexivity.
  - unfold login. rewrite Hpresent.
    apply orb_false_iff in Hpresent as [Hu Hp].
    apply negb_false_iff, truthy_str in Hu. apply negb_false_iff, truthy_str in Hp.
    destruct (String.eqb_spec (str (b_username b)) "demo") as [Hn |];
      [| reflexivity].
    destruct (String.eqb_spec (str (b_password b)) "demo123") as [Hw |];
      [| reflexivity].
    rewrite Hn in Hu. rewrite Hw in Hp. destruct Hdemo; contradiction.
Qed.
End SimpleServer.

(** ** The revised server (server-simple.js) *)

Section FixedServer.
Import ServerSimple ServerFixed.
Variable generateResponse : string -> option AIResponse.

Lemma users_get_set (k : string) (v : User) (us : Users) :
  users_get k (users_set k v us) = Some v.
Proof.
  induction us as [|[k' v'] rest IH]; cbn [users_set users_get].
  - now rewrite String.eqb_refl.
  - destruct (String.eqb k' k) eqn:Hk; cbn [users_get].
    + now rewrite String.eqb_refl.
    + now rewrite Hk.
Qed.

(** The loop of the login finds the user just stored when no other user
    bears the name. *)
Lemma find_user_set (b : Body) (k : string) (v : User) (us : Users) :
  username_taken (username v) us = false ->
  b_username b = Some (username v) ->
  b_password b = password v ->
  find_user b (users_set k v us) = Some v.
Proof.
  intros Hfree Hu Hp.
  assert (Hv : credentials_match b v = true).
  { unfold credentials_match. rewrite Hu, Hp.
    now rewrite !bool_decide_eq_true_2. }
  induction us as [|[k' v'] rest IH]; cbn [users_set find_user].
  - now rewrite Hv.
  - cbn [username_taken existsb snd] in Hfree.
    apply orb_false_iff in Hfree as [Hne Hfree].
    destruct (String.eqb k' k); cbn [find_user]; [now rewrite Hv |].
    assert (Hv' : credentials_match b v' = false).
    { unfold credentials_match. rewrite Hu.
      rewrite bool_decide_eq_false_2; [reflexivity |].
      intros [= Heq]. rewrite Heq, String.eqb_refl in Hne. discriminate. }
    rewrite Hv'. apply IH. exact Hfree.
Qed.

(** X18.  On the revised server a registered user can come back: after a
    registration answered 201, a login with the same name and password,
    from whatever session, is answered 200 with the registered user, and
    GET /api/auth/me then shows that user. *)
Theorem fixed_register_then_login stamp rand iso (st : Store) (sess other : Session)
    (b : Body) u st1 sess1 :
  register stamp rand iso st sess b = (Registered u, st1, sess1) ->
  login st1 other b
  = (LoginSuccessful (shown u), st1,
     mkSession true (Some (id u)) (Some (username u)) (csrfToken other))
  /\ me st1 (login st1 other b).2 = Me (shown u)
  /\ me st1 (logout sess1) = NotAuthenticated.
Proof.
  intros Hreg. unfold register in Hreg.
  destruct (negb (JS.truthy (b_username b)) || negb (JS.truthy (b_password b)))
    eqn:Hpresent; [discriminate |].
  apply orb_false_iff in Hpresent as [Hu Hp].
  apply negb_false_iff, truthy_str in Hu. apply negb_false_iff, truthy_str in Hp.
  destruct (JS.length _ <? 3); [discriminate |].
  destruct (JS.length _ <? 6); [discriminate |].
  destruct (username_taken _ _) eqn:Hfree; [discriminate |].
  inversion Hreg; subst u st1 sess1; clear Hreg.
  set (newId := "user_" +:+ stamp +:+ "_" +:+ rand).
  set (mail := if JS.truthy (b_email b) then b_email b else None).
  set (newUser := mkUser newId (str (b_username b)) (Some (str (b_password b)))
                         mail None None None (Some iso)
                         (Some (mkProfile (str (b_username b)) "beginner"))).
  assert (Hlogin : login (mkStore (users_set newId newUser (users st))
                                  (chatHistory st)) other b
                   = (LoginSuccessful (shown newUser),
                      mkStore (users_set newId newUser (users st)) (chatHistory st),
                      mkSession true (Some newId) (Some (str (b_username b)))
                                (csrfToken other))).
  { unfold login. cbn [users].
    rewrite (find_user_set b newId newUser (users st)); auto. }
  split; [exact Hlogin |]. split; [| reflexivity].
  rewrite Hlogin. unfold me. cbn [snd isLoggedIn userId users JS.truthy andb].
  change (str (Some newId)) with newId. rewrite users_get_set.
  replace (negb (String.eqb newId "")) with true by reflexivity.
  reflexivity.
Qed.

(** X19.  The revised server returns the last 20 entries of a history: the
    GET that follows an answered chat message returns at most 20 entries,
    the question and the reply last. *)
Theorem fixed_history_window tk (st : Store) (sess : Session) (b : Body) ai :
  JS.truthy (b_message b) = true ->
  generateResponse (str (b_message b)) = Some ai ->
  let old := default [] (chatHistory st !! identity sess) in
  let new :=
    [ UserEntry (user_entry_id tk) (str (b_message b)) (user_entry_iso tk);
      BotEntry (bot_entry_now tk + 1) (response ai)
               (default [] (ai_formulas ai))
               (if JS.truthy (ai_vbaCode ai) then ai_vbaCode ai else None)
               (bot_entry_iso tk) ] in
  exists h,
    get_history (chat_message generateResponse tk st sess b).2 sess = History h
    /\ length h = Nat.min 20 (length old + 2)
    /\ h `suffix_of` (old ++ new)%list
    /\ new `suffix_of` h.
Proof.
  intros Hm Hai old new.
  exists (slice_last_20 (trim (old ++ new)%list)).
  split; [| split; [| split]].
  - unfold chat_message. rewrite Hm, Hai. cbn [negb snd].
    unfold get_history. cbn [chatHistory]. now rewrite lookup_insert_eq.
  - unfold slice_last_20. rewrite length_drop, trim_length, length_app.
    subst new. cbn [length]. lia.
  - unfold slice_last_20. etrans; [apply suffix_drop | apply trim_suffix].
  - unfold slice_last_20.
    destruct (trim_keeps_last old new) as [pre Hpre]; [cbn; lia |].
    rewrite Hpre, length_app. subst new. cbn [length].
    rewrite drop_app_le by lia. now apply suffix_app_r.
Qed.
End FixedServer.

(** X15 on the store in which a visitor has left one message. *)
Lemma chat_history_window_witness :
  exists h,
    ServerSimple.get_history
      (ServerSimple.chat_message Samples.echo_ai Samples.ticks Samples.guest_store
         Samples.guest_a (Samples.ask "SUM")).2
      Samples.guest_a
    = ServerSimple.History h
    /\ length h = 3%nat
    /\ [ ServerSimple.UserEntry 1700000000000 "SUM" "2023-11-14T22:13:20.000Z";
         ServerSimple.BotEntry 1700000000001 "re: SUM" [] None
                               "2023-11-14T22:13:20.000Z" ] `suffix_of` h.
Proof.
  destruct (chat_history_window Samples.echo_ai Samples.ticks Samples.guest_store
              Samples.guest_a (Samples.ask "SUM")
              (ServerSimple.mkAIResponse "re: SUM" None None None)
              eq_refl eq_refl)
    as (h & Hget & Hlen & _ & Hlast).
  exists h. split; [exact Hget |]. split; [exact Hlen | exact Hlast].
Defined.

(** X16: a message and a DELETE of a logged-in user leave the history of
    the visitors as it is. *)
Lemma chat_touches_own_history_witness :
  ServerSimple.chatHistory
    (ServerSimple.chat_message Samples.echo_ai Samples.ticks Samples.guest_store
       Cases.dave_session (Samples.ask "SUM")).2 !! "guest"
  = ServerSimple.chatHistory Samples.guest_store !! "guest"
  /\ ServerSimple.chatHistory
       (ServerSimple.delete_history Samples.guest_store Cases.dave_session).2
       !! "guest"
     = ServerSimple.chatHistory Samples.guest_store !! "guest".
Proof.
  destruct (chat_touches_own_history Samples.echo_ai Samples.ticks
              Samples.guest_store Cases.dave_session (Samples.ask "SUM") "guest")
    as (H1 & H2 & _); [discriminate |].
  split; [exact H1 | exact H2].
Defined.

(** X17 on the registration of dave. *)
Lemma registered_cannot_log_in_witness :
  ServerSimple.me
    (ServerSimple.mkStore
       {[ "user_1700000000000_abc123xyz" := Samples.dave_stored ]} ∅)
    (ServerSimpleLogout.logout Cases.dave_session)
  = ServerSimple.NotAuthenticated
  /\ ServerSimple.login
       (ServerSimple.mkStore
          {[ "user_1700000000000_abc123xyz" := Samples.dave_stored ]} ∅)
       (ServerSimpleLogout.logout Cases.dave_session) Samples.dave_form
     = (ServerSimple.AuthenticationFailed,
        ServerSimple.mkStore
          {[ "user_1700000000000_abc123xyz" := Samples.dave_stored ]} ∅,
        ServerSimpleLogout.logout Cases.dave_session).
Proof.
  destruct (registered_cannot_log_in "1700000000000" "abc123xyz"
              "2023-11-14T22:13:20.000Z" Samples.empty_store Samples.guest_a
              Samples.dave_form Samples.dave_shown
              (ServerSimple.mkStore
                 {[ "user_1700000000000_abc123xyz" := Samples.dave_stored ]} ∅)
              Cases.dave_session)
    as (_ & H2 & H3); [reflexivity | left; discriminate |].
  split; [exact H2 | exact H3].
Defined.

(** X18 on the registration of dave beside the demo user. *)
Lemma fixed_register_then_login_witness :
  ServerFixed.login
    (ServerFixed.register "1700000000000" "abc123xyz" "2023-11-14T22:13:20.000Z"
       (ServerFixed.initial "2023-11-14T22:00:00.000Z") Samples.guest_a
       Samples.dave_form).1.2
    Samples.guest_b Samples.dave_form
  = (ServerSimple.LoginSuccessful (ServerFixed.shown Samples.dave_shown),
     (ServerFixed.register "1700000000000" "abc123xyz" "2023-11-14T22:13:20.000Z"
        (ServerFixed.initial "2023-11-14T22:00:00.000Z") Samples.guest_a
        Samples.dave_form).1.2,
     ServerSimple.mkSession true (Some "user_1700000000000_abc123xyz")
       (Some "dave") (Some "k3x9w1")).
Proof.
  apply (fixed_register_then_login "1700000000000" "abc123xyz"
           "2023-11-14T22:13:20.000Z"
           (ServerFixed.initial "2023-11-14T22:00:00.000Z") Samples.guest_a
           Samples.guest_b Samples.dave_form Samples.dave_shown
           (ServerFixed.register "1700000000000" "abc123xyz"
              "2023-11-14T22:13:20.000Z"
              (ServerFixed.initial "2023-11-14T22:00:00.000Z") Samples.guest_a
              Samples.dave_form).1.2
           Cases.dave_session).
  reflexivity.
Defined.

(** X19 on a history of 30 entries: the GET returns 20. *)
Lemma fixed_history_window_witness :
  exists h,
    ServerFixed.get_history
      (ServerFixed.chat_message Samples.echo_ai Samples.ticks Cases.long_store
         Samples.guest_a (Samples.ask "SUM")).2
      Samples.guest_a
    = ServerSimple.History h
    /\ length h = 20%nat
    /\ [ ServerSimple.UserEntry 1700000000000 "SUM" "2023-11-14T22:13:20.000Z";
         ServerSimple.BotEntry 1700000000001 "re: SUM" [] None
                               "2023-11-14T22:13:20.000Z" ] `suffix_of` h.
Proof.
  destruct (fixed_history_window Samples.echo_ai Samples.ticks Cases.long_store
              Samples.guest_a (Samples.ask "SUM")
              (ServerSimple.mkAIResponse "re: SUM" None None None)
              eq_refl eq_refl)
    as (h & Hget & Hlen & _ & Hlast).
  exists h. split; [exact Hget |]. split; [exact Hlen | exact Hlast].
Defined.

(** ** The CSRF token from issue to check (middleware/csrf.js, server.js) *)

Section CsrfRoundTrip.
Import Http Csrf CsrfToken Server.
Variable tokens_create : string -> string.
Variable tokens_verify : string -> string -> bool.
Variable upstream : Request -> option Z.
Variable router_status : Route -> Request -> Session -> Z.
Variable production : bool.

(** X20.  A token issued by GET /csrf-token opens the CSRF stage for the
    session it was issued in: when the csrf library accepts the tokens it
    creates, an unsafe request under /api that carries the token in its
    header passes the stage with the session unchanged and is handled by
    the routes, whatever secret the library would draw next. *)
Theorem csrf_token_round_trip fresh fresh' (sess : Session) (req : Request) :
  (forall secret, tokens_verify secret (tokens_create secret) = true) ->
  (forall secret, tokens_create secret <> "") ->
  fresh <> "" ->
  let issued := generateCSRFToken tokens_create fresh sess in
  header_x_csrf_token req = Some issued.1 ->
  upstream req = None ->
  csrfProtection tokens_verify fresh' req issued.2 = Next issued.2
  /\ app tokens_verify upstream router_status production fresh' req issued.2
     = routes router_status production req issued.2.
Proof.
  intros Hlib Hne Hfresh issued Hhdr Hup.
  assert (Hsecret : exists s, csrfSecret issued.2 = Some s /\ s <> ""
                              /\ issued.1 = tokens_create s).
  { subst issued. unfold generateCSRFToken, with_secret. cbn [fst snd].
    destruct (csrfSecret sess) as [s|] eqn:Hs; cbn [JS.truthy].
    - destruct (String.eqb_spec s ""); cbn [negb].
      + exists fresh. now cbn.
      + exists s. now rewrite Hs.
    - exists fresh. now cbn. }
  destruct Hsecret as (s & Hs & Hsne & Htok).
  assert (Hkeep : with_secret fresh' issued.2 = issued.2).
  { unfold with_secret. rewrite Hs. cbn [JS.truthy].
    now destruct (String.eqb_spec s ""). }
  assert (Hpass : csrfProtection tokens_verify fresh' req issued.2 = Next issued.2).
  { unfold csrfProtection. destruct (safe_method (method req)); [reflexivity |].
    cbv zeta. rewrite Hkeep, Hs.
    assert (Hreq : request_token req = Some issued.1).
    { unfold request_token, JS.or_else. rewrite Hhdr. cbn [JS.truthy].
      rewrite Htok. now destruct (String.eqb_spec (tokens_create s) "");
        [destruct (Hne s) |]. }
    rewrite Hreq. unfold token_rejected. cbn [JS.truthy]. rewrite Htok.
    destruct (String.eqb_spec (tokens_create s) ""); [now destruct (Hne s) |].
    now rewrite Hlib. }
  split; [exact Hpass |].
  unfold app. rewrite Hup, Hpass. now destruct (mounted ["api"] (path req)).
Qed.
End CsrfRoundTrip.

(** X20 with a stand-in for the csrf library. *)
Lemma csrf_token_round_trip_witness :
  Csrf.csrfProtection Cases.sample_verify "other"
    (Http.mkRequest "POST" ["api"; "chat"; "message"] (Some "t-fresh") None None true)
    (Http.set_csrfSecret "fresh" Samples.anonymous)
  = Csrf.Next (Http.set_csrfSecret "fresh" Samples.anonymous)
  /\ Server.handled_by
       (Server.app Cases.sample_verify (fun _ => None) (fun _ _ _ => 200) false
          "other"
          (Http.mkRequest "POST" ["api"; "chat"; "message"] (Some "t-fresh")
                          None None true)
          (Http.set_csrfSecret "fresh" Samples.anonymous))
     = Some Server.ChatRouter.
Proof.
  destruct (csrf_token_round_trip Cases.sample_create Cases.sample_verify
              (fun _ => None) (fun _ _ _ => 200) false "fresh" "other"
              Samples.anonymous
              (Http.mkRequest "POST" ["api"; "chat"; "message"] (Some "t-fresh")
                              None None true))
    as [Hpass Happ].
  - intros secret. unfold Cases.sample_verify, Cases.sample_create.
    apply String.eqb_refl.
  - intros secret. discriminate.
  - discriminate.
  - reflexivity.
  - reflexivity.
  - split; [exact Hpass |]. cbn [fst snd] in Happ.
    change (CsrfToken.generateCSRFToken Cases.sample_create "fresh"
              Samples.anonymous).2
      with (Http.set_csrfSecret "fresh" Samples.anonymous) in Happ.
    rewrite Happ. reflexivity.
Defined.

(** ** The limit per address (middleware/auth.js) *)

Section AddressLimit.
Import IpLimit.

(** One request of an address whose entry is no older than 24 hours
    counts one more, whatever the count was. *)
Lemma ipBasedLimit_counts maxRequestsPerIP ip t (counts : Counts) d :
  counts !! ip = Some d ->
  t - window <= lastRequest d ->
  exists counts1,
    ipBasedLimit maxRequestsPerIP ip t counts
    = (negb (maxRequestsPerIP <? count d + 1), counts1)
    /\ counts1 !! ip = Some (mkIpData (count d + 1) t).
Proof.
  intros Hd Hrecent. unfold ipBasedLimit.
  assert (Hkeep : (lastRequest d <? t - window) = false) by now apply Z.ltb_ge.
  set (cleaned := filter _ counts).
  assert (Hc : cleaned !! ip = Some d).
  { subst cleaned. apply map_lookup_filter_Some. split; [exact Hd |].
    cbn [snd]. now rewrite Hkeep. }
  rewrite Hc. cbn [default from_option id]. rewrite Hkeep.
  eexists. split; [reflexivity |]. apply lookup_insert_eq.
Qed.

(** A series of requests of an address that has an entry no older than 24
    hours. *)
Lemma requests_from_entry maxRequestsPerIP ip (times : list Z)
    (counts : Counts) d :
  counts !! ip = Some d ->
  without_pause (lastRequest d) times ->
  (requests maxRequestsPerIP ip times counts).1
  = (replicate (Nat.min (Z.to_nat (maxRequestsPerIP - count d)) (length times)) true
     ++ replicate (length times - Z.to_nat (maxRequestsPerIP - count d)) false)%list.
Proof.
  revert counts d. induction times as [|t rest IH]; intros counts d Hd Hchain.
  - cbn. now rewrite Nat.min_0_r.
  - destruct Hchain as [Hrecent Hchain].
    destruct (ipBasedLimit_counts maxRequestsPerIP ip t counts d Hd Hrecent)
      as (counts1 & Hstep & Hd1).
    cbn [requests]. rewrite Hstep.
    specialize (IH counts1 (mkIpData (count d + 1) t) Hd1 Hchain).
    destruct (requests maxRequestsPerIP ip rest counts1) as [oks counts2].
    cbn [fst count length] in *. rewrite IH.
    destruct (Z.ltb_spec maxRequestsPerIP (count d + 1)); cbn [negb].
    + replace (Z.to_nat (maxRequestsPerIP - count d)) with 0%nat by lia.
      replace (Z.to_nat (maxRequestsPerIP - (count d + 1))) with 0%nat by lia.
      cbn [Nat.min Nat.sub replicate app]. now rewrite Nat.sub_0_r.
    + replace (Z.to_nat (maxRequestsPerIP - count d))
        with (S (Z.to_nat (maxRequestsPerIP - (count d + 1)))) by lia.
      reflexivity.
Qed.

(** A request of an address without entry, or with an entry older than 24
    hours, counts as its first. *)
Lemma ipBasedLimit_first maxRequestsPerIP ip t (counts : Counts) :
  (forall d, counts !! ip = Some d -> lastRequest d < t - window) ->
  exists counts1,
    ipBasedLimit maxRequestsPerIP ip t counts
    = (negb (maxRequestsPerIP <? 1), counts1)
    /\ counts1 !! ip = Some (mkIpData 1 t).
Proof.
  intros Hstale. unfold ipBasedLimit.
  set (cleaned := filter _ counts).
  assert (Hc : cleaned !! ip = None).
  { subst cleaned. apply map_lookup_filter_None.
    destruct (counts !! ip) as [d|] eqn:Hd; [right | now left].
    intros d' Heq.
    assert (E : Some d = Some d') by (etrans; [symmetry; exact Hd | exact Heq]).
    inversion E; subst d'. cbn [snd]. specialize (Hstale _ eq_refl).
    match goal with |- context [lastRequest ?x <? _] =>
      destruct (Z.ltb_spec (lastRequest x) (t - window)); [cbn; discriminate | lia]
    end. }
  rewrite Hc. cbn [default from_option id lastRequest count].
  replace (t <? t - window) with false
    by (symmetry; apply Z.ltb_ge; unfold window; lia).
  eexists. split; [reflexivity | apply lookup_insert_eq].
Qed.

(** X21.  The limit per address counts the rejected requests as well and
    starts anew only after 24 hours without any request: of a series of
    requests of one address, each within 24 hours of the one before, the
    first [max - count] go on and every later one is answered 429, for as
    long as the series lasts; the count is the one the address stands at
    when the series begins. *)
Theorem ip_limit_without_pause maxRequestsPerIP ip t (rest : list Z)
    (counts : Counts) :
  without_pause t rest ->
  (requests maxRequestsPerIP ip (t :: rest) counts).1
  = (replicate (Nat.min (Z.to_nat (maxRequestsPerIP - standing ip t counts))
                        (S (length rest))) true
     ++ replicate (S (length rest)
                   - Z.to_nat (maxRequestsPerIP - standing ip t counts)) false)%list.
Proof.
  intros Hchain.
  assert (Hcases :
    (exists d, counts !! ip = Some d /\ t - window <= lastRequest d
               /\ standing ip t counts = count d)
    \/ ((forall d, counts !! ip = Some d -> lastRequest d < t - window)
        /\ standing ip t counts = 0)).
  { unfold standing. destruct (counts !! ip) as [d|].
    - destruct (Z.ltb_spec (lastRequest d) (t - window)).
      + right. split; [| reflexivity].
        intros d' Heq. inversion Heq; now subst.
      + left. now exists d.
    - right. split; [discriminate | reflexivity]. }
  destruct Hcases as [(d & Hd & Hrecent & ->) | [Hstale ->]].
  - apply (requests_from_entry maxRequestsPerIP ip (t :: rest) counts d Hd).
    split; [lia | exact Hchain].
  - destruct (ipBasedLimit_first maxRequestsPerIP ip t counts Hstale)
      as (counts1 & Hstep & Hd1).
    cbn [requests]. rewrite Hstep.
    pose proof (requests_from_entry maxRequestsPerIP ip rest counts1
                  (mkIpData 1 t) Hd1 Hchain) as Hrest.
    destruct (requests maxRequestsPerIP ip rest counts1) as [oks counts2].
    cbn [fst count] in *. rewrite Hrest, Z.sub_0_r.
    destruct (Z.ltb_spec maxRequestsPerIP 1); cbn [negb].
    + replace (Z.to_nat maxRequestsPerIP) with 0%nat by lia.
      replace (Z.to_nat (maxRequestsPerIP - 1)) with 0%nat by lia.
      cbn [Nat.min Nat.sub replicate app]. now rewrite Nat.sub_0_r.
    + replace (Z.to_nat maxRequestsPerIP)
        with (S (Z.to_nat (maxRequestsPerIP - 1))) by lia.
      reflexivity.
Qed.
End AddressLimit.

(** X21 on a limit of 2 and an address that stands at 1: the second
    request goes on, the third and the fourth, 23 hours later, are answered
    429. *)
Lemma ip_limit_without_pause_witness :
  (IpLimit.requests 2 "10.0.0.1" [2000; 3000; 82803000]
     {[ "10.0.0.1" := IpLimit.mkIpData 1 1000 ]}).1
  = [true; false; false].
Proof.
  rewrite (ip_limit_without_pause 2 "10.0.0.1" 2000 [3000; 82803000]
             {[ "10.0.0.1" := IpLimit.mkIpData 1 1000 ]})
    by (cbn; unfold IpLimit.window; lia).
  vm_compute. reflexivity.
Defined.

(** ** What the audit log is given (middleware/audit.js) *)

Section AuditLog.
Import Audit.

Lemma redact_lookup (m : gmap string JsValue) (field k : string) :
  redact m field !! k
  = if String.eqb k field && truthy (m !! field) then Some redacted else m !! k.
Proof.
  unfold redact. destruct (String.eqb_spec k field) as [-> | Hne]; cbn [andb].
  - destruct (truthy (m !! field)); [apply lookup_insert_eq | reflexivity].
  - destruct (truthy (m !! field)); [| reflexivity].
    now rewrite lookup_insert_ne by congruence.
Qed.

(** The five redactions, field by field. *)
Lemma redact_all_lookup (m : gmap string JsValue) (k : string) :
  foldl redact m sensitiveFields !! k
  = if existsb (String.eqb k) sensitiveFields && truthy (m !! k)
    then Some redacted else m !! k.
Proof.
  unfold sensitiveFields. cbn [foldl existsb]. rewrite !redact_lookup.
  cbn [String.eqb Ascii.eqb Bool.eqb andb orb].
  destruct (String.eqb_spec k "authorization") as [-> | _];
    [cbn; now destruct (truthy (m !! "authorization")) |].
  destruct (String.eqb_spec k "key") as [-> | _];
    [cbn; now destruct (truthy (m !! "key")) |].
  destruct (String.eqb_spec k "secret") as [-> | _];
    [cbn; now destruct (truthy (m !! "secret")) |].
  destruct (String.eqb_spec k "token") as [-> | _];
    [cbn; now destruct (truthy (m !! "token")) |].
  destruct (String.eqb_spec k "password") as [-> | _];
    [cbn; now destruct (truthy (m !! "password")) |].
  reflexivity.
Qed.

(** X22.  What [sanitizeForLog] hides and what it does not: of an object
    it replaces the truthy values under the five names password, token,
    secret, key and authorization by [REDACTED], and hands on every other
    property as it is, whatever its name and whatever it holds inside;
    doing it twice changes nothing more. *)
Theorem sanitizeForLog_redacts (fields : gmap string JsValue) :
  exists logged,
    sanitizeForLog (JObject fields) = JObject logged
    /\ (forall k,
          logged !! k
          = if existsb (String.eqb k) sensitiveFields && truthy (fields !! k)
            then Some redacted else fields !! k)
    /\ sanitizeForLog (JObject logged) = JObject logged.
Proof.
  exists (foldl redact fields sensitiveFields).
  split; [reflexivity |]. split; [apply redact_all_lookup |].
  cbn [sanitizeForLog]. f_equal. apply map_eq. intros k.
  rewrite !redact_all_lookup.
  destruct (existsb (String.eqb k) sensitiveFields); cbn [andb]; [| reflexivity].
  destruct (truthy (fields !! k)) eqn:Ht; cbn [truthy redacted]; [reflexivity |].
  now rewrite Ht.
Qed.
End AuditLog.

(** ** The checks on the input (middleware/validation.js) *)

Section InputChecks.
Import Validation.

(** X23.  [fileUploadValidation] lets a request with files through exactly
    when every file is of one of the six allowed types and of at most
    10 MB; otherwise it answers 400. *)
Theorem upload_accepts_iff (files : list File) :
  (fileUploadValidation (Some files) = UploadNext
   <-> Forall (fun file => In (mimetype file) allowedMimeTypes
                           /\ size file <= 10485760) files)
  /\ (fileUploadValidation (Some files) <> UploadNext ->
      upload_status (fileUploadValidation (Some files)) = 400).
Proof.
  split.
  - cbn [fileUploadValidation]. induction files as [|file rest IH]; cbn [check_files].
    + split; [constructor | reflexivity].
    + destruct (existsb (String.eqb (mimetype file)) allowedMimeTypes) eqn:Htype;
        cbn [negb].
      * apply existsb_exists in Htype as (ty & Hin & Heq).
        apply String.eqb_eq in Heq. subst ty.
        destruct (Z.ltb_spec maxFileSize (size file)) as [Hbig | Hfit].
        -- split; [discriminate |]. intros H. apply Forall_cons in H as [[_ H] _].
           unfold maxFileSize in Hbig. lia.
        -- rewrite IH. split.
           ++ intros H. apply Forall_cons. unfold maxFileSize in Hfit.
              repeat split; auto; lia.
           ++ intros H. now apply Forall_cons in H as [_ H].
      * split; [discriminate |]. intros H. apply Forall_cons in H as [[Hin _] _].
        assert (existsb (String.eqb (mimetype file)) allowedMimeTypes = true)
          by (apply existsb_exists; exists (mimetype file);
              split; [assumption | apply String.eqb_refl]).
        congruence.
  - destruct (fileUploadValidation (Some files)); [contradiction | reflexivity ..].
Qed.

Lemma every_app p (s t : string) : every p (s +:+ t) = every p s && every p t.
Proof.
  induction s as [|a s IH]; [reflexivity |].
  change (String a s +:+ t) with (String a (s +:+ t)).
  cbn [every]. now rewrite IH, andb_assoc.
Qed.

(** Replacing the one character [q] does not hold of, by a text that [p]
    holds of, leaves a text that [p] holds of. *)
Lemma every_replaceAll (p q : ascii -> bool) c replacement (s : string) :
  (forall a, q a = true -> Ascii.eqb a c = false -> p a = true) ->
  every p replacement = true ->
  every q s = true ->
  every p (replaceAll c replacement s) = true.
Proof.
  intros Hstep Hrep. induction s as [|a s IH]; cbn [every replaceAll];
    [reflexivity |].
  intros H. apply andb_true_iff in H as [Ha Hs].
  destruct (Ascii.eqb a c) eqn:Hc.
  - rewrite every_app, Hrep. now apply IH.
  - cbn [every]. rewrite (Hstep a Ha Hc). now apply IH.
Qed.

Lemma every_removeControl p (s : string) :
  every p s = true ->
  every (fun a => p a && negb (control a)) (removeControl s) = true.
Proof.
  induction s as [|a s IH]; cbn [every removeControl]; [reflexivity |].
  intros H. apply andb_true_iff in H as [Ha Hs].
  destruct (control a) eqn:Hc; [now apply IH |].
  cbn [every]. rewrite Ha, Hc. now apply IH.
Qed.

Lemma every_strip_prefix p (w s s' : string) :
  strip_prefix w s = Some s' -> every p s = true -> every p s' = true.
Proof.
  revert s. induction w as [|a w IH]; intros s; cbn [strip_prefix].
  - now intros [= ->].
  - destruct s as [|b s]; [discriminate |].
    destruct (Ascii.eqb a b); [| discriminate].
    intros Hs H. cbn [every] in H. apply andb_true_iff in H as [_ H].
    now apply (IH s).
Qed.

Lemma every_strip_any p ws (s s' : string) :
  strip_any ws s = Some s' -> every p s = true -> every p s' = true.
Proof.
  induction ws as [|w ws IH]; cbn [strip_any]; [discriminate |].
  destruct (strip_prefix w s) as [s1|] eqn:Hw; [| exact IH].
  intros [= <-]. now apply every_strip_prefix with (w := w) (s := s).
Qed.

Lemma every_trimStart_with p ws fuel (s : string) :
  every p s = true -> every p (trimStart_with ws fuel s) = true.
Proof.
  revert s. induction fuel as [|fuel IH]; intros s H; cbn [trimStart_with];
    [exact H |].
  destruct (strip_any ws s) as [s'|] eqn:Hs; [| exact H].
  apply IH. now apply every_strip_any with (ws := ws) (s := s).
Qed.

Lemma every_reverse p (s acc : string) :
  every p s = true -> every p acc = true -> every p (reverse s acc) = true.
Proof.
  revert acc. induction s as [|a s IH]; intros acc Hs Hacc; cbn [reverse];
    [exact Hacc |].
  cbn [every] in Hs. apply andb_true_iff in Hs as [Ha Hs].
  apply IH; [exact Hs |]. cbn [every]. now rewrite Ha.
Qed.

Lemma every_trim p (s : string) : every p s = true -> every p (trim s) = true.
Proof.
  intros H. unfold trim.
  apply every_reverse; [| reflexivity].
  apply every_trimStart_with, every_reverse; [| reflexivity].
  now apply every_trimStart_with.
Qed.

Lemma every_impl (p q : ascii -> bool) (s : string) :
  (forall a, p a = true -> q a = true) -> every p s = true -> every q s = true.
Proof.
  intros Hpq. induction s as [|a s IH]; cbn [every]; [reflexivity |].
  intros H. apply andb_true_iff in H as [Ha Hs]. now rewrite (Hpq a Ha), IH.
Qed.

(** X24.  Whatever DOMPurify hands back, the string [sanitizeInput] returns
    holds none of the characters <, >, the double and the single quote and
    the slash, and no control character. *)
Theorem sanitizeInput_clean (purify_sanitize : string -> string) (input : string) :
  clean (sanitizeInput purify_sanitize input) = true.
Proof.
  unfold clean, sanitizeInput. apply every_trim.
  pose (without (cs : list ascii) (a : ascii) := negb (existsb (Ascii.eqb a) cs)).
  apply every_impl
    with (p := fun a => without ["/"; "'"; ascii_of_nat 34; ">"; "<"]%char a
                        && negb (control a)).
  { intros a H. apply andb_true_iff in H as [H1 H2].
    unfold dangerous. rewrite negb_orb, H2, andb_true_r.
    unfold without in H1. cbn [existsb] in H1 |- *.
    destruct (Ascii.eqb a "<"), (Ascii.eqb a ">"), (Ascii.eqb a (ascii_of_nat 34)),
      (Ascii.eqb a "'"), (Ascii.eqb a "/"); cbn [orb negb] in H1 |- *;
      congruence. }
  apply every_removeControl.
  assert (Hstep : forall cs c a,
             without cs a = true -> Ascii.eqb a c = false ->
             without (c :: cs) a = true).
  { intros cs c a H Hc. unfold without in *. cbn [existsb]. now rewrite Hc. }
  apply every_replaceAll with (q := without ["'"; ascii_of_nat 34; ">"; "<"]%char);
    [apply Hstep | reflexivity |].
  apply every_replaceAll with (q := without [ascii_of_nat 34; ">"; "<"]%char);
    [apply Hstep | reflexivity |].
  apply every_replaceAll with (q := without [">"; "<"]%char);
    [apply Hstep | reflexivity |].
  apply every_replaceAll with (q := without ["<"]%char);
    [apply Hstep | reflexivity |].
  apply every_replaceAll with (q := without []);
    [apply Hstep | reflexivity |].
  apply every_impl with (p := fun _ => true); [reflexivity |].
  induction (purify_sanitize input) as [|a s IH]; [reflexivity | exact IH].
Qed.
End InputChecks.

(** ** The reply of the demonstration server *)

Section DemoReply.
Import DemoServer.
Variable toLowerCase : string -> string.

(** X25.  Every function of the table the message is related to appears in
    the reply of the demonstration server with its name and its syntax,
    and the reply counts what it lists. *)
Theorem demo_reply_lists_related (message : option string) (func : ExcelFunction) :
  JS.truthy message = true ->
  In func excelFunctions ->
  related toLowerCase (toLowerCase (default "" message)) func = true ->
  exists text n,
    chat_message toLowerCase message = Reply text n
    /\ (1 <= n <= 3)%nat
    /\ JS.includes text (name func) = true
    /\ JS.includes text (syntax func) = true.
Proof.
  intros Hm Hin Hrel. unfold chat_message. rewrite Hm. cbn [negb].
  set (found := List.filter _ excelFunctions).
  assert (Hfound : In func found)
    by (subst found; apply filter_In; split; assumption).
  assert (Hlen : (1 <= length found <= 3)%nat).
  { split.
    - destruct found; [contradiction | cbn; lia].
    - subst found. etrans; [apply filter_length_le | reflexivity]. }
  assert (Hpos : (0 <? length found)%nat = true) by (apply Nat.ltb_lt; lia).
  eexists _, _. split; [reflexivity |]. split; [exact Hlen |].
  rewrite Hpos.
  assert (Hpart : forall sub,
    JS.includes (render func) sub = true ->
    JS.includes
      (JS.concat_all
         [ "Excel専門チャットボットです。"; JS.nl; JS.nl;
           JS.concat_all
             ("関連する情報を見つけました：" :: JS.nl :: JS.nl :: map render found) ])
      sub = true).
  { intros sub Hsub.
    eapply includes_concat_all; [do 3 apply list_elem_of_further;
                                 apply list_elem_of_here |].
    eapply includes_concat_all; [| exact Hsub].
    do 3 apply list_elem_of_further.
    apply list_elem_of_In, in_map, Hfound. }
  split; apply Hpart; unfold render.
  - eapply includes_concat_all; [| apply includes_refl].
    apply list_elem_of_further, list_elem_of_here.
  - eapply includes_concat_all; [| apply includes_refl].
    do 7 apply list_elem_of_further. apply list_elem_of_here.
Qed.
End DemoReply.

(** X25 on a message that names one function. *)
Lemma demo_reply_lists_related_witness :
  exists text n,
    DemoServer.chat_message JS.toLowerCase (Some "how to use VLOOKUP")
    = DemoServer.Reply text n
    /\ (1 <= n <= 3)%nat
    /\ JS.includes text "VLOOKUP" = true
    /\ JS.includes text
         "VLOOKUP(lookup_value, table_array, col_index_num, [range_lookup])"
       = true.
Proof.
  apply (demo_reply_lists_related JS.toLowerCase (Some "how to use VLOOKUP")
           DemoServer.VLOOKUP);
    [reflexivity | right; left; reflexivity | reflexivity].
Defined.

(** ** The handshake of the WebSocket service *)

Section SocketHandshake.
Import UserModel AuthRoutes AuthMiddleware SocketService.
Variable jwt_verify : string -> JwtResult.

(** X26.  The WebSocket handshake lets in whom [authMiddleware] lets in:
    with a token in [auth.token], or with none there and the token in the
    Authorization header behind "Bearer ", the socket is connected exactly
    when [authMiddleware] would accept that header, and as the same user;
    an unknown, inactive or locked account is refused as an invalid user,
    every other failure as an authentication error. *)
Theorem socket_auth_agrees now token authorization (coll : list User) :
  token <> "" ->
  socket_auth jwt_verify now (Some token) authorization coll
  = match authMiddleware jwt_verify now (Some ("Bearer " +:+ token)) coll with
    | Authenticated user =>
        SocketConnected (_id user) (username user) (role user)
    | UnknownUser | AccountLocked => SocketInvalidUser
    | _ => SocketAuthError
    end
  /\ socket_auth jwt_verify now None (Some ("Bearer " +:+ token)) coll
     = socket_auth jwt_verify now (Some token) authorization coll.
Proof.
  intros Hne.
  assert (Htok : forall hdr, handshake_token (Some token) hdr = Some token).
  { intros hdr. unfold handshake_token, JS.or_else. cbn [JS.truthy].
    now destruct (String.eqb_spec token ""). }
  assert (Hhdr : handshake_token None (Some ("Bearer " +:+ token)) = Some token)
    by reflexivity.
  split.
  - unfold socket_auth, authMiddleware. rewrite Htok.
    change (substring_from 7 (default "" (Some ("Bearer " +:+ token)))) with token.
    change (JS.truthy (Some ("Bearer " +:+ token))) with true.
    replace (String.prefix "Bearer " (default "" (Some ("Bearer " +:+ token))))
      with true by (now destruct token).
    change (default "" (Some token)) with token.
    cbn [JS.truthy negb orb]. destruct (String.eqb_spec token ""); [contradiction |].
    cbn [negb]. destruct (jwt_verify token); try reflexivity.
    destruct (findById id coll) as [user|]; [| reflexivity].
    destruct (isActive user); cbn [negb orb]; [| reflexivity].
    now destruct (isLocked now user).
  - unfold socket_auth. now rewrite Htok, Hhdr.
Qed.
End SocketHandshake.

(** X26 on the locked account of alice: the handshake is refused. *)
Lemma socket_auth_agrees_witness :
  SocketService.socket_auth Cases.sample_jwt 7000000 (Some "token-of-u1") None
    [Cases.alice_after_lock]
  = SocketService.SocketInvalidUser
  /\ SocketService.socket_auth Cases.sample_jwt 7205000 None
       (Some "Bearer token-of-u1") [Cases.alice_after_lock]
     = SocketService.SocketConnected "u1" "alice" UserModel.RoleUser.
Proof.
  destruct (socket_auth_agrees Cases.sample_jwt 7000000 "token-of-u1" None
              [Cases.alice_after_lock]) as [H1 _]; [discriminate |].
  destruct (socket_auth_agrees Cases.sample_jwt 7205000 "token-of-u1" None
              [Cases.alice_after_lock]) as [H2 H3]; [discriminate |].
  split; [rewrite H1; reflexivity |].
  etrans; [exact H3 |]. rewrite H2. reflexivity.
Defined.

(** ** The registration of the demonstration server *)

Section DemoRegistration.
Import ServerSimple DemoRegister.

(** X27.  The demonstration server registers a name that is taken: with
    the three fields present the registration is answered 201 whoever is
    stored, and a user stored under the same name keeps its entry beside
    the new one. *)
Theorem demo_register_accepts_taken_name stamp iso (users : gmap string User)
    (b : Body) k (v : User) :
  JS.truthy (b_username b) = true ->
  JS.truthy (b_email b) = true ->
  JS.truthy (b_password b) = true ->
  users !! k = Some v ->
  username v = str (b_username b) ->
  k <> "user-" +:+ stamp ->
  exists u,
    (register stamp iso users b).1 = Registered u
    /\ status (register stamp iso users b).1 = 201
    /\ username u = username v
    /\ (register stamp iso users b).2 !! k = Some v
    /\ (register stamp iso users b).2 !! ("user-" +:+ stamp) = Some u.
Proof.
  intros Hu He Hp Hk Hname Hne. unfold register. rewrite Hu, He, Hp.
  cbn [negb orb fst snd id]. eexists. split; [reflexivity |].
  split; [reflexivity |]. split; [now rewrite Hname |].
  split; [now rewrite lookup_insert_ne by congruence | apply lookup_insert_eq].
Qed.
End DemoRegistration.

(** X27: a second dave beside the first. *)
Lemma demo_register_accepts_taken_name_witness :
  exists u,
    (DemoRegister.register "1700000000001" "2023-11-14T22:13:20.001Z"
       {[ "user-1700000000000" := Cases.demo_dave ]} Samples.dave_form).1
    = ServerSimple.Registered u
    /\ ServerSimple.status
         (DemoRegister.register "1700000000001" "2023-11-14T22:13:20.001Z"
            {[ "user-1700000000000" := Cases.demo_dave ]} Samples.dave_form).1
       = 201
    /\ ServerSimple.username u = "dave"
    /\ (DemoRegister.register "1700000000001" "2023-11-14T22:13:20.001Z"
          {[ "user-1700000000000" := Cases.demo_dave ]} Samples.dave_form).2
       !! "user-1700000000000" = Some Cases.demo_dave
    /\ (DemoRegister.register "1700000000001" "2023-11-14T22:13:20.001Z"
          {[ "user-1700000000000" := Cases.demo_dave ]} Samples.dave_form).2
       !! "user-1700000000001" = Some u.
Proof.
  apply (demo_register_accepts_taken_name "1700000000001"
           "2023-11-14T22:13:20.001Z"
           {[ "user-1700000000000" := Cases.demo_dave ]} Samples.dave_form
           "user-1700000000000" Cases.demo_dave);
    [reflexivity | reflexivity | reflexivity | reflexivity | reflexivity
    | discriminate].
Defined.
